(** * jellycli: view stack, modal overlay and update bridge

    A shallow embedding of the terminal user interface of jellycli:
    - [Help]   : the paged help modal (package [modal]);
    - [Bridge] : the channel-to-redraw loop of the first (gocui) interface
                 ([Gui.loop], [Gui.updateState]);
    - [Widgets]: the root widget [Window] with its view switching, modal
                 overlay, key dispatch, media navigation and search.

    Go [int] values are integers with 64-bit wrap-around, [error] values are
    [option]s ([None] is [nil]), and every call that leaves the package
    (player, queue, item controller, logger, toolkit redraws) is appended
    to a trace. *)

From Stdlib Require Import ZArith Lia.
From stdpp Require Import base decidable option list strings gmap functions.
From stdpp Require Import pretty.

Local Open Scope Z_scope.

(** ** Go integers *)

(** [int] on the 64-bit platforms the client is built for. *)
Definition wrap64 (z : Z) : Z := (z + 2 ^ 63) `mod` 2 ^ 64 - 2 ^ 63.

Definition int_add (a b : Z) : Z := wrap64 (a + b).
Definition int_sub (a b : Z) : Z := wrap64 (a - b).

(** [len] of a string, as an [int]. *)
Definition strlen (s : string) : Z := Z.of_nat (String.length s).

(** [for i, v := range l { s = f(s, i, v) }], entered at index [i]. *)
Fixpoint rangeFrom {A St : Type} (i : nat) (f : St -> nat -> A -> St)
    (l : list A) (s : St) : St :=
  match l with
  | [] => s
  | v :: l => rangeFrom (S i) f l (f s i v)
  end.

(** ** Formatted text

    The result of [fmt.Sprintf] and of string concatenation is kept as the
    sequence of its pieces, numbers unprinted. *)
Inductive Frag :=
  | FStr (s : string)
  | FInt (n : Z)
  | FBool (b : bool).

Definition Text := list Frag.

Global Instance Frag_eq_dec : EqDecision Frag.
Proof. solve_decision. Defined.

(** ** Keys of the terminal library *)
Module Tcell.

(** [tcell.Key] is an [int16]; the named keys below carry the values of
    the library's constant table. *)
Definition Key := Z.

Definition KeyTAB : Key := 9.
Definition KeyEnter : Key := 13.
Definition KeyEscape : Key := 27.
Definition KeyUp : Key := 257.
Definition KeyDown : Key := 258.
Definition KeyRight : Key := 259.
Definition KeyLeft : Key := 260.

(** [tcell.EventKey]: the key and the modifier mask. *)
Record EventKey := {
  Key_of : Key;
  Modifiers : Z
}.

Definition KeyCtrlJ : Key := 10.
Definition KeyCtrlK : Key := 11.

(** [tcell.ModMask] values. *)
Definition ModNone : Z := 0.
Definition ModAlt : Z := 4.

End Tcell.

(** ** The help modal *)
Module Help.
Import Tcell.

(** [models.Stats], the fields printed by [statsPage]. *)
Record Stats := {
  ServerName : string;
  ServerVersion : string;
  ServerId : string;
  ServerRestartPending : bool;
  ServerShutdownPending : bool;
  WebSocket : bool;
  RemoteControl : bool;
  LogFile : string;
  ConfigFile : string;
  CacheObjects : Z;
  HeapString : string
}.

Definition emptyStats : Stats :=
  {| ServerName := ""; ServerVersion := ""; ServerId := "";
     ServerRestartPending := false; ServerShutdownPending := false;
     WebSocket := false; RemoteControl := false;
     LogFile := ""; ConfigFile := ""; CacheObjects := 0; HeapString := "" |}.

(** The three page bodies.  [mainPage] and [shortcutsPage] are string
    literals of the source, [statsPage] formats the stored statistics. *)
Inductive Body :=
  | MainPage
  | ShortcutsPage
  | StatsPage (st : Stats).

(** What [setContent] hands to [SetText]:
    ["< %d / %d > %s \n\n"] followed by the page body. *)
Record Content := {
  shownPage : Z;
  shownTotal : Z;
  shownTitle : string;
  shownBody : Body
}.

(** The callbacks the window installs as [closeCb]. *)
Inductive DoneFunc :=
  | CloseHelp
  | WrapCloseModal
  | CloseMessage.

(** [type Help struct]; the embedded [TextView] is its text, its border
    colour, its focus flag and the keys handed down to it. *)
Record Help := {
  text : option Content;
  borderFocus : bool;
  hasFocus : bool;
  passedKeys : list Key;
  visible : bool;
  closeCb : option DoneFunc;
  page : Z;
  totalPages : Z;
  stats : Stats
}.

Definition set_text (v : option Content) (h : Help) : Help :=
  {| text := v; borderFocus := borderFocus h; hasFocus := hasFocus h;
     passedKeys := passedKeys h; visible := visible h; closeCb := closeCb h;
     page := page h; totalPages := totalPages h; stats := stats h |}.

Definition set_border (v : bool) (h : Help) : Help :=
  {| text := text h; borderFocus := v; hasFocus := hasFocus h;
     passedKeys := passedKeys h; visible := visible h; closeCb := closeCb h;
     page := page h; totalPages := totalPages h; stats := stats h |}.

Definition set_hasFocus (v : bool) (h : Help) : Help :=
  {| text := text h; borderFocus := borderFocus h; hasFocus := v;
     passedKeys := passedKeys h; visible := visible h; closeCb := closeCb h;
     page := page h; totalPages := totalPages h; stats := stats h |}.

Definition set_passedKeys (v : list Key) (h : Help) : Help :=
  {| text := text h; borderFocus := borderFocus h; hasFocus := hasFocus h;
     passedKeys := v; visible := visible h; closeCb := closeCb h;
     page := page h; totalPages := totalPages h; stats := stats h |}.

Definition set_page (v : Z) (h : Help) : Help :=
  {| text := text h; borderFocus := borderFocus h; hasFocus := hasFocus h;
     passedKeys := passedKeys h; visible := visible h; closeCb := closeCb h;
     page := v; totalPages := totalPages h; stats := stats h |}.

Definition set_totalPages (v : Z) (h : Help) : Help :=
  {| text := text h; borderFocus := borderFocus h; hasFocus := hasFocus h;
     passedKeys := passedKeys h; visible := visible h; closeCb := closeCb h;
     page := page h; totalPages := v; stats := stats h |}.

(** [func (h *Help) SetDoneFunc] *)
Definition SetDoneFunc (doneFunc : DoneFunc) (h : Help) : Help :=
  {| text := text h; borderFocus := borderFocus h; hasFocus := hasFocus h;
     passedKeys := passedKeys h; visible := visible h;
     closeCb := Some doneFunc;
     page := page h; totalPages := totalPages h; stats := stats h |}.

(** [func (h *Help) SetVisible] *)
Definition SetVisible (v : bool) (h : Help) : Help :=
  {| text := text h; borderFocus := borderFocus h; hasFocus := hasFocus h;
     passedKeys := passedKeys h; visible := v; closeCb := closeCb h;
     page := page h; totalPages := totalPages h; stats := stats h |}.

(** [func (h *Help) SetStats] *)
Definition SetStats (st : Stats) (h : Help) : Help :=
  {| text := text h; borderFocus := borderFocus h; hasFocus := hasFocus h;
     passedKeys := passedKeys h; visible := visible h; closeCb := closeCb h;
     page := page h; totalPages := totalPages h; stats := st |}.

(** [func (h *Help) Focus] *)
Definition Focus (h : Help) : Help := set_hasFocus true (set_border true h).

(** [func (h *Help) Blur] *)
Definition Blur (h : Help) : Help := set_hasFocus false (set_border false h).

(** [func (h *Help) setContent]: the [switch] on the page picks body and
    title, any other page leaves both empty and the text untouched. *)
Definition setContent (h : Help) : Help :=
  let '(got, title) :=
    if decide (page h = 0) then (Some MainPage, "About"%string)
    else if decide (page h = 1) then (Some ShortcutsPage, "Usage"%string)
    else if decide (page h = 2) then (Some (StatsPage (stats h)), "Info"%string)
    else (None, ""%string) in
  match got with
  | Some body =>
      set_text (Some {| shownPage := int_add (page h) 1;
                        shownTotal := totalPages h;
                        shownTitle := title;
                        shownBody := body |}) h
  | None => h
  end.

(** [func NewHelp]: [page] starts at the zero value. *)
Definition NewHelp (doneCb : DoneFunc) : Help :=
  let h := {| text := None; borderFocus := false; hasFocus := false;
              passedKeys := []; visible := false; closeCb := None;
              page := 0; totalPages := 0; stats := emptyStats |} in
  let h := SetDoneFunc doneCb h in
  let h := set_border false h in
  let h := set_totalPages 3 h in
  setContent h.

(** [func (h *Help) InputHandler]: the new help and, when Escape was
    pressed, the callback that has been called. *)
Definition InputHandler (key : Key) (h : Help) : Help * option DoneFunc :=
  if decide (key = KeyEscape) then (h, closeCb h)
  else if decide (key = KeyLeft) then
    if decide (page h > 0)
    then (setContent (set_page (int_sub (page h) 1) h), None)
    else (h, None)
  else if decide (key = KeyRight) then
    if decide (page h < int_sub (totalPages h) 1)
    then (setContent (set_page (int_add (page h) 1) h), None)
    else (h, None)
  else (set_passedKeys (passedKeys h ++ [key]) h, None).

(** Everything the rest of the program does to a help modal: the window
    delivers keys, and shows, hides, focuses, blurs and refreshes it. *)
Inductive Call :=
  | CallInput (key : Key)
  | CallSetVisible (v : bool)
  | CallSetStats (st : Stats)
  | CallSetDoneFunc (f : DoneFunc)
  | CallFocus
  | CallBlur.

Definition call (c : Call) (h : Help) : Help :=
  match c with
  | CallInput key => fst (InputHandler key h)
  | CallSetVisible v => SetVisible v h
  | CallSetStats st => SetStats st h
  | CallSetDoneFunc f => SetDoneFunc f h
  | CallFocus => Focus h
  | CallBlur => Blur h
  end.

Definition calls (cs : list Call) (h : Help) : Help :=
  fold_left (fun h c => call c h) cs h.

Definition pageInRange (h : Help) : Prop :=
  0 <= page h < totalPages h.

(** The invariant of the modal: three pages, the current one among them. *)
Definition wellPaged (h : Help) : Prop :=
  totalPages h = 3 /\ pageInRange h.

(** What the page becomes when a key arrives. *)
Definition nextPage (key : Key) (h : Help) : Z :=
  if decide (key = KeyLeft) then
    if decide (page h > 0) then page h - 1 else page h
  else if decide (key = KeyRight) then
    if decide (page h < totalPages h - 1) then page h + 1 else page h
  else page h.

(** [func formatBytes]; the argument is a [uint64].  The fourth test
    repeats the third. *)
Definition formatBytes (bytes : Z) : Text :=
  if decide (bytes < 1024) then [FInt bytes]
  else if decide (bytes < 1024 * 1024)
  then [FInt (bytes `div` 1024); FStr " KiB"]
  else if decide (bytes < 1024 * 1024 * 1024)
  then [FInt ((bytes `div` 1024) `div` 1024); FStr " MiB"]
  else if decide (bytes < 1024 * 1024 * 1024)
  then [FInt (((bytes `div` 1024) `div` 1024) `div` 1024); FStr " GiB"]
  else [].

(** The title [setContent] gives a page. *)
Definition titleOf (p : Z) : string :=
  if decide (p = 0) then "About"
  else if decide (p = 1) then "Usage"
  else if decide (p = 2) then "Info"
  else "".

(** The body is the one [setContent] picks for page [p]. *)
Definition bodyOf (p : Z) (b : Body) : Prop :=
  match b with
  | MainPage => p = 0
  | ShortcutsPage => p = 1
  | StatsPage _ => p = 2
  end.

(** The text on screen is the one of the current page. *)
Definition showsPage (h : Help) : Prop :=
  exists c,
    text h = Some c /\ shownPage c = page h + 1 /\
    shownTotal c = totalPages h /\ shownTitle c = titleOf (page h) /\
    bodyOf (page h) (shownBody c).

End Help.

(** ** The update bridge of the first interface *)
Module Bridge.

Section Gui.

(** [player.PlayingState]; the bridge only stores and forwards it. *)
Context {PlayingState : Type}.

(** What one [select] of the loop can receive. *)
Inductive Msg :=
  | Stop
  | State (s : PlayingState).

(** Lock operations, pointer accesses and toolkit calls, in program
    order. *)
Inductive Event :=
  | Lock
  | Store (s : PlayingState)
  | Unlock
  | Update
  | RLock
  | Load (s : option PlayingState)
  | RUnlock
  | ProgressUpdate (s : option PlayingState).

(** [type Gui struct]: the stored snapshot, the callbacks queued with
    [gui.Update] and not yet run, and what the status bar was last
    given. *)
Record Gui := {
  lastState : option PlayingState;
  queued : nat;
  progress : option PlayingState;
  events : list Event
}.

(** How a loop iteration ends. *)
Inductive Flow :=
  | NextIteration
  | Return.

(** The body of [for true { select { ... } }] in [Gui.loop].  The
    [break] of the first case leaves the [select] statement, after
    which the [for] statement starts over. *)
Definition iteration (m : Msg) (g : Gui) : Gui * Flow :=
  match m with
  | Stop => (g, NextIteration)
  | State state =>
      ({| lastState := Some state;
          queued := S (queued g);
          progress := progress g;
          events := events g ++ [Lock; Store state; Unlock; Update] |},
       NextIteration)
  end.

(** Where [Gui.loop] stands once the messages are used up. *)
Inductive Status :=
  | Waiting
  | Returned.

(** [func (g *Gui) loop]: the messages are the receptions of the
    successive [select]s; with none left the loop waits in [select].
    The result has the number of iterations carried out. *)
Fixpoint loop (msgs : list Msg) (g : Gui) : Gui * Status * nat :=
  match msgs with
  | [] => (g, Waiting, O)
  | m :: msgs =>
      match iteration m g with
      | (g, Return) => (g, Returned, 1%nat)
      | (g, NextIteration) =>
          let '(g, st, n) := loop msgs g in (g, st, S n)
      end
  end.

(** [func (g *Gui) updateState] *)
Definition updateState (g : Gui) : Gui :=
  let state := lastState g in
  {| lastState := lastState g;
     queued := queued g;
     progress := state;
     events := events g ++ [RLock; Load state; RUnlock; ProgressUpdate state] |}.

(** The user interface thread runs one callback queued by
    [gui.Update], if there is one. *)
Definition redraw (g : Gui) : Gui :=
  match queued g with
  | O => g
  | S n =>
      updateState {| lastState := lastState g; queued := n;
                     progress := progress g; events := events g |}
  end.

(** The loop goroutine and the interface thread, interleaved. *)
Inductive Step :=
  | Recv (m : Msg)
  | Redraw.

Definition step (st : Step) (g : Gui) : Gui :=
  match st with
  | Recv m => fst (iteration m g)
  | Redraw => redraw g
  end.

Definition run (sts : list Step) (g : Gui) : Gui :=
  fold_left (fun g st => step st g) sts g.

(** Steps that bring no new player state. *)
Definition quiet (st : Step) : bool :=
  match st with
  | Recv (State _) => false
  | _ => true
  end.

Definition initial : Gui :=
  {| lastState := None; queued := O; progress := None; events := [] |}.

(** What one run of [updateState] adds to the events when it finds the
    state [s] stored. *)
Definition reads (s : PlayingState) : list Event :=
  [RLock; Load (Some s); RUnlock; ProgressUpdate (Some s)].

End Gui.

Arguments Msg : clear implicits.
Arguments Event : clear implicits.
Arguments Gui : clear implicits.
Arguments Step : clear implicits.

End Bridge.

(** ** The channels of the first interface *)
Module Shell.

(** A channel by identity; [None] is the [nil] channel. *)
Definition Chan := option nat.

(** The two channel fields of [type Gui struct]. *)
Record Channels := {
  stateChan : Chan;
  actionChan : Chan
}.

Definition unassigned : Channels :=
  {| stateChan := None; actionChan := None |}.

(** [func (g *Gui) AssignChannels] *)
Definition AssignChannels (state action : Chan) (g : Channels) : Channels :=
  let g :=
    if decide (stateChan g = None)
    then {| stateChan := state; actionChan := actionChan g |}
    else g in
  if decide (actionChan g = None)
  then {| stateChan := stateChan g; actionChan := action |}
  else g.

(** A series of calls of [AssignChannels]. *)
Definition assignAll (cs : list (Chan * Chan)) (g : Channels) : Channels :=
  fold_left (fun g c => AssignChannels (fst c) (snd c) g) cs g.

(** The first channel of a series that is not [nil]. *)
Fixpoint firstChan (cs : list Chan) : Chan :=
  match cs with
  | [] => None
  | Some c :: _ => Some c
  | None :: cs => firstChan cs
  end.

End Shell.

(** ** Models, paging and configuration *)
Module Models.

Definition Id := string.

(** [models.ItemType] is a string type. *)
Definition ItemType := string.

Record IdName := {
  IdName_Id : Id;
  IdName_Name : string
}.

Record Artist := {
  Artist_Id : Id;
  Artist_Name : string;
  Artist_TotalDuration : Z;
  Artist_AlbumCount : Z;
  Artist_Favorite : bool
}.

Record Album := {
  Album_Id : Id;
  Album_Name : string;
  Album_Year : Z;
  Album_Duration : Z;
  Album_Artist : Id;
  Album_AdditionalArtists : list IdName
}.

Record Song := {
  Song_Id : Id;
  Song_Name : string;
  Song_Duration : Z;
  Song_AlbumArtist : Id
}.

Record Playlist := {
  Playlist_Id : Id;
  Playlist_Name : string;
  Playlist_Duration : Z;
  Playlist_Songs : list Song
}.

(** [models.Item], the interface behind search results. *)
Inductive Item :=
  | ItemArtist (a : Artist)
  | ItemAlbum (a : Album)
  | ItemSong (s : Song)
  | ItemPlaylist (p : Playlist)
  | ItemGenre (g : IdName).

(** The item types [showSearchResults] tells apart.  They are constants
    of package [models], whose source is not at hand: their values are
    left open. *)
Record ItemTypes := {
  TypeAlbum : ItemType;
  TypeArtist : ItemType;
  TypeSong : ItemType;
  TypePlaylist : ItemType;
  TypeGenre : ItemType
}.

(** The type assertions of an item to a pointer to [models.Album] and the
    like, in their comma-ok form: an item of another type gives [nil]. *)
Definition asAlbum (v : Item) : option Album :=
  match v with ItemAlbum a => Some a | _ => None end.

Definition asArtist (v : Item) : option Artist :=
  match v with ItemArtist a => Some a | _ => None end.

Definition asSong (v : Item) : option Song :=
  match v with ItemSong s => Some s | _ => None end.

Definition asPlaylist (v : Item) : option Playlist :=
  match v with ItemPlaylist p => Some p | _ => None end.

Definition set_AlbumCount (n : Z) (a : Artist) : Artist :=
  {| Artist_Id := Artist_Id a; Artist_Name := Artist_Name a;
     Artist_TotalDuration := Artist_TotalDuration a;
     Artist_AlbumCount := n; Artist_Favorite := Artist_Favorite a |}.

Definition set_AlbumArtist (i : Id) (s : Song) : Song :=
  {| Song_Id := Song_Id s; Song_Name := Song_Name s;
     Song_Duration := Song_Duration s; Song_AlbumArtist := i |}.

(** [len] of a slice, as an [int]. *)
Definition len {A} (l : list A) : Z := Z.of_nat (length l).

End Models.

Module Interfaces.

(** [interfaces.Paging] *)
Record Paging := {
  TotalItems : Z;
  TotalPages : Z;
  CurrentPage : Z;
  PageSize : Z
}.

Definition set_PageSize (n : Z) (p : Paging) : Paging :=
  {| TotalItems := TotalItems p; TotalPages := TotalPages p;
     CurrentPage := CurrentPage p; PageSize := n |}.

Definition set_CurrentPage (n : Z) (p : Paging) : Paging :=
  {| TotalItems := TotalItems p; TotalPages := TotalPages p;
     CurrentPage := n; PageSize := PageSize p |}.

(** Modelled from the spec: [Paging.SetTotalItems], whose source is not
    at hand; the paging invariant gives
    [total_pages = ceil(total_items / page_size)]. *)
Definition SetTotalItems (count : Z) (p : Paging) : Paging :=
  {| TotalItems := count;
     TotalPages := - ((- count) `div` PageSize p);
     CurrentPage := CurrentPage p; PageSize := PageSize p |}.

(** Modelled from the spec: [Paging.Offset], whose source is not at hand;
    the paging invariant gives [offset = current_page * page_size]. *)
Definition Offset (p : Paging) : Z := CurrentPage p * PageSize p.

(** Modelled from the spec: [interfaces.DefaultPaging], whose source is
    not at hand: the first page of a collection not yet counted, with the
    page size of the build. *)
Definition DefaultPaging (pageSize : Z) : Paging :=
  {| TotalItems := 0; TotalPages := 0; CurrentPage := 0; PageSize := pageSize |}.

End Interfaces.

Module Config.
Import Tcell Models.

(** [config.KeyBinds.Global] *)
Record Global := {
  Stop : Key;
  PlayPause : Key;
  VolumeDown : Key;
  VolumeUp : Key;
  Next : Key;
  Previous : Key;
  Forward : Key;
  Backward : Key
}.

(** [config.KeyBinds.NavigationBar] *)
Record NavigationBar := {
  Quit : Key;
  Help : Key;
  Search : Key;
  Queue : Key;
  History : Key
}.

(** The configuration the window reads: key bindings,
    [AppConfig.Player.SearchTypes], [LimitRecentlyPlayed] and the default
    page size. *)
Record Config := {
  KeyBinds_Global : Global;
  KeyBinds_NavigationBar : NavigationBar;
  SearchTypes : list ItemType;
  LimitRecentlyPlayed : bool;
  DefaultPageSize : Z
}.

End Config.

(** ** Package widgets *)
Module Widgets.
Import Tcell Models Interfaces.

(** *** Screens and other primitives *)

(** The pre-allocated central views of the window, by identity.  Each
    implements [Previous]. *)
Inductive ScreenId :=
  | ViewArtistList
  | ViewAlbumList
  | ViewSimilarAlbums
  | ViewAlbum
  | ViewLatestAlbums
  | ViewFavoriteAlbums
  | ViewPlaylists
  | ViewPlaylist
  | ViewSongs
  | ViewGenres
  | ViewSearchResultsTop
  | ViewQueue
  | ViewHistory.

Global Instance ScreenId_eq_dec : EqDecision ScreenId.
Proof. solve_decision. Defined.

Definition ScreenId_code (s : ScreenId) : nat :=
  match s with
  | ViewArtistList => 0 | ViewAlbumList => 1 | ViewSimilarAlbums => 2
  | ViewAlbum => 3 | ViewLatestAlbums => 4 | ViewFavoriteAlbums => 5
  | ViewPlaylists => 6 | ViewPlaylist => 7 | ViewSongs => 8
  | ViewGenres => 9 | ViewSearchResultsTop => 10 | ViewQueue => 11
  | ViewHistory => 12
  end%nat.

Definition ScreenId_decode (n : nat) : option ScreenId :=
  match n with
  | 0 => Some ViewArtistList | 1 => Some ViewAlbumList
  | 2 => Some ViewSimilarAlbums | 3 => Some ViewAlbum
  | 4 => Some ViewLatestAlbums | 5 => Some ViewFavoriteAlbums
  | 6 => Some ViewPlaylists | 7 => Some ViewPlaylist | 8 => Some ViewSongs
  | 9 => Some ViewGenres | 10 => Some ViewSearchResultsTop
  | 11 => Some ViewQueue | 12 => Some ViewHistory | _ => None
  end%nat.

Global Program Instance ScreenId_countable : Countable ScreenId :=
  inj_countable ScreenId_code ScreenId_decode _.
Next Obligation. by intros []. Qed.

(** The two modals of the window. *)
Inductive ModalId :=
  | ModalHelp
  | ModalMessage.

Global Instance ModalId_eq_dec : EqDecision ModalId.
Proof. solve_decision. Defined.

(** [cview.Primitive] values the window hands to the toolkit. *)
Inductive Primitive :=
  | PView (s : ScreenId)
  | PModal (m : ModalId)
  | PMediaNav
  | PNavBar
  | PStatus
  | PLayout.

Global Instance Primitive_eq_dec : EqDecision Primitive.
Proof. solve_decision. Defined.

(** [type MediaSelect int], the rows of the media navigation. *)
Inductive MediaSelect :=
  | MediaLatestMusic
  | MediaRecent
  | MediaArtists
  | MediaAlbumArtists
  | MediaAlbums
  | MediaSongs
  | MediaPlaylists
  | MediaFavoriteArtists
  | MediaFavoriteAlbums
  | MediaGenres.

Global Instance MediaSelect_eq_dec : EqDecision MediaSelect.
Proof. solve_decision. Defined.

(** The [iota] value of a row. *)
Definition MediaSelect_int (m : MediaSelect) : nat :=
  match m with
  | MediaLatestMusic => 0 | MediaRecent => 1 | MediaArtists => 2
  | MediaAlbumArtists => 3 | MediaAlbums => 4 | MediaSongs => 5
  | MediaPlaylists => 6 | MediaFavoriteArtists => 7
  | MediaFavoriteAlbums => 8 | MediaGenres => 9
  end%nat.

Definition MediaSelect_of_int (n : nat) : option MediaSelect :=
  match n with
  | 0 => Some MediaLatestMusic | 1 => Some MediaRecent
  | 2 => Some MediaArtists | 3 => Some MediaAlbumArtists
  | 4 => Some MediaAlbums | 5 => Some MediaSongs
  | 6 => Some MediaPlaylists | 7 => Some MediaFavoriteArtists
  | 8 => Some MediaFavoriteAlbums | 9 => Some MediaGenres | _ => None
  end%nat.

Global Program Instance MediaSelect_countable : Countable MediaSelect :=
  inj_countable MediaSelect_int MediaSelect_of_int _.
Next Obligation. by intros []. Qed.

(** *** Collaborators *)

Definition error := option string.

(** [interfaces.ItemController]: what each call returns.  Go returns the
    values and the error side by side, and so does the model. *)
Record ItemController := {
  GetLatestAlbums : list Album * error;
  GetFavoriteArtists : list Artist * error;
  GetPlaylists : list Playlist * error;
  GetSongs : Z -> Z -> list Song * Z * error;
  GetRecentlyPlayed : Paging -> list Song * Z * error;
  GetArtists : Paging -> list Artist * Z * error;
  GetAlbumArtists : Paging -> list Artist * Z * error;
  GetAlbums : Paging -> list Album * Z * error;
  GetFavoriteAlbums : Paging -> list Album * Z * error;
  GetGenres : Paging -> list IdName * Z * error;
  GetArtistAlbums : Id -> list Album * error;
  GetAlbumSongs : Id -> list Song * error;
  GetAlbumArtist : Album -> option Artist * error;
  GetPlaylistSongs : Playlist -> Playlist * error;
  GetSimilarArtists : Id -> list Artist * error;
  GetSimilarAlbums : Id -> list Album * error;
  GetGenreAlbums : IdName -> list Album * error;
  Search : ItemType -> string -> list Item * error;
  GetStatistics : Help.Stats
}.

(** Calls on [interfaces.ItemController]. *)
Inductive ItemCall :=
  | CallGetLatestAlbums
  | CallGetFavoriteArtists
  | CallGetPlaylists
  | CallGetSongs (page pageSize : Z)
  | CallGetRecentlyPlayed (p : Paging)
  | CallGetArtists (p : Paging)
  | CallGetAlbumArtists (p : Paging)
  | CallGetAlbums (p : Paging)
  | CallGetFavoriteAlbums (p : Paging)
  | CallGetGenres (p : Paging)
  | CallGetArtistAlbums (i : Id)
  | CallGetAlbumSongs (i : Id)
  | CallGetAlbumArtist (a : Album)
  | CallGetPlaylistSongs (p : Playlist)
  | CallGetSimilarArtists (i : Id)
  | CallGetSimilarAlbums (i : Id)
  | CallGetGenreAlbums (g : IdName)
  | CallSearch (t : ItemType) (query : string)
  | CallGetStatistics.

(** Calls on [interfaces.Player]. *)
Inductive PlayerCall :=
  | StopMedia
  | PlayPause
  | SetVolume (volume : Z)
  | Next
  | Previous
  | Seek (ticks : Z).

(** Calls on [interfaces.QueueController]. *)
Inductive QueueCall :=
  | ClearQueue (first : bool)
  | GetHistory (n : Z)
  | AddSongs (songs : list Song).

Inductive Level :=
  | LevelDebug
  | LevelWarning
  | LevelError.

(** What leaves the window, in program order: calls made in the calling
    goroutine, calls started with a [go] statement, log lines and
    requests to the application. *)
Inductive Event :=
  | PlayerDo (c : PlayerCall)
  | PlayerGo (c : PlayerCall)
  | QueueDo (c : QueueCall)
  | ItemsDo (c : ItemCall)
  | Log (l : Level) (msg : Text)
  | AppStop
  | QueueUpdateDraw
  | Blurred (p : Primitive)
  | Focused (p : Primitive).

(** Pieces of text computed by helpers outside the sources at hand. *)
Definition charFavorite : Frag := FStr "charFavorite".
Definition SecToStringApproximate (sec : Z) : Text :=
  [FStr "SecToStringApproximate"; FInt sec].

Definition errText (prefix : string) (e : string) : Text :=
  [FStr prefix; FStr e].

(** *** The album list *)
Module AlbumList.

(** [type AlbumCover struct]; [artists] is never assigned, so the
    artist line of [NewAlbumCover] is always empty. *)
Record AlbumCover := {
  album : Album;
  index : Z;
  coverText : Text
}.

(** [func NewAlbumCover]: ["%d. %s\n%d"]. *)
Definition NewAlbumCover (index : Z) (album : Album) : AlbumCover :=
  {| album := album; index := index;
     coverText := [FInt index; FStr ". "; FStr (Album_Name album);
                   FStr "\n"; FInt (Album_Year album)] |}.

Definition setText (t : Text) (c : AlbumCover) : AlbumCover :=
  {| album := album c; index := index c; coverText := t |}.

(** The sub-widgets of the banner. *)
Inductive Part :=
  | PrevBtn
  | PlayBtn
  | Name
  | PagingPrevious
  | PagingNext
  | PagingSelector
  | Options
  | List.

(** [type AlbumList struct]: the rows of the scroll list, their mirror
    [albumCovers], the page selector ([pagingPage], [pagingTotal]),
    and the banner's grid (part, row, column) and selectables. *)
Record AlbumList := {
  listItems : list AlbumCover;
  albumCovers : list AlbumCover;
  pagingEnabled : bool;
  page : Paging;
  pagingPage : Z;
  pagingTotal : Z;
  artistMode : bool;
  similarEnabled : bool;
  artist : option Artist;
  name : Text;
  grid : list (Part * Z * Z);
  selectable : list Part
}.

Definition set_items (l c : list AlbumCover) (a : AlbumList) : AlbumList :=
  {| listItems := l; albumCovers := c;
     pagingEnabled := pagingEnabled a; page := page a;
     pagingPage := pagingPage a; pagingTotal := pagingTotal a;
     artistMode := artistMode a; similarEnabled := similarEnabled a;
     artist := artist a; name := name a;
     grid := grid a; selectable := selectable a |}.

Definition set_pagingEnabled (v : bool) (a : AlbumList) : AlbumList :=
  {| listItems := listItems a; albumCovers := albumCovers a;
     pagingEnabled := v; page := page a;
     pagingPage := pagingPage a; pagingTotal := pagingTotal a;
     artistMode := artistMode a; similarEnabled := similarEnabled a;
     artist := artist a; name := name a;
     grid := grid a; selectable := selectable a |}.

Definition set_paging (p : Paging) (n t : Z) (a : AlbumList) : AlbumList :=
  {| listItems := listItems a; albumCovers := albumCovers a;
     pagingEnabled := pagingEnabled a; page := p;
     pagingPage := n; pagingTotal := t;
     artistMode := artistMode a; similarEnabled := similarEnabled a;
     artist := artist a; name := name a;
     grid := grid a; selectable := selectable a |}.

Definition set_artistMode (v : bool) (a : AlbumList) : AlbumList :=
  {| listItems := listItems a; albumCovers := albumCovers a;
     pagingEnabled := pagingEnabled a; page := page a;
     pagingPage := pagingPage a; pagingTotal := pagingTotal a;
     artistMode := v; similarEnabled := similarEnabled a;
     artist := artist a; name := name a;
     grid := grid a; selectable := selectable a |}.

Definition set_similarEnabled (v : bool) (a : AlbumList) : AlbumList :=
  {| listItems := listItems a; albumCovers := albumCovers a;
     pagingEnabled := pagingEnabled a; page := page a;
     pagingPage := pagingPage a; pagingTotal := pagingTotal a;
     artistMode := artistMode a; similarEnabled := v;
     artist := artist a; name := name a;
     grid := grid a; selectable := selectable a |}.

Definition set_artist (v : option Artist) (a : AlbumList) : AlbumList :=
  {| listItems := listItems a; albumCovers := albumCovers a;
     pagingEnabled := pagingEnabled a; page := page a;
     pagingPage := pagingPage a; pagingTotal := pagingTotal a;
     artistMode := artistMode a; similarEnabled := similarEnabled a;
     artist := v; name := name a;
     grid := grid a; selectable := selectable a |}.

Definition set_name (v : Text) (a : AlbumList) : AlbumList :=
  {| listItems := listItems a; albumCovers := albumCovers a;
     pagingEnabled := pagingEnabled a; page := page a;
     pagingPage := pagingPage a; pagingTotal := pagingTotal a;
     artistMode := artistMode a; similarEnabled := similarEnabled a;
     artist := artist a; name := v;
     grid := grid a; selectable := selectable a |}.

Definition set_banner (g : list (Part * Z * Z)) (s : list Part)
    (a : AlbumList) : AlbumList :=
  {| listItems := listItems a; albumCovers := albumCovers a;
     pagingEnabled := pagingEnabled a; page := page a;
     pagingPage := pagingPage a; pagingTotal := pagingTotal a;
     artistMode := artistMode a; similarEnabled := similarEnabled a;
     artist := artist a; name := name a;
     grid := g; selectable := s |}.

(** [func (a *AlbumList) AddAlbum] *)
Definition AddAlbum (c : AlbumCover) (a : AlbumList) : AlbumList :=
  set_items (listItems a ++ [c]) (albumCovers a ++ [c]) a.

(** [func (a *AlbumList) Clear] *)
Definition Clear (a : AlbumList) : AlbumList := set_items [] [] a.

(** [func (a *AlbumList) SetArtist]:
    ["%s%s\nAlbums: %d, Total: %s"]. *)
Definition SetArtist (artist : option Artist) (a : AlbumList) : AlbumList :=
  let a := set_artist artist a in
  match artist with
  | Some ar =>
      let favorite :=
        if Artist_Favorite ar then [charFavorite; FStr " "] else [] in
      set_name (favorite ++ [FStr (Artist_Name ar); FStr "\nAlbums: ";
                             FInt (Artist_AlbumCount ar); FStr ", Total: "]
                         ++ SecToStringApproximate (Artist_TotalDuration ar)) a
  | None => set_name [] a
  end.

(** [func (a *AlbumList) SetLabel] *)
Definition SetLabel (label : Text) (a : AlbumList) : AlbumList :=
  set_name label a.

(** [func (a *AlbumList) SetText] *)
Definition SetText (text : Text) (a : AlbumList) : AlbumList :=
  set_name text a.

(** [func (a *AlbumList) SetPage] *)
Definition SetPage (paging : Paging) (a : AlbumList) : AlbumList :=
  set_paging paging (CurrentPage paging) (TotalPages paging) a.

(** [func (a *AlbumList) EnableArtistMode] *)
Definition EnableArtistMode (enabled : bool) (a : AlbumList) : AlbumList :=
  set_artistMode enabled a.

(** One cover of [SetAlbums]; outside artist mode the text becomes
    ["%d. %s\n     %s - %d"] with the first additional artist. *)
Definition cover (artistMode : bool) (offset : Z) (i : nat) (v : Album)
    : AlbumCover :=
  let n := int_add (int_add offset (Z.of_nat i)) 1 in
  let c := NewAlbumCover n v in
  if artistMode then c
  else
    let artist :=
      match Album_AdditionalArtists v with
      | first :: _ => IdName_Name first
      | [] => ""%string
      end in
    setText [FInt n; FStr ". "; FStr (Album_Name v); FStr "\n     ";
             FStr artist; FStr " - "; FInt (Album_Year v)] c.

(** [func (a *AlbumList) SetAlbums] *)
Definition SetAlbums (albums : list Album) (a : AlbumList)
    : AlbumList :=
  let offset := if pagingEnabled a then Offset (page a) else 0 in
  let items := imap (cover (artistMode a) offset) albums in
  set_items items items a.

(** [func (a *AlbumList) setButtons] *)
Definition setButtons (a : AlbumList) : AlbumList :=
  let selectables := [PrevBtn; PlayBtn] in
  let g := [(PrevBtn, 0, 0); (Name, 0, 2); (PlayBtn, 3, 2)] in
  let '(selectables, g) :=
    if pagingEnabled a
    then (selectables ++ [PagingPrevious; PagingNext],
          g ++ [(PagingSelector, 3, 4)])
    else (selectables, g) in
  let '(selectables, g) :=
    if similarEnabled a
    then (selectables ++ [Options],
          g ++ [(Options, 3, if pagingEnabled a then 6 else 4)])
    else (selectables, g) in
  set_banner (g ++ [(List, 4, 0)]) (selectables ++ [List]) a.

(** [func (a *AlbumList) EnablePaging] *)
Definition EnablePaging (enabled : bool) (a : AlbumList) : AlbumList :=
  if pagingEnabled a && enabled then a
  else if negb (pagingEnabled a) && negb enabled then a
  else setButtons (set_pagingEnabled enabled a).

(** [func (a *AlbumList) EnableSimilar] *)
Definition EnableSimilar (enabled : bool) (a : AlbumList) : AlbumList :=
  setButtons (set_similarEnabled enabled a).

Definition emptyArtist : Artist :=
  {| Artist_Id := ""; Artist_Name := ""; Artist_TotalDuration := 0;
     Artist_AlbumCount := 0; Artist_Favorite := false |}.

Definition zeroPaging : Paging :=
  {| TotalItems := 0; TotalPages := 0; CurrentPage := 0; PageSize := 0 |}.

(** [func NewAlbumList] *)
Definition NewAlbumList : AlbumList :=
  setButtons
    {| listItems := []; albumCovers := [];
       pagingEnabled := true; page := zeroPaging;
       pagingPage := 0; pagingTotal := 0;
       artistMode := false; similarEnabled := true;
       artist := Some emptyArtist; name := [];
       grid := []; selectable := [] |}.

(** [func newLatestAlbums] *)
Definition newLatestAlbums : AlbumList :=
  EnableSimilar false (EnablePaging false (EnableArtistMode false NewAlbumList)).

(** [func newFavoriteAlbums] *)
Definition newFavoriteAlbums : AlbumList :=
  EnableSimilar false (EnablePaging true (EnableArtistMode false NewAlbumList)).

(** [func printArtists] *)
Definition printArtists (artists : list string) (maxWidth : Z) : string :=
  let need :=
    rangeFrom 0
      (fun need i v =>
         let need := int_add need (strlen v) in
         if decide (0 < i)%nat then int_add need 2 else need)
      artists 0 in
  if decide (need > maxWidth) then
    let out := pretty (len artists) +:+ " artists" in
    if decide (strlen out > maxWidth) then ""%string else out
  else
    rangeFrom 0
      (fun out i v =>
         let out := if decide (0 < i)%nat then out +:+ ", " else out in
         out +:+ v)
      artists ""%string.

(** The names after the first, each behind its [", "], and their
    length. *)
Fixpoint joinTail (l : list string) : string :=
  match l with
  | [] => ""
  | v :: l => ", " +:+ v +:+ joinTail l
  end.

Fixpoint joinTailWidth (l : list string) : Z :=
  match l with
  | [] => 0
  | v :: l => 2 + strlen v + joinTailWidth l
  end.

(** [func (a *AlbumList) selectPage]: the list and the page handed to
    [selectPageFunc]. *)
Definition selectPage (n : Z) (a : AlbumList) : AlbumList * Paging :=
  let a := set_paging (set_CurrentPage n (page a)) n (pagingTotal a) a in
  (a, page a).

(** [func (a *AlbumList) selectAlbum]: [selectFunc] tells whether the
    callback is set, [selected] is [a.list.GetSelectedIndex()].  The
    result is the album handed to the callback, if it is called; [None]
    is the panic of an index below zero. *)
Definition selectAlbum (selectFunc : bool) (selected : Z) (a : AlbumList)
    : option (option Album) :=
  if selectFunc then
    let index := selected in
    if decide (len (albumCovers a) > index) then
      if decide (0 <= index)
      then match albumCovers a !! Z.to_nat index with
           | Some c => Some (Some (album c))
           | None => None
           end
      else None
    else Some None
  else Some None.

(** The calls that change an album list. *)
Inductive Call :=
  | CallAddAlbum (c : AlbumCover)
  | CallClear
  | CallSetArtist (artist : option Artist)
  | CallSetLabel (label : Text)
  | CallSetText (text : Text)
  | CallSetPage (paging : Paging)
  | CallEnableArtistMode (enabled : bool)
  | CallSelectPage (n : Z)
  | CallSetAlbums (albums : list Album)
  | CallEnablePaging (enabled : bool)
  | CallEnableSimilar (enabled : bool).

Definition call (c : Call) (a : AlbumList) : AlbumList :=
  match c with
  | CallAddAlbum c => AddAlbum c a
  | CallClear => Clear a
  | CallSetArtist artist => SetArtist artist a
  | CallSetLabel label => SetLabel label a
  | CallSetText text => SetText text a
  | CallSetPage paging => SetPage paging a
  | CallEnableArtistMode enabled => EnableArtistMode enabled a
  | CallSelectPage n => fst (selectPage n a)
  | CallSetAlbums albums => SetAlbums albums a
  | CallEnablePaging enabled => EnablePaging enabled a
  | CallEnableSimilar enabled => EnableSimilar enabled a
  end.

Definition calls (cs : list Call) (a : AlbumList) : AlbumList :=
  fold_left (fun a c => call c a) cs a.

(** The parts that can be selected with the given switches. *)
Definition selectableFor (paging similar : bool) : list Part :=
  [PrevBtn; PlayBtn]
  ++ (if paging then [PagingPrevious; PagingNext] else [])
  ++ (if similar then [Options] else [])
  ++ [List].

(** The rows and their mirror agree, and the banner is the one of the
    switches. *)
Definition consistent (a : AlbumList) : Prop :=
  listItems a = albumCovers a /\
  selectable a = selectableFor (pagingEnabled a) (similarEnabled a).

End AlbumList.

(** *** The playlist view *)
Module PlaylistView.

(** [type PlaylistView struct]: the rows of the scroll list and their
    mirror [songs] are songs with their 1-based position
    ([newAlbumSong(v, false, i+1)]). *)
Record PlaylistView := {
  listItems : list (Song * Z);
  songs : list (Song * Z);
  playlist : option Playlist;
  description : Text
}.

Definition NewPlaylistView : PlaylistView :=
  {| listItems := []; songs := []; playlist := None; description := [] |}.

(** [func (p *PlaylistView) SetPlaylist]:
    the name, then ["\n%d tracks  %s"]. *)
Definition SetPlaylist (pl : Playlist) (p : PlaylistView) : PlaylistView :=
  let items :=
    imap (fun i v => (v, int_add (Z.of_nat i) 1)) (Playlist_Songs pl) in
  {| listItems := items; songs := items; playlist := Some pl;
     description := [FStr (Playlist_Name pl); FStr "\n";
                     FInt (len (Playlist_Songs pl)); FStr " tracks  "]
                    ++ SecToStringApproximate (Playlist_Duration pl) |}.

(** What a key or a button of the view hands to the window. *)
Inductive Played :=
  | PlayedSong (song : Song)
  | PlayedSongs (songs : list Song).

(** [func (p *PlaylistView) playSong]: [playSongFunc] tells whether the
    callback is set; [None] is the panic of [p.songs[index]] out of
    range. *)
Definition playSong (playSongFunc : bool) (index : Z) (p : PlaylistView)
    : option (option Played) :=
  if playSongFunc then
    if decide (0 <= index) then
      match songs p !! Z.to_nat index with
      | Some row => Some (Some (PlayedSong (fst row)))
      | None => None
      end
    else None
  else Some None.

(** [func (p *PlaylistView) playAll] *)
Definition playAll (playSongsFunc : bool) (p : PlaylistView)
    : option (option Played) :=
  if playSongsFunc
  then Some (Some (PlayedSongs (map fst (songs p))))
  else Some None.

(** [func (p *PlaylistView) playFromSelected]: [selected] is
    [p.list.GetSelectedIndex()]; [None] is the panic of [make] with a
    negative length or of [p.songs[index:]] out of range. *)
Definition playFromSelected (playSongsFunc : bool) (selected : Z)
    (p : PlaylistView) : option (option Played) :=
  if playSongsFunc then
    let index := selected in
    if decide (int_sub (len (songs p)) index < 0) then None
    else if decide (0 <= index <= len (songs p))
    then Some (Some (PlayedSongs (map fst (drop (Z.to_nat index) (songs p)))))
    else None
  else Some None.

(** [func (p *PlaylistView) listHandler]: what is played and the event
    handed on ([None] for [nil]). *)
Definition listHandler (playSongFunc : bool) (selected : Z) (key : EventKey)
    (p : PlaylistView) : option (option Played * option EventKey) :=
  if decide (Key_of key = KeyEnter /\ Modifiers key = ModNone) then
    match playSong playSongFunc selected p with
    | Some played => Some (played, None)
    | None => None
    end
  else Some (None, Some key).

(** The view with its [listFocused] flag. *)
Record Focusable := {
  view : PlaylistView;
  listFocused : bool
}.

(** What [InputHandler] does besides changing [listFocused]. *)
Inductive Action :=
  | Ignored
  | BackButtonFocused
  | ListFocused
  | Play (played : option Played)
  | PassedToList (event : EventKey).

(** [func (p *PlaylistView) InputHandler]: [selected] is
    [p.list.GetSelectedIndex()]; [None] is a panic of [playSong]. *)
Definition InputHandler (playSongFunc : bool) (selected : Z)
    (event : EventKey) (p : Focusable) : option (Focusable * Action) :=
  let key := Key_of event in
  if listFocused p then
    let index := selected in
    if decide (index = 0 /\ (key = KeyUp \/ key = KeyCtrlK)) then
      Some ({| view := view p; listFocused := false |}, BackButtonFocused)
    else if decide (key = KeyEnter /\ Modifiers event = ModNone) then
      match playSong playSongFunc index (view p) with
      | Some played => Some (p, Play played)
      | None => None
      end
    else Some (p, PassedToList event)
  else
    if decide (key = KeyDown \/ key = KeyCtrlJ)
    then Some ({| view := view p; listFocused := true |}, ListFocused)
    else Some (p, Ignored).

(** A series of keys, each with the row selected when it arrives: the
    view reached and what was done, in order. *)
Fixpoint inputs (playSongFunc : bool) (keys : list (Z * EventKey))
    (p : Focusable) : option (Focusable * list Action) :=
  match keys with
  | [] => Some (p, [])
  | (selected, event) :: keys =>
      match InputHandler playSongFunc selected event p with
      | None => None
      | Some (p, action) =>
          match inputs playSongFunc keys p with
          | None => None
          | Some (p, actions) => Some (p, action :: actions)
          end
      end
  end.

(** Is the key one that moves the focus into the list? *)
Definition entersList (k : Z * EventKey) : bool :=
  bool_decide (Key_of (snd k) = KeyDown \/ Key_of (snd k) = KeyCtrlJ).

End PlaylistView.

(** *** The media navigation *)
Module MediaNavigation.

(** [cview.MouseAction], as far as the handler tells them apart. *)
Inductive MouseAction :=
  | MouseLeftClick
  | MouseOtherAction.

(** The inner rectangle of the table, [m.GetInnerRect()]. *)
Record Rect := {
  rectX : Z;
  rectY : Z;
  width : Z;
  height : Z
}.

(** What a mouse event leads to: whether [setFocus(m)] was called, the row
    handed to [m.Table.Select] and, as a [MediaSelect], to [m.selectFunc],
    and the result [consumed]. *)
Record Click := {
  focused : bool;
  selected : option Z;
  consumed : bool
}.

(** The handler wrapped in [func (m *MediaNavigation) MouseHandler]:
    [selectFunc] tells whether the callback is set, [inRect] is
    [m.InRect(event.Position())], [x] and [y] are the position, [offset]
    is the row offset of the table and [rowCount] its number of rows.
    The named results are never assigned. *)
Definition MouseHandler (selectFunc inRect : bool) (action : MouseAction)
    (x y : Z) (inner : Rect) (offset rowCount : Z) : Click :=
  if negb inRect
  then {| focused := false; selected := None; consumed := false |}
  else
    match action with
    | MouseLeftClick =>
        let index := 0 in
        let index :=
          if decide (x < rectX inner \/ x >= int_add (rectX inner) (width inner)
                     \/ y < rectY inner
                     \/ y >= int_add (rectY inner) (height inner))
          then -1 else index in
        let index := int_sub y (rectY inner) in
        let index := int_add index offset in
        let index := if decide (index >= rowCount) then -1 else index in
        if decide (index >= 0 /\ index < rowCount /\ selectFunc = true)
        then {| focused := true; selected := Some index; consumed := false |}
        else {| focused := true; selected := None; consumed := false |}
    | MouseOtherAction =>
        {| focused := false; selected := None; consumed := false |}
    end.

(** [func (m *MediaNavigation) InputHandler]: the row handed to
    [m.selectFunc], with [row] the selected row of the table; every other
    key goes to the table. *)
Definition InputHandler (selectFunc : bool) (key : Key) (row : Z)
    : option Z :=
  if decide (key = KeyEnter /\ selectFunc = true) then Some row else None.

(** [MediaSelect(index)] for a row of the table. *)
Definition rowSelect (index : Z) : option MediaSelect :=
  if decide (0 <= index) then MediaSelect_of_int (Z.to_nat index) else None.

(** [NewMediaNavigation] sets one cell for each entry of
    [mediaSelections]. *)
Definition rows : Z := 10.

End MediaNavigation.

(** *** The window *)

(** [interfaces.AudioStatus]; of the player state the window reads the
    volume. *)
Record AudioStatus := {
  Volume : Z
}.

(** The views whose sources are not at hand keep what they were told:
    each call made on them is recorded with its arguments. *)
Inductive Target :=
  | OnView (s : ScreenId)
  | OnMessage.

(** The page callbacks the window installs in the song list. *)
Inductive ShowPage :=
  | UseSelectSongs
  | UseShowRecentSongsPage.

(** The calls; the last four are [AddArtists], [SetSongs], [SetPlaylists]
    and [setGenres] on a slice that may hold [nil] entries. *)
Inductive Method :=
  | DoClear
  | DoSetText (t : Text)
  | DoEnablePaging (enabled : bool)
  | DoAddArtists (artists : list Artist)
  | DoSetPage (p : Paging)
  | DoSetSongs (songs : list Song) (p : Paging)
  | DoSetTitle (t : Text)
  | DoSetShowPage (f : ShowPage)
  | DoSetPlaylists (playlists : list Playlist)
  | DoSetGenres (genres : list IdName)
  | DoSetArtist (artist : option Artist)
  | DoSetAlbum (album : Album) (songs : list Song)
  | DoSetVisible (v : bool)
  | DoAddArtistPtrs (artists : list (option Artist))
  | DoSetSongPtrs (songs : list (option Song)) (p : Paging)
  | DoSetPlaylistPtrs (playlists : list (option Playlist))
  | DoSetGenrePtrs (genres : list (option IdName)).

(** A modal laid over the grid by [twidgets.ModalLayout]. *)
Inductive Overlay :=
  | FixedModal (m : ModalId) (height width : Z)
  | DynamicModal (m : ModalId).

Definition overlayOf (o : Overlay) : ModalId :=
  match o with
  | FixedModal m _ _ => m
  | DynamicModal m => m
  end.

(** [type Window struct].  [focus] is the focus of [app]; [grid] and
    [modals] are the items and overlays of [layout]; [mediaNav] holds the
    counts shown beside the rows; [previous] holds, for each view, the
    [last] pointer of its embedded [previous] struct (absent is [nil]);
    [calls] is what the views without sources at hand have been told. *)
Record Window := {
  focus : option Primitive;
  grid : list Primitive;
  modals : list Overlay;
  mediaNav : gmap MediaSelect Z;
  status : AudioStatus;
  help : Help.Help;
  albumList : AlbumList.AlbumList;
  similarAlbums : AlbumList.AlbumList;
  latestAlbums : AlbumList.AlbumList;
  favoriteAlbums : AlbumList.AlbumList;
  playlist : PlaylistView.PlaylistView;
  searchResultsTop : gmap ItemType (list Item);
  calls : list (Target * Method);
  previous : gmap ScreenId ScreenId;
  modal : option ModalId;
  mediaView : option ScreenId;
  mediaViewSelected : bool;
  hasModal : bool;
  lastFocus : option Primitive;
  trace : list Event
}.

Definition set_focus (v : option Primitive) (w : Window) : Window :=
  {| focus := v; grid := grid w; modals := modals w;
     mediaNav := mediaNav w; status := status w; help := help w;
     albumList := albumList w; similarAlbums := similarAlbums w;
     latestAlbums := latestAlbums w; favoriteAlbums := favoriteAlbums w;
     playlist := playlist w; searchResultsTop := searchResultsTop w;
     calls := calls w; previous := previous w; modal := modal w;
     mediaView := mediaView w; mediaViewSelected := mediaViewSelected w;
     hasModal := hasModal w; lastFocus := lastFocus w; trace := trace w |}.

Definition set_grid (v : list Primitive) (w : Window) : Window :=
  {| focus := focus w; grid := v; modals := modals w;
     mediaNav := mediaNav w; status := status w; help := help w;
     albumList := albumList w; similarAlbums := similarAlbums w;
     latestAlbums := latestAlbums w; favoriteAlbums := favoriteAlbums w;
     playlist := playlist w; searchResultsTop := searchResultsTop w;
     calls := calls w; previous := previous w; modal := modal w;
     mediaView := mediaView w; mediaViewSelected := mediaViewSelected w;
     hasModal := hasModal w; lastFocus := lastFocus w; trace := trace w |}.

Definition set_modals (v : list Overlay) (w : Window) : Window :=
  {| focus := focus w; grid := grid w; modals := v; mediaNav := mediaNav w;
     status := status w; help := help w; albumList := albumList w;
     similarAlbums := similarAlbums w; latestAlbums := latestAlbums w;
     favoriteAlbums := favoriteAlbums w; playlist := playlist w;
     searchResultsTop := searchResultsTop w; calls := calls w;
     previous := previous w; modal := modal w; mediaView := mediaView w;
     mediaViewSelected := mediaViewSelected w; hasModal := hasModal w;
     lastFocus := lastFocus w; trace := trace w |}.

Definition set_mediaNav (v : gmap MediaSelect Z) (w : Window) : Window :=
  {| focus := focus w; grid := grid w; modals := modals w; mediaNav := v;
     status := status w; help := help w; albumList := albumList w;
     similarAlbums := similarAlbums w; latestAlbums := latestAlbums w;
     favoriteAlbums := favoriteAlbums w; playlist := playlist w;
     searchResultsTop := searchResultsTop w; calls := calls w;
     previous := previous w; modal := modal w; mediaView := mediaView w;
     mediaViewSelected := mediaViewSelected w; hasModal := hasModal w;
     lastFocus := lastFocus w; trace := trace w |}.

Definition set_status (v : AudioStatus) (w : Window) : Window :=
  {| focus := focus w; grid := grid w; modals := modals w;
     mediaNav := mediaNav w; status := v; help := help w;
     albumList := albumList w; similarAlbums := similarAlbums w;
     latestAlbums := latestAlbums w; favoriteAlbums := favoriteAlbums w;
     playlist := playlist w; searchResultsTop := searchResultsTop w;
     calls := calls w; previous := previous w; modal := modal w;
     mediaView := mediaView w; mediaViewSelected := mediaViewSelected w;
     hasModal := hasModal w; lastFocus := lastFocus w; trace := trace w |}.

Definition set_help (v : Help.Help) (w : Window) : Window :=
  {| focus := focus w; grid := grid w; modals := modals w;
     mediaNav := mediaNav w; status := status w; help := v;
     albumList := albumList w; similarAlbums := similarAlbums w;
     latestAlbums := latestAlbums w; favoriteAlbums := favoriteAlbums w;
     playlist := playlist w; searchResultsTop := searchResultsTop w;
     calls := calls w; previous := previous w; modal := modal w;
     mediaView := mediaView w; mediaViewSelected := mediaViewSelected w;
     hasModal := hasModal w; lastFocus := lastFocus w; trace := trace w |}.

Definition set_albumList (v : AlbumList.AlbumList) (w : Window) : Window :=
  {| focus := focus w; grid := grid w; modals := modals w;
     mediaNav := mediaNav w; status := status w; help := help w;
     albumList := v; similarAlbums := similarAlbums w;
     latestAlbums := latestAlbums w; favoriteAlbums := favoriteAlbums w;
     playlist := playlist w; searchResultsTop := searchResultsTop w;
     calls := calls w; previous := previous w; modal := modal w;
     mediaView := mediaView w; mediaViewSelected := mediaViewSelected w;
     hasModal := hasModal w; lastFocus := lastFocus w; trace := trace w |}.

Definition set_similarAlbums (v : AlbumList.AlbumList) (w : Window) : Window :=
  {| focus := focus w; grid := grid w; modals := modals w;
     mediaNav := mediaNav w; status := status w; help := help w;
     albumList := albumList w; similarAlbums := v;
     latestAlbums := latestAlbums w; favoriteAlbums := favoriteAlbums w;
     playlist := playlist w; searchResultsTop := searchResultsTop w;
     calls := calls w; previous := previous w; modal := modal w;
     mediaView := mediaView w; mediaViewSelected := mediaViewSelected w;
     hasModal := hasModal w; lastFocus := lastFocus w; trace := trace w |}.

Definition set_latestAlbums (v : AlbumList.AlbumList) (w : Window) : Window :=
  {| focus := focus w; grid := grid w; modals := modals w;
     mediaNav := mediaNav w; status := status w; help := help w;
     albumList := albumList w; similarAlbums := similarAlbums w;
     latestAlbums := v; favoriteAlbums := favoriteAlbums w;
     playlist := playlist w; searchResultsTop := searchResultsTop w;
     calls := calls w; previous := previous w; modal := modal w;
     mediaView := mediaView w; mediaViewSelected := mediaViewSelected w;
     hasModal := hasModal w; lastFocus := lastFocus w; trace := trace w |}.

Definition set_favoriteAlbums (v : AlbumList.AlbumList) (w : Window) : Window :=
  {| focus := focus w; grid := grid w; modals := modals w;
     mediaNav := mediaNav w; status := status w; help := help w;
     albumList := albumList w; similarAlbums := similarAlbums w;
     latestAlbums := latestAlbums w; favoriteAlbums := v;
     playlist := playlist w; searchResultsTop := searchResultsTop w;
     calls := calls w; previous := previous w; modal := modal w;
     mediaView := mediaView w; mediaViewSelected := mediaViewSelected w;
     hasModal := hasModal w; lastFocus := lastFocus w; trace := trace w |}.

Definition set_playlist (v : PlaylistView.PlaylistView) (w : Window) : Window :=
  {| focus := focus w; grid := grid w; modals := modals w;
     mediaNav := mediaNav w; status := status w; help := help w;
     albumList := albumList w; similarAlbums := similarAlbums w;
     latestAlbums := latestAlbums w; favoriteAlbums := favoriteAlbums w;
     playlist := v; searchResultsTop := searchResultsTop w;
     calls := calls w; previous := previous w; modal := modal w;
     mediaView := mediaView w; mediaViewSelected := mediaViewSelected w;
     hasModal := hasModal w; lastFocus := lastFocus w; trace := trace w |}.

Definition set_searchResultsTop (v : gmap ItemType (list Item)) (w : Window) : Window :=
  {| focus := focus w; grid := grid w; modals := modals w;
     mediaNav := mediaNav w; status := status w; help := help w;
     albumList := albumList w; similarAlbums := similarAlbums w;
     latestAlbums := latestAlbums w; favoriteAlbums := favoriteAlbums w;
     playlist := playlist w; searchResultsTop := v; calls := calls w;
     previous := previous w; modal := modal w; mediaView := mediaView w;
     mediaViewSelected := mediaViewSelected w; hasModal := hasModal w;
     lastFocus := lastFocus w; trace := trace w |}.

Definition set_calls (v : list (Target * Method)) (w : Window) : Window :=
  {| focus := focus w; grid := grid w; modals := modals w;
     mediaNav := mediaNav w; status := status w; help := help w;
     albumList := albumList w; similarAlbums := similarAlbums w;
     latestAlbums := latestAlbums w; favoriteAlbums := favoriteAlbums w;
     playlist := playlist w; searchResultsTop := searchResultsTop w;
     calls := v; previous := previous w; modal := modal w;
     mediaView := mediaView w; mediaViewSelected := mediaViewSelected w;
     hasModal := hasModal w; lastFocus := lastFocus w; trace := trace w |}.

Definition set_previous (v : gmap ScreenId ScreenId) (w : Window) : Window :=
  {| focus := focus w; grid := grid w; modals := modals w;
     mediaNav := mediaNav w; status := status w; help := help w;
     albumList := albumList w; similarAlbums := similarAlbums w;
     latestAlbums := latestAlbums w; favoriteAlbums := favoriteAlbums w;
     playlist := playlist w; searchResultsTop := searchResultsTop w;
     calls := calls w; previous := v; modal := modal w;
     mediaView := mediaView w; mediaViewSelected := mediaViewSelected w;
     hasModal := hasModal w; lastFocus := lastFocus w; trace := trace w |}.

Definition set_modal (v : option ModalId) (w : Window) : Window :=
  {| focus := focus w; grid := grid w; modals := modals w;
     mediaNav := mediaNav w; status := status w; help := help w;
     albumList := albumList w; similarAlbums := similarAlbums w;
     latestAlbums := latestAlbums w; favoriteAlbums := favoriteAlbums w;
     playlist := playlist w; searchResultsTop := searchResultsTop w;
     calls := calls w; previous := previous w; modal := v;
     mediaView := mediaView w; mediaViewSelected := mediaViewSelected w;
     hasModal := hasModal w; lastFocus := lastFocus w; trace := trace w |}.

Definition set_mediaView (v : option ScreenId) (w : Window) : Window :=
  {| focus := focus w; grid := grid w; modals := modals w;
     mediaNav := mediaNav w; status := status w; help := help w;
     albumList := albumList w; similarAlbums := similarAlbums w;
     latestAlbums := latestAlbums w; favoriteAlbums := favoriteAlbums w;
     playlist := playlist w; searchResultsTop := searchResultsTop w;
     calls := calls w; previous := previous w; modal := modal w;
     mediaView := v; mediaViewSelected := mediaViewSelected w;
     hasModal := hasModal w; lastFocus := lastFocus w; trace := trace w |}.

Definition set_mediaViewSelected (v : bool) (w : Window) : Window :=
  {| focus := focus w; grid := grid w; modals := modals w;
     mediaNav := mediaNav w; status := status w; help := help w;
     albumList := albumList w; similarAlbums := similarAlbums w;
     latestAlbums := latestAlbums w; favoriteAlbums := favoriteAlbums w;
     playlist := playlist w; searchResultsTop := searchResultsTop w;
     calls := calls w; previous := previous w; modal := modal w;
     mediaView := mediaView w; mediaViewSelected := v;
     hasModal := hasModal w; lastFocus := lastFocus w; trace := trace w |}.

Definition set_hasModal (v : bool) (w : Window) : Window :=
  {| focus := focus w; grid := grid w; modals := modals w;
     mediaNav := mediaNav w; status := status w; help := help w;
     albumList := albumList w; similarAlbums := similarAlbums w;
     latestAlbums := latestAlbums w; favoriteAlbums := favoriteAlbums w;
     playlist := playlist w; searchResultsTop := searchResultsTop w;
     calls := calls w; previous := previous w; modal := modal w;
     mediaView := mediaView w; mediaViewSelected := mediaViewSelected w;
     hasModal := v; lastFocus := lastFocus w; trace := trace w |}.

Definition set_lastFocus (v : option Primitive) (w : Window) : Window :=
  {| focus := focus w; grid := grid w; modals := modals w;
     mediaNav := mediaNav w; status := status w; help := help w;
     albumList := albumList w; similarAlbums := similarAlbums w;
     latestAlbums := latestAlbums w; favoriteAlbums := favoriteAlbums w;
     playlist := playlist w; searchResultsTop := searchResultsTop w;
     calls := calls w; previous := previous w; modal := modal w;
     mediaView := mediaView w; mediaViewSelected := mediaViewSelected w;
     hasModal := hasModal w; lastFocus := v; trace := trace w |}.

Definition set_trace (v : list Event) (w : Window) : Window :=
  {| focus := focus w; grid := grid w; modals := modals w;
     mediaNav := mediaNav w; status := status w; help := help w;
     albumList := albumList w; similarAlbums := similarAlbums w;
     latestAlbums := latestAlbums w; favoriteAlbums := favoriteAlbums w;
     playlist := playlist w; searchResultsTop := searchResultsTop w;
     calls := calls w; previous := previous w; modal := modal w;
     mediaView := mediaView w; mediaViewSelected := mediaViewSelected w;
     hasModal := hasModal w; lastFocus := lastFocus w; trace := v |}.

(** **** Helpers: trace, recorded calls, toolkit *)

Definition emit (e : Event) (w : Window) : Window :=
  set_trace (trace w ++ [e]) w.

Definition logf (l : Level) (msg : Text) (w : Window) : Window :=
  emit (Log l msg) w.

Definition tell (t : Target) (m : Method) (w : Window) : Window :=
  set_calls (calls w ++ [(t, m)]) w.

(** [p.Blur()]: the toolkit is told; the help modal, whose source is at
    hand, changes as its [Blur] says. *)
Definition blur (p : Primitive) (w : Window) : Window :=
  let w := emit (Blurred p) w in
  match p with
  | PModal ModalHelp => set_help (Help.Blur (help w)) w
  | _ => w
  end.

(** [p.Focus(delegate)] *)
Definition giveFocus (p : Primitive) (w : Window) : Window :=
  let w := emit (Focused p) w in
  match p with
  | PModal ModalHelp => set_help (Help.Focus (help w)) w
  | _ => w
  end.

(** [w.app.SetFocus(p)]: the toolkit blurs the primitive that had the
    focus, stores [p] and, unless [p] is [nil], calls [p.Focus]. *)
Definition SetFocus (p : option Primitive) (w : Window) : Window :=
  let w := match focus w with Some old => blur old w | None => w end in
  let w := set_focus p w in
  match p with
  | Some p => giveFocus p w
  | None => w
  end.

(** [modal.SetVisible(visible)] *)
Definition SetVisible (m : ModalId) (visible : bool) (w : Window) : Window :=
  match m with
  | ModalHelp => set_help (Help.SetVisible visible (help w)) w
  | ModalMessage => tell OnMessage (DoSetVisible visible) w
  end.

(** [w.layout.Grid().RemoveItem(p)]: every item equal to [p] goes. *)
Definition RemoveItem (p : option Primitive) (w : Window) : Window :=
  set_grid (filter (fun q => Some q <> p) (grid w)) w.

(** [w.layout.Grid().AddItem(p, ...)] *)
Definition AddItem (p : Primitive) (w : Window) : Window :=
  set_grid (grid w ++ [p]) w.

(** [w.layout.RemoveModal(modal)] *)
Definition RemoveModal (m : ModalId) (w : Window) : Window :=
  set_modals (filter (fun o => overlayOf o <> m) (modals w)) w.

(** Modelled from the spec: [SetLast] of the embedded [previous] struct,
    whose source is not at hand; [setBack(previous Screen)] stores the
    screen that [back()] returns. *)
Definition SetLast (p : ScreenId) (last : option ScreenId) (w : Window)
    : Window :=
  match last with
  | Some q => set_previous (<[p := q]> (previous w)) w
  | None => set_previous (delete p (previous w)) w
  end.

(** [w.mediaNav.SetCount(id, count)] *)
Definition SetCount (id : MediaSelect) (count : Z) (w : Window) : Window :=
  set_mediaNav (<[id := count]> (mediaNav w)) w.

(** The album list behind a view, and an update of it in place. *)
Definition onAlbumList (s : ScreenId)
    (f : AlbumList.AlbumList -> AlbumList.AlbumList) (w : Window) : Window :=
  match s with
  | ViewAlbumList => set_albumList (f (albumList w)) w
  | ViewSimilarAlbums => set_similarAlbums (f (similarAlbums w)) w
  | ViewLatestAlbums => set_latestAlbums (f (latestAlbums w)) w
  | ViewFavoriteAlbums => set_favoriteAlbums (f (favoriteAlbums w)) w
  | _ => w
  end.

(** **** Methods of the window *)
Section Methods.

(** The configuration, the item controller ([w.mediaItems]) and
    [AudioVolume.Add] of package [interfaces]. *)
Variable cfg : Config.Config.
Variable mediaItems : ItemController.
Variable Volume_Add : Z -> Z -> Z.

Definition DefaultPaging : Paging :=
  Interfaces.DefaultPaging (Config.DefaultPageSize cfg).

(** [func (w *Window) setViewWidget] *)
Definition setViewWidget (p : ScreenId) (updatePrevious : bool)
    (w : Window) : Window :=
  if decide (Some p = mediaView w) then w
  else
    let last := mediaView w in
    let w := set_lastFocus (focus w) w in
    let w := RemoveItem (PView <$> mediaView w) w in
    let w := AddItem (PView p) w in
    let w := SetFocus (Some (PView p)) w in
    let w := set_mediaView (Some p) w in
    if updatePrevious then SetLast p last w else w.

(** [func (w *Window) goBack] *)
Definition goBack (p : ScreenId) (w : Window) : Window :=
  setViewWidget p false w.

(** The views on which [NewWindow] calls [SetBackCallback(w.goBack)]. *)
Definition backCallback (s : ScreenId) : bool :=
  match s with
  | ViewArtistList | ViewAlbumList | ViewSimilarAlbums | ViewAlbum
  | ViewPlaylist | ViewGenres | ViewSongs | ViewQueue | ViewHistory => true
  | ViewLatestAlbums | ViewFavoriteAlbums | ViewPlaylists
  | ViewSearchResultsTop => false
  end.

(** Modelled from the spec: the Back button of the current view
    ([previous.goBack], whose source is not at hand).  Back follows the
    current screen's [previous] link through the registered callback;
    if there is no link, back is a no-op. *)
Definition back (w : Window) : Window :=
  match mediaView w with
  | Some current =>
      if backCallback current then
        match previous w !! current with
        | Some p => goBack p w
        | None => w
        end
      else w
  | None => w
  end.

(** [func (w *Window) closeModal] *)
Definition closeModal (m : ModalId) (w : Window) : Window :=
  if hasModal w then
    let w := blur (PModal m) w in
    let w := SetVisible m false w in
    let w := RemoveModal m w in
    let w := set_hasModal false w in
    let w := set_modal None w in
    let w := SetFocus (lastFocus w) w in
    let w := set_lastFocus None w in
    set_hasModal false w
  else
    logf LevelWarning
      [FStr "Trying to close modal when there's no open modal."] w.

(** [func (w *Window) showModal]; [None] is the panic of
    [w.lastFocus.Blur()] when nothing has the focus. *)
Definition showModal (m : ModalId) (height width : Z) (lockSize : bool)
    (w : Window) : option Window :=
  if negb (hasModal w) then
    let w := set_hasModal true w in
    let w := set_modal (Some m) w in
    let w := set_lastFocus (focus w) w in
    match lastFocus w with
    | None => None
    | Some lf =>
        let w := blur lf w in
        let w :=
          if negb lockSize
          then set_modals (modals w ++ [FixedModal m height width]) w
          else set_modals (modals w ++ [DynamicModal m]) w in
        let w := SetFocus (Some (PModal m)) w in
        let w := SetVisible m true w in
        Some (emit QueueUpdateDraw w)
    end
  else
    Some (logf LevelWarning
      [FStr "Trying show close modal when there's another modal open."] w).

(** [func (w *Window) closeMessage] *)
Definition closeMessage (w : Window) : Window := closeModal ModalMessage w.

(** [func (w *Window) showMessage] *)
Definition showMessage (msg : string) (height width : Z) (lockSize : bool)
    (w : Window) : option Window :=
  let w := tell OnMessage (DoSetText [FStr msg]) w in
  let height := if decide (height = -1) then 25 else height in
  let width := if decide (width = -1) then 50 else width in
  showModal ModalMessage height width lockSize w.

(** [func (w *Window) mediaCtrl]: the [switch] takes the first case
    equal to the key. *)
Definition mediaCtrl (event : EventKey) (w : Window) : Window * bool :=
  let ctrls := Config.KeyBinds_Global cfg in
  let key := Key_of event in
  if decide (key = Config.Stop ctrls) then
    (emit (QueueDo (ClearQueue true)) (emit (PlayerDo StopMedia) w), true)
  else if decide (key = Config.PlayPause ctrls) then
    (emit (PlayerDo PlayPause) w, true)
  else if decide (key = Config.VolumeDown ctrls) then
    let volume := Volume_Add (Volume (status w)) (-5) in
    (emit (PlayerGo (SetVolume volume)) w, true)
  else if decide (key = Config.VolumeUp ctrls) then
    let volume := Volume_Add (Volume (status w)) 5 in
    (emit (PlayerGo (SetVolume volume)) w, true)
  else if decide (key = Config.Next ctrls) then
    (emit (PlayerDo Next) w, true)
  else if decide (key = Config.Previous ctrls) then
    (emit (PlayerDo Previous) w, true)
  else if decide (key = Config.Forward ctrls) then
    (emit (PlayerDo (Seek 3000)) w, true)
  else if decide (key = Config.Backward ctrls) then
    (emit (PlayerDo (Seek (-3000))) w, true)
  else (w, false).

(** Modelled from the spec: [SearchTopList.Clear] and
    [SearchTopList.ClearResults], whose source is not at hand; clearing
    empties the result lists. *)
Definition ClearResults (w : Window) : Window :=
  set_searchResultsTop ∅ w.

(** Modelled from the spec: [SearchTopList.addItems], whose source is
    not at hand; each type's results populate a dedicated result
    list. *)
Definition addItems (itemType : ItemType) (items : list Item)
    (w : Window) : Window :=
  set_searchResultsTop (<[itemType := items]> (searchResultsTop w)) w.

(** [func (w *Window) navBarCtrl]; [None] is a panic of [showModal]. *)
Definition navBarCtrl (key : Key) (w : Window) : option (Window * bool) :=
  let navBar := Config.KeyBinds_NavigationBar cfg in
  if decide (key = Config.Quit navBar) then
    Some (emit AppStop w, true)
  else if decide (key = Config.Help navBar) then
    let w := emit (ItemsDo CallGetStatistics) w in
    let stats := GetStatistics mediaItems in
    let w := set_help (Help.SetStats stats (help w)) w in
    match showModal ModalHelp 25 50 true w with
    | Some w => Some (w, true)
    | None => None
    end
  else if decide (key = Config.Search navBar) then
    let w := ClearResults w in
    Some (setViewWidget ViewSearchResultsTop true w, true)
  else if decide (key = Config.Queue navBar) then
    let w := if Help.hasFocus (help w) then closeModal ModalHelp w else w in
    Some (setViewWidget ViewQueue true w, true)
  else if decide (key = Config.History navBar) then
    let w := if Help.hasFocus (help w) then closeModal ModalHelp w else w in
    let w := setViewWidget ViewHistory true w in
    Some (emit (QueueDo (GetHistory 100)) w, true)
  else Some (w, false).

(** [func (w *Window) moveCtrl]; [None] is the panic of
    [closeModal(nil)]. *)
Definition moveCtrl (key : Key) (w : Window) : option (Window * bool) :=
  if decide (key = KeyTAB) then
    w ← (if hasModal w
         then match modal w with
              | Some m => Some (closeModal m w)
              | None => None
              end
         else Some w);
    if mediaViewSelected w then
      let w := set_lastFocus (PView <$> mediaView w) w in
      let w := SetFocus (Some PMediaNav) w in
      let w := match lastFocus w with
               | Some lf => blur lf w
               | None => w
               end in
      Some (set_mediaViewSelected false w, true)
    else
      let w := set_lastFocus (focus w) w in
      let w := SetFocus (PView <$> mediaView w) w in
      let w := set_mediaViewSelected true w in
      let w := match lastFocus w with
               | Some lf => blur lf w
               | None => w
               end in
      Some (w, true)
  else Some (w, false).

(** [func (w *Window) keyHandler]: the key it hands back, [None] for
    [nil] when a handler matched. *)
Definition keyHandler (event : EventKey) (w : Window)
    : option (Window * option Key) :=
  let key := Key_of event in
  let '(w, matched) := mediaCtrl event w in
  if matched then Some (w, None)
  else
    match navBarCtrl key w with
    | None => None
    | Some (w, true) => Some (w, None)
    | Some (w, false) =>
        match moveCtrl key w with
        | None => None
        | Some (w, true) => Some (w, None)
        | Some (w, false) => Some (w, Some key)
        end
    end.

(** [func (w *Window) eventHandler], the input capture of the
    application: the event it lets through to the focused primitive. *)
Definition eventHandler (event : EventKey) (w : Window)
    : option (Window * option EventKey) :=
  match keyHandler event w with
  | None => None
  | Some (w, None) => Some (w, None)
  | Some (w, Some _) => Some (w, Some event)
  end.

(** One type of [searchCb]'s loop. *)
Definition searchType (query : string) (w : Window) (itemType : ItemType)
    : Window :=
  let w := emit (ItemsDo (CallSearch itemType query)) w in
  let '(items, err) := Search mediaItems itemType query in
  match err with
  | None =>
      if decide (len items > 0) then addItems itemType items w else w
  | Some e =>
      logf LevelError
        [FStr "search items of type "; FStr itemType; FStr ": "; FStr e] w
  end.

(** [func (w *Window) searchCb] *)
Definition searchCb (query : string) (w : Window) : Window :=
  let w := logf LevelDebug [FStr "In search callback"] w in
  let w := ClearResults w in
  fold_left (searchType query) (Config.SearchTypes cfg) w.

(** [func (w *Window) statusCb] *)
Definition statusCb (state : AudioStatus) (w : Window) : Window :=
  emit QueueUpdateDraw (set_status state w).

(** [func (w *Window) showGenrePage] *)
Definition showGenrePage (paging : Paging) (w : Window) : Window :=
  let w := emit (ItemsDo (CallGetGenres paging)) w in
  let '(genres, n, err) := GetGenres mediaItems paging in
  match err with
  | Some e => logf LevelError (errText "get genres: " e) w
  | None =>
      let paging := SetTotalItems n paging in
      let w := tell (OnView ViewGenres) (DoSetPage paging) w in
      let w := tell (OnView ViewGenres) (DoSetGenres genres) w in
      setViewWidget ViewGenres true w
  end.

(** [func (w *Window) selectMedia] *)
Definition selectMedia (m : MediaSelect) (w : Window) : Window :=
  match m with
  | MediaLatestMusic =>
      let w := emit (ItemsDo CallGetLatestAlbums) w in
      let '(albums, err) := GetLatestAlbums mediaItems in
      match err with
      | Some e => logf LevelError (errText "get favorite artists: " e) w
      | None =>
          let duration :=
            fold_left (fun d v => int_add d (Album_Duration v)) albums 0 in
          let artist :=
            {| Artist_Id := ""; Artist_Name := "Latest albums";
               Artist_TotalDuration := duration;
               Artist_AlbumCount := len albums;
               Artist_Favorite := false |} in
          let w := SetCount MediaLatestMusic (len albums) w in
          let w := set_latestAlbums (AlbumList.Clear (latestAlbums w)) w in
          let w := set_latestAlbums
                     (AlbumList.SetAlbums albums (latestAlbums w)) w in
          let w := set_latestAlbums
                     (AlbumList.SetArtist (Some artist) (latestAlbums w)) w in
          setViewWidget ViewLatestAlbums true w
      end
  | MediaFavoriteArtists =>
      let w := emit (ItemsDo CallGetFavoriteArtists) w in
      let '(artists, err) := GetFavoriteArtists mediaItems in
      match err with
      | Some e => logf LevelError (errText "get favorite artists: " e) w
      | None =>
          let w := tell (OnView ViewArtistList) DoClear w in
          let w := tell (OnView ViewArtistList)
                     (DoSetText [FStr "Favorite artists"]) w in
          let w := tell (OnView ViewArtistList) (DoEnablePaging false) w in
          let w := SetCount MediaFavoriteArtists (len artists) w in
          let w := tell (OnView ViewArtistList) (DoAddArtists artists) w in
          setViewWidget ViewArtistList true w
      end
  | MediaPlaylists =>
      let w := emit (ItemsDo CallGetPlaylists) w in
      let '(playlists, err) := GetPlaylists mediaItems in
      match err with
      | Some e => logf LevelError (errText "get playlists: " e) w
      | None =>
          let w := SetCount MediaPlaylists (len playlists) w in
          let w := tell (OnView ViewPlaylists) (DoSetPlaylists playlists) w in
          setViewWidget ViewPlaylists true w
      end
  | MediaSongs | MediaRecent =>
      let page := DefaultPaging in
      let '(songs, count, w) :=
        if decide (m = MediaSongs) then
          let w := emit (ItemsDo (CallGetSongs 0 (PageSize page))) w in
          let '(songs, count, err) := GetSongs mediaItems 0 (PageSize page) in
          match err with
          | Some e => (songs, count, logf LevelError (errText "get songs: " e) w)
          | None =>
              let w := tell (OnView ViewSongs) (DoSetShowPage UseSelectSongs) w in
              let w := SetCount m count w in
              (songs, count,
               tell (OnView ViewSongs) (DoSetTitle [FStr "All albums"]) w)
          end
        else
          let w := emit (ItemsDo (CallGetRecentlyPlayed page)) w in
          let '(songs, count, err) := GetRecentlyPlayed mediaItems page in
          match err with
          | Some e => (songs, count, logf LevelError (errText "get songs: " e) w)
          | None =>
              let w := tell (OnView ViewSongs)
                         (DoSetShowPage UseShowRecentSongsPage) w in
              let w := tell (OnView ViewSongs)
                         (DoSetTitle [FStr "Recently played"]) w in
              (songs, count,
               if negb (Config.LimitRecentlyPlayed cfg)
               then SetCount m count w else w)
          end in
      let page := SetTotalItems count page in
      let w := tell (OnView ViewSongs) (DoSetSongs songs page) w in
      setViewWidget ViewSongs true w
  | MediaArtists | MediaAlbumArtists =>
      let paging := DefaultPaging in
      let '(title, call, result) :=
        if decide (m = MediaArtists)
        then ("All artists"%string, CallGetArtists paging,
              GetArtists mediaItems paging)
        else ("All album artists"%string, CallGetAlbumArtists paging,
              GetAlbumArtists mediaItems paging) in
      let w := emit (ItemsDo call) w in
      let '(artists, total, err) := result in
      match err with
      | Some e => logf LevelError (errText "get all artists: " e) w
      | None =>
          let paging := SetTotalItems total paging in
          let w := SetCount m total w in
          let w := tell (OnView ViewArtistList) DoClear w in
          let w := tell (OnView ViewArtistList) (DoEnablePaging true) w in
          let w := tell (OnView ViewArtistList) (DoSetPage paging) w in
          let w := tell (OnView ViewArtistList) (DoAddArtists artists) w in
          let w := setViewWidget ViewArtistList true w in
          tell (OnView ViewArtistList)
            (DoSetText [FStr title; FStr ": "; FInt (TotalItems paging)]) w
      end
  | MediaAlbums | MediaFavoriteAlbums =>
      let paging := DefaultPaging in
      let '(paging, title, list, w, result) :=
        if decide (m = MediaAlbums) then
          let w := emit (ItemsDo (CallGetAlbums paging)) w in
          let result := GetAlbums mediaItems paging in
          let w := set_albumList
                     (AlbumList.EnablePaging true (albumList w)) w in
          (paging, "All Albums"%string, ViewAlbumList, w, result)
        else
          let paging := set_PageSize 200 paging in
          let w := emit (ItemsDo (CallGetFavoriteAlbums paging)) w in
          let result := GetFavoriteAlbums mediaItems paging in
          let w := set_albumList
                     (AlbumList.EnablePaging false (albumList w)) w in
          (paging, "Favorite albums"%string, ViewFavoriteAlbums, w, result) in
      let '(albums, total, err) := result in
      match err with
      | Some e =>
          logf LevelError [FStr "get "; FStr title; FStr ": "; FStr e] w
      | None =>
          let paging := SetTotalItems total paging in
          let w := SetCount m total w in
          let w := onAlbumList list (AlbumList.SetPage paging) w in
          let w := onAlbumList list AlbumList.Clear w in
          let w := onAlbumList list (AlbumList.EnableSimilar false) w in
          let w := onAlbumList list (AlbumList.EnableArtistMode false) w in
          let w := onAlbumList list
                     (AlbumList.SetText
                        [FStr title; FStr "\nTotal "; FInt (TotalItems paging)]) w in
          let w := onAlbumList list (AlbumList.SetAlbums albums) w in
          setViewWidget list true w
      end
  | MediaGenres =>
      let paging := DefaultPaging in
      showGenrePage paging w
  end.

(** [func (w *Window) selectArtist] *)
Definition selectArtist (artist : Artist) (w : Window) : Window :=
  let w := emit (ItemsDo (CallGetArtistAlbums (Artist_Id artist))) w in
  let '(albums, err) := GetArtistAlbums mediaItems (Artist_Id artist) in
  match err with
  | Some e => logf LevelError (errText "get albumList albums: " e) w
  | None =>
      let artist := set_AlbumCount (len albums) artist in
      let w := set_albumList (AlbumList.Clear (albumList w)) w in
      let w := set_albumList (AlbumList.EnableArtistMode true (albumList w)) w in
      let w := set_albumList (AlbumList.EnablePaging false (albumList w)) w in
      let w := set_albumList (AlbumList.EnableSimilar true (albumList w)) w in
      let w := set_albumList (AlbumList.SetArtist (Some artist) (albumList w)) w in
      let w := set_albumList (AlbumList.SetAlbums albums (albumList w)) w in
      setViewWidget ViewAlbumList true w
  end.

(** [func (w *Window) selectAlbum] *)
Definition selectAlbum (album : Album) (w : Window) : Window :=
  let w := emit (ItemsDo (CallGetAlbumSongs (Album_Id album))) w in
  let '(songs, err) := GetAlbumSongs mediaItems (Album_Id album) in
  match err with
  | Some e => logf LevelError (errText "get album songs: " e) w
  | None =>
      let songs := map (set_AlbumArtist (Album_Artist album)) songs in
      let w := emit (ItemsDo (CallGetAlbumArtist album)) w in
      let '(artist, err) := GetAlbumArtist mediaItems album in
      let w :=
        match err with
        | Some e => logf LevelError (errText "get album artist: " e) w
        | None => tell (OnView ViewAlbum) (DoSetArtist artist) w
        end in
      let w := tell (OnView ViewAlbum) (DoSetAlbum album songs) w in
      let w := SetLast ViewAlbum (mediaView w) w in
      setViewWidget ViewAlbum true w
  end.

(** [func (w *Window) selectPlaylist]; the controller fills in the
    songs of the playlist it is given. *)
Definition selectPlaylist (pl : Playlist) (w : Window) : Window :=
  let w := emit (ItemsDo (CallGetPlaylistSongs pl)) w in
  let '(pl, err) := GetPlaylistSongs mediaItems pl in
  match err with
  | Some e => logf LevelWarning (errText "did not get playlist songs: " e) w
  | None =>
      let w := set_playlist (PlaylistView.SetPlaylist pl (playlist w)) w in
      setViewWidget ViewPlaylist true w
  end.

(** [func (w *Window) selectSongs] *)
Definition selectSongs (page : Paging) (w : Window) : Window :=
  let w := emit (ItemsDo (CallGetSongs (CurrentPage page) (PageSize page))) w in
  let '(songs, _, err) :=
    GetSongs mediaItems (CurrentPage page) (PageSize page) in
  let w :=
    match err with
    | Some e => logf LevelError (errText "get songs: " e) w
    | None => w
    end in
  let w := tell (OnView ViewSongs) (DoSetSongs songs page) w in
  setViewWidget ViewSongs true w.

(** [func (w *Window) showRecentSongsPage] *)
Definition showRecentSongsPage (page : Paging) (w : Window) : Window :=
  let w := emit (ItemsDo (CallGetRecentlyPlayed page)) w in
  let '(songs, _, err) := GetRecentlyPlayed mediaItems page in
  let w :=
    match err with
    | Some e => logf LevelError (errText "get songs: " e) w
    | None => w
    end in
  let w := tell (OnView ViewSongs) (DoSetSongs songs page) w in
  setViewWidget ViewSongs true w.

(** [func (w *Window) showArtistPage] *)
Definition showArtistPage (page : Paging) (w : Window) : Window :=
  let w := emit (ItemsDo (CallGetArtists page)) w in
  let '(artists, _, err) := GetArtists mediaItems page in
  match err with
  | Some e => logf LevelError (errText "get albumList page: " e) w
  | None =>
      let w := tell (OnView ViewArtistList) DoClear w in
      let w := tell (OnView ViewArtistList) (DoAddArtists artists) w in
      let w := tell (OnView ViewArtistList) (DoEnablePaging true) w in
      setViewWidget ViewArtistList false w
  end.

(** [func (w *Window) showAlbumPage] *)
Definition showAlbumPage (page : Paging) (w : Window) : Window :=
  let w := emit (ItemsDo (CallGetAlbums page)) w in
  let '(albums, total, err) := GetAlbums mediaItems page in
  match err with
  | Some e => logf LevelError (errText "get all albums: " e) w
  | None =>
      let page := SetTotalItems total page in
      let w := SetCount MediaAlbums total w in
      let w := set_albumList (AlbumList.SetPage page (albumList w)) w in
      let w := set_albumList (AlbumList.Clear (albumList w)) w in
      let w := set_albumList (AlbumList.EnablePaging true (albumList w)) w in
      set_albumList (AlbumList.SetAlbums albums (albumList w)) w
  end.

(** [func (w *Window) playSongs] *)
Definition playSongs (songs : list Song) (w : Window) : Window :=
  emit (QueueDo (AddSongs songs)) w.

(** [func (w *Window) playSong] *)
Definition playSong (song : Song) (w : Window) : Window :=
  playSongs [song] w.

(** [func (w *Window) clearQueue] *)
Definition clearQueue (w : Window) : Window :=
  emit (QueueDo (ClearQueue false)) w.

(** [func (w *Window) showSimilarArtists] *)
Definition showSimilarArtists (artist : Id) (w : Window) : option Window :=
  let w := emit (ItemsDo (CallGetSimilarArtists artist)) w in
  let '(artists, err) := GetSimilarArtists mediaItems artist in
  match err with
  | Some e => Some (logf LevelError (errText "get similar artists: " e) w)
  | None =>
      if decide (len artists > 0) then
        let w := tell (OnView ViewArtistList) DoClear w in
        let w := tell (OnView ViewArtistList) (DoAddArtists artists) w in
        let w := tell (OnView ViewArtistList)
                   (DoSetText [FStr "Similar artists: "; FInt (len artists)]) w in
        Some (setViewWidget ViewArtistList true w)
      else showMessage "No similar artists" 3 (-1) false w
  end.

(** [func (w *Window) showSimilarAlbums] *)
Definition showSimilarAlbums (album : Album) (w : Window) : option Window :=
  let w := emit (ItemsDo (CallGetSimilarAlbums (Album_Id album))) w in
  let '(albums, err) := GetSimilarAlbums mediaItems (Album_Id album) in
  match err with
  | Some e => Some (logf LevelError (errText "get similar artists: " e) w)
  | None =>
      if decide (len albums > 0) then
        let w := set_similarAlbums (AlbumList.Clear (similarAlbums w)) w in
        let w := set_similarAlbums
                   (AlbumList.EnableSimilar false (similarAlbums w)) w in
        let w := set_similarAlbums
                   (AlbumList.EnablePaging false (similarAlbums w)) w in
        let w := set_similarAlbums
                   (AlbumList.SetAlbums albums (similarAlbums w)) w in
        let w := set_similarAlbums
                   (AlbumList.SetText
                      [FStr "Similar albums: "; FInt (len albums)]
                      (similarAlbums w)) w in
        Some (setViewWidget ViewSimilarAlbums true w)
      else showMessage "No similar albums" 3 (-1) false w
  end.

(** [func (w *Window) selectGenre] *)
Definition selectGenre (id : IdName) (w : Window) : Window :=
  let w := emit (ItemsDo (CallGetGenreAlbums id)) w in
  let '(albums, err) := GetGenreAlbums mediaItems id in
  match err with
  | Some e => logf LevelError (errText "get genre albums: " e) w
  | None =>
      let w := set_albumList (AlbumList.Clear (albumList w)) w in
      let w := set_albumList (AlbumList.EnablePaging false (albumList w)) w in
      let w := set_albumList (AlbumList.EnableSimilar false (albumList w)) w in
      let w := set_albumList (AlbumList.EnableArtistMode false (albumList w)) w in
      let w := set_albumList (AlbumList.SetAlbums albums (albumList w)) w in
      let w := set_albumList
                 (AlbumList.SetText [FStr "Genre "; FStr (IdName_Name id)]
                    (albumList w)) w in
      setViewWidget ViewAlbumList true w
  end.

(** [func NewWindow] with [setLayout]: the three fixed items of the
    grid, the focus on the media navigation, no central view yet. *)
Definition NewWindow (state : AudioStatus) : Window :=
  {| focus := Some PMediaNav;
     grid := [PNavBar; PMediaNav; PStatus];
     modals := [];
     mediaNav := ∅;
     status := state;
     help := Help.SetDoneFunc Help.WrapCloseModal (Help.NewHelp Help.CloseHelp);
     albumList := AlbumList.NewAlbumList;
     similarAlbums := AlbumList.EnablePaging false AlbumList.NewAlbumList;
     latestAlbums := AlbumList.newLatestAlbums;
     favoriteAlbums := AlbumList.newFavoriteAlbums;
     playlist := PlaylistView.NewPlaylistView;
     searchResultsTop := ∅;
     calls := [];
     previous := ∅;
     modal := None;
     mediaView := None;
     mediaViewSelected := false;
     hasModal := false;
     lastFocus := None;
     trace := [] |}.

(** **** Sequences of navigations *)

(** A drill-down pushes a view with its back link set. *)
Definition drill (w : Window) (p : ScreenId) : Window :=
  setViewWidget p true w.

Definition drills (ps : list ScreenId) (w : Window) : Window :=
  fold_left drill ps w.

Definition backs (n : nat) (w : Window) : Window :=
  Nat.iter n back w.

(** The view a row of the media navigation leads to. *)
Definition target (m : MediaSelect) : ScreenId :=
  match m with
  | MediaLatestMusic => ViewLatestAlbums
  | MediaRecent | MediaSongs => ViewSongs
  | MediaArtists | MediaAlbumArtists | MediaFavoriteArtists => ViewArtistList
  | MediaAlbums => ViewAlbumList
  | MediaFavoriteAlbums => ViewFavoriteAlbums
  | MediaPlaylists => ViewPlaylists
  | MediaGenres => ViewGenres
  end.

(** The error of the fetch behind a row. *)
Definition fetchError (m : MediaSelect) : error :=
  match m with
  | MediaLatestMusic => snd (GetLatestAlbums mediaItems)
  | MediaRecent => snd (GetRecentlyPlayed mediaItems DefaultPaging)
  | MediaSongs => snd (GetSongs mediaItems 0 (PageSize DefaultPaging))
  | MediaArtists => snd (GetArtists mediaItems DefaultPaging)
  | MediaAlbumArtists => snd (GetAlbumArtists mediaItems DefaultPaging)
  | MediaAlbums => snd (GetAlbums mediaItems DefaultPaging)
  | MediaFavoriteAlbums =>
      snd (GetFavoriteAlbums mediaItems (set_PageSize 200 DefaultPaging))
  | MediaPlaylists => snd (GetPlaylists mediaItems)
  | MediaFavoriteArtists => snd (GetFavoriteArtists mediaItems)
  | MediaGenres => snd (GetGenres mediaItems DefaultPaging)
  end.

End Methods.

(** [func (w *Window) closeHelp] *)
Definition closeHelp (w : Window) : Window := SetFocus (Some PLayout) w.

(** [func (w *Window) wrapCloseModal]: the closure it returns. *)
Definition wrapCloseModal (m : ModalId) (w : Window) : Window :=
  closeModal m w.

(** [func (w *Window) navBarHandler], whose body is empty. *)
Definition navBarHandler (label : string) (w : Window) : Window := w.

(** [func (w *Window) showSearchResults], the callback [NewWindow] hands
    to the search results.  A result of another type leaves a [nil] entry
    in the slice made for the view; [None] is the panic of
    [AlbumList.SetAlbums] at the first [nil] album. *)
Definition showSearchResults (cfg : Config.Config) (types : ItemTypes)
    (itemType : ItemType) (results : list Item) (w : Window)
    : option Window :=
  let switched : option (option ScreenId * Window) :=
    if decide (itemType = TypeAlbum types) then
      let albums := map asAlbum results in
      let w := set_albumList (AlbumList.Clear (albumList w)) w in
      let w := set_albumList (AlbumList.EnablePaging false (albumList w)) w in
      let w := set_albumList
                 (AlbumList.SetLabel
                    [FStr "Search results: "; FInt (len results);
                     FStr " albums"] (albumList w)) w in
      match mapM id albums with
      | Some albums =>
          let w := set_albumList
                     (AlbumList.SetAlbums albums (albumList w)) w in
          let w := set_albumList
                     (AlbumList.EnableSimilar false (albumList w)) w in
          Some (Some ViewAlbumList, w)
      | None => None
      end
    else if decide (itemType = TypeArtist types) then
      let artists := map asArtist results in
      let w := tell (OnView ViewArtistList) DoClear w in
      let w := tell (OnView ViewArtistList) (DoEnablePaging false) w in
      let w := tell (OnView ViewArtistList) (DoAddArtistPtrs artists) w in
      Some (Some ViewArtistList, w)
    else if decide (itemType = TypeSong types) then
      let songs := map asSong results in
      let w := tell (OnView ViewSongs)
                 (DoSetTitle [FStr "Search results: "; FInt (len songs);
                              FStr " songs"]) w in
      let w := tell (OnView ViewSongs)
                 (DoSetSongPtrs songs (DefaultPaging cfg)) w in
      Some (Some ViewSongs, w)
    else if decide (itemType = TypePlaylist types) then
      let playlists := map asPlaylist results in
      let w := tell (OnView ViewPlaylists) (DoSetPlaylistPtrs playlists) w in
      Some (Some ViewPlaylists, w)
    else if decide (itemType = TypeGenre types) then
      let genres := replicate (length results) None in
      let w := tell (OnView ViewGenres) (DoSetGenrePtrs genres) w in
      Some (Some ViewGenres, w)
    else Some (None, w) in
  match switched with
  | None => None
  | Some (Some view, w) =>
      let w := SetFocus (Some (PView ViewSearchResultsTop)) w in
      Some (setViewWidget view true w)
  | Some (None, w) => Some w
  end.

(** **** What happens to a window *)

(** Key events and the methods of the window that [NewWindow] hands to
    the views, the modals and the player as callbacks. *)
Inductive Op :=
  | OpKey (event : EventKey)
  | OpSelectMedia (m : MediaSelect)
  | OpSelectArtist (artist : Artist)
  | OpSelectAlbum (album : Album)
  | OpSelectPlaylist (pl : Playlist)
  | OpSelectGenre (id : IdName)
  | OpSelectSongs (page : Paging)
  | OpShowRecentSongsPage (page : Paging)
  | OpShowArtistPage (page : Paging)
  | OpShowAlbumPage (page : Paging)
  | OpShowGenrePage (page : Paging)
  | OpShowSimilarArtists (artist : Id)
  | OpShowSimilarAlbums (album : Album)
  | OpCloseMessage
  | OpCloseModal (m : ModalId)
  | OpBack
  | OpSearch (query : string)
  | OpStatus (state : AudioStatus)
  | OpPlaySongs (songs : list Song)
  | OpClearQueue
  | OpPlaySong (song : Song)
  | OpShowSearchResults (itemType : ItemType) (results : list Item)
  | OpNavBar (label : string).

Section Ops.

Variable cfg : Config.Config.
Variable mediaItems : ItemController.
Variable Volume_Add : Z -> Z -> Z.
Variable itemTypes : ItemTypes.

(** One event; [None] is a panic. *)
Definition perform (op : Op) (w : Window) : option Window :=
  match op with
  | OpKey event => fst <$> eventHandler cfg mediaItems Volume_Add event w
  | OpSelectMedia m => Some (selectMedia cfg mediaItems m w)
  | OpSelectArtist artist => Some (selectArtist mediaItems artist w)
  | OpSelectAlbum album => Some (selectAlbum mediaItems album w)
  | OpSelectPlaylist pl => Some (selectPlaylist mediaItems pl w)
  | OpSelectGenre id => Some (selectGenre mediaItems id w)
  | OpSelectSongs page => Some (selectSongs mediaItems page w)
  | OpShowRecentSongsPage page => Some (showRecentSongsPage mediaItems page w)
  | OpShowArtistPage page => Some (showArtistPage mediaItems page w)
  | OpShowAlbumPage page => Some (showAlbumPage mediaItems page w)
  | OpShowGenrePage page => Some (showGenrePage mediaItems page w)
  | OpShowSimilarArtists artist => showSimilarArtists mediaItems artist w
  | OpShowSimilarAlbums album => showSimilarAlbums mediaItems album w
  | OpCloseMessage => Some (closeMessage w)
  | OpCloseModal m => Some (wrapCloseModal m w)
  | OpBack => Some (back w)
  | OpSearch query => Some (searchCb cfg mediaItems query w)
  | OpStatus state => Some (statusCb state w)
  | OpPlaySongs songs => Some (playSongs songs w)
  | OpClearQueue => Some (clearQueue w)
  | OpPlaySong song => Some (playSong song w)
  | OpShowSearchResults itemType results =>
      showSearchResults cfg itemTypes itemType results w
  | OpNavBar label => Some (navBarHandler label w)
  end.

(** A series of events, stopping at a panic. *)
Fixpoint performAll (ops : list Op) (w : Window) : option Window :=
  match ops with
  | [] => Some w
  | op :: ops =>
      match perform op w with
      | Some w => performAll ops w
      | None => None
      end
  end.

End Ops.

(** [hasModal] and the modal reference agree. *)
Definition modalConsistent (w : Window) : Prop :=
  (hasModal w = true /\ is_Some (modal w)) \/
  (hasModal w = false /\ modal w = None).

(** The grid holds the three fixed items and then the current central
    view, if there is one. *)
Definition oneCentralView (w : Window) : Prop :=
  grid w = [PNavBar; PMediaNav; PStatus] ++ option_list (PView <$> mediaView w).

(** The modal state, the grid and the central view are the same in both
    windows. *)
Definition keeps (w w' : Window) : Prop :=
  hasModal w' = hasModal w /\ modal w' = modal w /\
  grid w' = grid w /\ mediaView w' = mediaView w.

Definition stable (w : Window) : Prop := modalConsistent w /\ oneCentralView w.

(** The keys of the navigation bar. *)
Definition navKeys (navBar : Config.NavigationBar) : list Key :=
  [Config.Quit navBar; Config.Help navBar; Config.Search navBar;
   Config.Queue navBar; Config.History navBar].

(** **** Vocabulary of the properties *)

(** Two windows that differ at most in their trace. *)
Definition sameState (w w' : Window) : Prop :=
  focus w' = focus w /\ grid w' = grid w /\ modals w' = modals w /\
  mediaNav w' = mediaNav w /\ status w' = status w /\ help w' = help w /\
  albumList w' = albumList w /\ similarAlbums w' = similarAlbums w /\
  latestAlbums w' = latestAlbums w /\ favoriteAlbums w' = favoriteAlbums w /\
  playlist w' = playlist w /\ searchResultsTop w' = searchResultsTop w /\
  calls w' = calls w /\ previous w' = previous w /\ modal w' = modal w /\
  mediaView w' = mediaView w /\ mediaViewSelected w' = mediaViewSelected w /\
  hasModal w' = hasModal w /\ lastFocus w' = lastFocus w.

(** The global playback controls, in the order of the cases of
    [mediaCtrl]. *)
Inductive Control :=
  | CtlStop
  | CtlPlayPause
  | CtlVolumeDown
  | CtlVolumeUp
  | CtlNext
  | CtlPrevious
  | CtlForward
  | CtlBackward.

Definition controls : list Control :=
  [CtlStop; CtlPlayPause; CtlVolumeDown; CtlVolumeUp; CtlNext; CtlPrevious;
   CtlForward; CtlBackward].

(** The key bound to a control. *)
Definition binding (ctrls : Config.Global) (c : Control) : Key :=
  match c with
  | CtlStop => Config.Stop ctrls
  | CtlPlayPause => Config.PlayPause ctrls
  | CtlVolumeDown => Config.VolumeDown ctrls
  | CtlVolumeUp => Config.VolumeUp ctrls
  | CtlNext => Config.Next ctrls
  | CtlPrevious => Config.Previous ctrls
  | CtlForward => Config.Forward ctrls
  | CtlBackward => Config.Backward ctrls
  end.

(** The first control a key is bound to. *)
Definition firstBound (ctrls : Config.Global) (key : Key) : option Control :=
  find (fun c => bool_decide (binding ctrls c = key)) controls.

(** What a control asks of the player and the queue. *)
Definition forwarded (Volume_Add : Z -> Z -> Z) (w : Window) (c : Control)
    : list Event :=
  match c with
  | CtlStop => [PlayerDo StopMedia; QueueDo (ClearQueue true)]
  | CtlPlayPause => [PlayerDo PlayPause]
  | CtlVolumeDown => [PlayerGo (SetVolume (Volume_Add (Volume (status w)) (-5)))]
  | CtlVolumeUp => [PlayerGo (SetVolume (Volume_Add (Volume (status w)) 5))]
  | CtlNext => [PlayerDo Next]
  | CtlPrevious => [PlayerDo Previous]
  | CtlForward => [PlayerDo (Seek 3000)]
  | CtlBackward => [PlayerDo (Seek (-3000))]
  end.

(** The calls on the item controller found in a trace. *)
Definition fetches (tr : list Event) : list ItemCall :=
  omap (fun e => match e with ItemsDo c => Some c | _ => None end) tr.

(** The log lines found in a trace. *)
Definition logged (tr : list Event) : list (Level * Text) :=
  omap (fun e => match e with Log l msg => Some (l, msg) | _ => None end) tr.

(** What a search for one type puts on the results screen: the items of
    a fetch that succeeded with a non-empty result. *)
Definition found (mediaItems : ItemController) (query : string)
    (t : ItemType) : option (list Item) :=
  match Search mediaItems t query with
  | (items, None) => if decide (len items > 0) then Some items else None
  | (_, Some _) => None
  end.

(** What a search for one type logs: the error of a fetch that failed. *)
Definition searchLog (mediaItems : ItemController) (query : string)
    (t : ItemType) : option (Level * Text) :=
  match snd (Search mediaItems t query) with
  | Some e =>
      Some (LevelError,
            [FStr "search items of type "; FStr t; FStr ": "; FStr e])
  | None => None
  end.

(** The round trip of the view stack, read without any condition on the
    views pushed. *)
Definition any_drills_then_backs_return : Prop :=
  forall (w : Window) (s0 : ScreenId) (ps : list ScreenId),
    mediaView w = Some s0 ->
    mediaView (backs (length ps) (drills ps w)) = Some s0.

(** Choosing a row of the media navigation, read as leaving the back link
    of the view shown as it was. *)
Definition category_switch_keeps_previous : Prop :=
  forall (cfg : Config.Config) (mediaItems : ItemController)
         (m : MediaSelect) (w : Window),
    previous (selectMedia cfg mediaItems m w) !! target m
    = previous w !! target m.

End Widgets.

(** ** Concrete collaborators and inputs *)
Module Samples.
Import Tcell Models Interfaces Widgets.

Definition keys : Config.Global :=
  {| Config.Stop := 1; Config.PlayPause := 2; Config.VolumeDown := 3;
     Config.VolumeUp := 4; Config.Next := 5; Config.Previous := 6;
     Config.Forward := 7; Config.Backward := 8 |}.

(** The quit key collides with the key bound to volume up. *)
Definition navKeys : Config.NavigationBar :=
  {| Config.Quit := 4; Config.Help := 11; Config.Search := 12;
     Config.Queue := 13; Config.History := 14 |}.

Definition cfg : Config.Config :=
  {| Config.KeyBinds_Global := keys;
     Config.KeyBinds_NavigationBar := navKeys;
     Config.SearchTypes := ["A"; "B"]%string;
     Config.LimitRecentlyPlayed := false;
     Config.DefaultPageSize := 100 |}.

(** A volume that stays within [0, 100]. *)
Definition Volume_Add (v d : Z) : Z := Z.max 0 (Z.min 100 (v + d)).

Definition song (n : string) : Song :=
  {| Song_Id := n; Song_Name := n; Song_Duration := 180;
     Song_AlbumArtist := "" |}.

Definition album (n : string) : Album :=
  {| Album_Id := n; Album_Name := n; Album_Year := 2020;
     Album_Duration := 1800; Album_Artist := "artist";
     Album_AdditionalArtists := [] |}.

Definition artist (n : string) : Artist :=
  {| Artist_Id := n; Artist_Name := n; Artist_TotalDuration := 3600;
     Artist_AlbumCount := 2; Artist_Favorite := false |}.

Definition playlist (n : string) : Playlist :=
  {| Playlist_Id := n; Playlist_Name := n; Playlist_Duration := 360;
     Playlist_Songs := [] |}.

Definition genre (n : string) : IdName :=
  {| IdName_Id := n; IdName_Name := n |}.

(** Type ["A"] cannot be searched, type ["B"] has three songs. *)
Definition search (t : ItemType) (query : string) : list Item * error :=
  if decide (t = "A"%string) then ([], Some "timeout"%string)
  else if decide (t = "B"%string)
  then ([ItemSong (song "b1"); ItemSong (song "b2"); ItemSong (song "b3")], None)
  else ([], None).

(** A server that answers every request. *)
Definition items : ItemController :=
  {| GetLatestAlbums := ([album "new"], None);
     GetFavoriteArtists := ([artist "fav"], None);
     GetPlaylists := ([playlist "mix"], None);
     GetSongs := fun _ _ => ([song "s1"; song "s2"], 2, None);
     GetRecentlyPlayed := fun _ => ([song "s2"], 1, None);
     GetArtists := fun _ => ([artist "a1"; artist "a2"], 2, None);
     GetAlbumArtists := fun _ => ([artist "a1"], 1, None);
     GetAlbums := fun _ => ([album "x"; album "y"], 2, None);
     GetFavoriteAlbums := fun _ => ([album "x"], 1, None);
     GetGenres := fun _ => ([genre "rock"], 1, None);
     GetArtistAlbums := fun _ => ([album "x"; album "y"], None);
     GetAlbumSongs := fun _ => ([song "s1"; song "s2"], None);
     GetAlbumArtist := fun _ => (Some (artist "a1"), None);
     GetPlaylistSongs := fun p => (p, None);
     GetSimilarArtists := fun _ => ([artist "a2"], None);
     GetSimilarAlbums := fun _ => ([album "z"], None);
     GetGenreAlbums := fun _ => ([album "x"], None);
     Search := search;
     GetStatistics := Help.emptyStats |}.

(** A server that is down: every request fails and returns nothing. *)
Definition down : ItemController :=
  {| GetLatestAlbums := ([], Some "down"%string);
     GetFavoriteArtists := ([], Some "down"%string);
     GetPlaylists := ([], Some "down"%string);
     GetSongs := fun _ _ => ([], 0, Some "down"%string);
     GetRecentlyPlayed := fun _ => ([], 0, Some "down"%string);
     GetArtists := fun _ => ([], 0, Some "down"%string);
     GetAlbumArtists := fun _ => ([], 0, Some "down"%string);
     GetAlbums := fun _ => ([], 0, Some "down"%string);
     GetFavoriteAlbums := fun _ => ([], 0, Some "down"%string);
     GetGenres := fun _ => ([], 0, Some "down"%string);
     GetArtistAlbums := fun _ => ([], Some "down"%string);
     GetAlbumSongs := fun _ => ([], Some "down"%string);
     GetAlbumArtist := fun _ => (None, Some "down"%string);
     GetPlaylistSongs := fun p => (p, Some "down"%string);
     GetSimilarArtists := fun _ => ([], Some "down"%string);
     GetSimilarAlbums := fun _ => ([], Some "down"%string);
     GetGenreAlbums := fun _ => ([], Some "down"%string);
     Search := fun _ _ => ([], Some "down"%string);
     GetStatistics := Help.emptyStats |}.

Definition quiet : AudioStatus := {| Volume := 50 |}.

(** The window once the artists row has been chosen on a working
    server: the artist list is the current view. *)
Definition onArtists : Window :=
  selectMedia cfg items MediaArtists (NewWindow quiet).

(** The window showing the albums of an artist. *)
Definition onArtistAlbums : Window :=
  selectArtist items (artist "a1") onArtists.

(** The window with the help modal open. *)
Definition withHelp : Window :=
  default (NewWindow quiet) (showModal ModalHelp 25 50 true (NewWindow quiet)).

Definition secondPage : Paging :=
  {| TotalItems := 250; TotalPages := 3; CurrentPage := 1; PageSize := 100 |}.

(** Five distinct names for the item types. *)
Definition itemTypes : ItemTypes :=
  {| TypeAlbum := "Album"; TypeArtist := "Artist"; TypeSong := "Song";
     TypePlaylist := "Playlist"; TypeGenre := "Genre" |}.

(** A session: artists, one artist, one album, the help modal, a tab, the
    way back, a search and the songs it found. *)
Definition session : list Op :=
  [OpSelectMedia MediaArtists; OpSelectArtist (artist "a1");
   OpSelectAlbum (album "x");
   OpKey {| Tcell.Key_of := 11; Tcell.Modifiers := Tcell.ModNone |};
   OpKey {| Tcell.Key_of := Tcell.KeyTAB; Tcell.Modifiers := Tcell.ModNone |};
   OpBack;
   OpKey {| Tcell.Key_of := 12; Tcell.Modifiers := Tcell.ModNone |};
   OpSearch "foo";
   OpShowSearchResults "Song" [ItemSong (song "b1"); ItemSong (song "b2")]].

(** The window the session ends in. *)
Definition afterSession : Window :=
  default (NewWindow quiet)
    (performAll cfg items Volume_Add itemTypes session (NewWindow quiet)).

End Samples.

(** * Properties *)

(** ** Go integers *)

Lemma wrap64_small z : - 2 ^ 63 <= z < 2 ^ 63 -> wrap64 z = z.
Proof.
  intros Hz. unfold wrap64.
  rewrite Z.mod_small by lia. lia.
Qed.

(** ** The help modal *)
Module HelpFacts.
Import Tcell Help.

(** The content shown never changes the page counters. *)
Lemma setContent_counters h :
  page (setContent h) = page h /\ totalPages (setContent h) = totalPages h.
Proof.
  unfold setContent.
  repeat case_decide; simpl; auto.
Qed.

Lemma InputHandler_counters key h :
  totalPages h = 3 -> pageInRange h ->
  page (fst (InputHandler key h)) = nextPage key h /\
  totalPages (fst (InputHandler key h)) = 3.
Proof.
  unfold pageInRange, InputHandler, nextPage. intros Ht Hp.
  assert (Hsub : int_sub (totalPages h) 1 = totalPages h - 1).
  { unfold int_sub. apply wrap64_small. lia. }
  rewrite Hsub.
  destruct (decide (key = KeyEscape)) as [->|Hesc].
  { simpl. repeat case_decide; try discriminate; auto. }
  destruct (decide (key = KeyLeft)) as [->|Hleft].
  { case_decide; simpl; auto.
    destruct (setContent_counters (set_page (int_sub (page h) 1) h)) as [-> ->].
    simpl. split; auto. unfold int_sub. apply wrap64_small. lia. }
  destruct (decide (key = KeyRight)) as [->|Hright].
  { case_decide; simpl; auto.
    destruct (setContent_counters (set_page (int_add (page h) 1) h)) as [-> ->].
    simpl. split; auto. unfold int_add. apply wrap64_small. lia. }
  simpl. auto.
Qed.

Lemma nextPage_in_range key h :
  totalPages h = 3 -> pageInRange h ->
  0 <= nextPage key h < 3.
Proof.
  unfold pageInRange, nextPage. intros Ht Hp.
  repeat case_decide; lia.
Qed.

Lemma NewHelp_wellPaged doneCb : wellPaged (NewHelp doneCb).
Proof. unfold wellPaged, pageInRange. simpl. lia. Qed.

Lemma call_wellPaged c h : wellPaged h -> wellPaged (call c h).
Proof.
  intros [Ht Hp]. destruct c as [key| | | | |]; simpl; try (split; assumption).
  destruct (InputHandler_counters key h Ht Hp) as [Hpage Htotal].
  split; [assumption|].
  unfold pageInRange. rewrite Hpage, Htotal.
  apply nextPage_in_range; assumption.
Qed.

Lemma calls_wellPaged cs : forall h, wellPaged h -> wellPaged (calls cs h).
Proof.
  induction cs as [|c cs IH]; intros h Hh; simpl; [assumption|].
  apply IH, call_wellPaged, Hh.
Qed.

(** C9. In the help modal the page index always stays within
    [0, totalPages): from [NewHelp] (page 0, three pages), after any
    sequence of key events and of the other calls the window makes on the
    modal, the page is in range; on the state reached a Left key
    decrements the page only when [page > 0], a Right key increments it
    only when [page < totalPages - 1], and every other key leaves it
    alone. *)
Theorem help_page_stays_in_range (doneCb : DoneFunc) (cs : list Call) (key : Key) :
  let h := calls cs (NewHelp doneCb) in
  page (NewHelp doneCb) = 0 /\
  totalPages h = 3 /\
  0 <= page h < totalPages h /\
  page (fst (InputHandler key h)) =
    (if decide (key = KeyLeft) then
       if decide (page h > 0) then page h - 1 else page h
     else if decide (key = KeyRight) then
       if decide (page h < totalPages h - 1) then page h + 1 else page h
     else page h) /\
  0 <= page (fst (InputHandler key h)) < totalPages (fst (InputHandler key h)).
Proof.
  intros h.
  destruct (calls_wellPaged cs (NewHelp doneCb) (NewHelp_wellPaged doneCb))
    as [Ht Hp]. fold h in Ht, Hp.
  destruct (InputHandler_counters key h Ht Hp) as [Hpage Htotal].
  split; [reflexivity|]. split; [assumption|]. split; [exact Hp|].
  split; [exact Hpage|].
  rewrite Hpage, Htotal. apply nextPage_in_range; assumption.
Qed.

(** Right, Right, Right, Left from a new modal: the third Right is
    refused on the last page. *)
Example help_walk :
  map (fun cs => page (calls cs (NewHelp CloseHelp)))
    [[CallInput KeyLeft];
     [CallInput KeyRight];
     [CallInput KeyRight; CallInput KeyRight];
     [CallInput KeyRight; CallInput KeyRight; CallInput KeyRight];
     [CallInput KeyRight; CallInput KeyRight; CallInput KeyRight;
      CallInput KeyLeft]]
  = [0; 1; 2; 2; 1].
Proof. reflexivity. Qed.

End HelpFacts.

(** ** The update bridge *)
Module BridgeFacts.
Import Bridge.

Section Facts.

Context {PlayingState : Type}.
Implicit Types (g : Gui PlayingState) (s : PlayingState).
Implicit Types (m : Msg PlayingState) (st : Step PlayingState).

Lemma run_app (sts1 sts2 : list (Step PlayingState)) g :
  run (sts1 ++ sts2) g = run sts2 (run sts1 g).
Proof. unfold run. apply fold_left_app. Qed.

(** No reception makes an iteration the last one. *)
Lemma iteration_goes_on m g : snd (iteration m g) = NextIteration.
Proof. destruct m; reflexivity. Qed.

(** The loop handles every message it is given and is then waiting for
    the next one. *)
Lemma loop_waits (msgs : list (Msg PlayingState)) :
  forall g, loop msgs g = (run (map Recv msgs) g, Waiting, length msgs).
Proof.
  induction msgs as [|m msgs IH]; intros g; simpl; [reflexivity|].
  pose proof (iteration_goes_on m g) as Hflow.
  destruct (iteration m g) as [g' flow] eqn:Hit. simpl in Hflow. subst flow.
  rewrite IH. reflexivity.
Qed.

(** C5 (the code departs from the claim). The stop signal does not end
    the receive loop: whatever was received before it, the iteration that
    receives the stop signal is followed by one iteration for each later
    message, whose player states are stored as before, and the loop never
    returns. *)
Theorem loop_goes_on_after_stop (before after : list (Msg PlayingState)) g :
  loop (before ++ Stop :: after) g =
    (run (map Recv after) (run (map Recv before) g),
     Waiting,
     (length before + 1 + length after)%nat).
Proof.
  rewrite loop_waits. rewrite map_app, run_app. simpl.
  rewrite length_app. simpl.
  replace (length before + S (length after))%nat
    with (length before + 1 + length after)%nat by lia.
  reflexivity.
Qed.

(** After a player state has been stored, steps that bring no new state
    keep it stored, and every redraw among them shows it. *)
Lemma quiet_run s (post : list (Step PlayingState)) :
  forall g,
    forallb quiet post = true ->
    lastState g = Some s ->
    lastState (run post g) = Some s /\
    (exists n, events (run post g) = events g ++ concat (replicate n (reads s))) /\
    (progress g = Some s -> progress (run post g) = Some s) /\
    ((1 <= queued g)%nat -> In Redraw post -> progress (run post g) = Some s).
Proof.
  induction post as [|st post IH]; intros g Hq Hs; simpl.
  { split; [assumption|]. split; [exists O; simpl; by rewrite app_nil_r|].
    split; [auto|]. intros _ []. }
  simpl in Hq. apply andb_prop in Hq as [Hst Hq].
  destruct st as [[|s']|]; simpl in Hst; try discriminate.
  - (* the stop signal is received *)
    simpl. destruct (IH g Hq Hs) as (H1 & H2 & H3 & H4).
    repeat split; auto.
    intros Hn [Hin|Hin]; [discriminate|auto].
  - (* the interface thread runs a queued callback *)
    simpl. unfold redraw. destruct (queued g) as [|n] eqn:Hn.
    + destruct (IH g Hq Hs) as (H1 & H2 & H3 & H4).
      repeat split; auto. intros Hle. lia.
    + set (g' := updateState _).
      assert (Hs' : lastState g' = Some s) by exact Hs.
      assert (Hp' : progress g' = Some s) by exact Hs.
      assert (He' : events g' = events g ++ reads s).
      { unfold g', updateState, reads. simpl. rewrite Hs. reflexivity. }
      destruct (IH g' Hq Hs') as (H1 & [k H2] & H3 & H4).
      split; [assumption|]. split.
      { exists (S k). rewrite H2, He', <- app_assoc. reflexivity. }
      split; auto.
Qed.

(** C6. Each player state received by the loop replaces the stored
    snapshot, between [Lock] and [Unlock] and with nothing else done under
    the lock, and queues one redraw; so after any run of the bridge that
    ends with the reception of state [s], the snapshot is [s], it remains
    [s] through any later redraws and stop signals, every later redraw
    reads and shows [s], and once one of them has run the status bar
    shows [s]. *)
Theorem bridge_shows_last_update
    g (pre : list (Step PlayingState)) s (post : list (Step PlayingState)) :
  forallb quiet post = true ->
  let g0 := run pre g in
  let g1 := run (pre ++ [Recv (State s)]) g in
  let g2 := run post g1 in
  lastState g1 = Some s /\
  events g1 = events g0 ++ [Lock; Store s; Unlock; Update] /\
  queued g1 = S (queued g0) /\
  progress g1 = progress g0 /\
  lastState g2 = Some s /\
  (exists n, events g2 = events g1 ++ concat (replicate n (reads s))) /\
  progress (updateState g2) = Some s /\
  (In Redraw post -> progress g2 = Some s).
Proof.
  intros Hq g0 g1 g2.
  assert (Hg1 : g1 = fst (iteration (State s) g0)).
  { unfold g1, g0. rewrite run_app. reflexivity. }
  assert (Hs : lastState g1 = Some s) by (rewrite Hg1; reflexivity).
  assert (Hn : queued g1 = S (queued g0)) by (rewrite Hg1; reflexivity).
  destruct (quiet_run s post g1 Hq Hs) as (H1 & H2 & H3 & H4).
  split; [assumption|].
  split; [rewrite Hg1; reflexivity|].
  split; [assumption|].
  split; [rewrite Hg1; reflexivity|].
  split; [assumption|].
  split; [assumption|].
  split; [exact H1|].
  apply H4. lia.
Qed.

End Facts.

(** The stop signal, then one more player state: the loop has stored the
    state received after the stop signal and waits for more. *)
Example loop_after_stop :
  loop [Stop; State 15] initial =
    ({| lastState := Some 15; queued := 1; progress := None;
        events := [Lock; Store 15; Unlock; Update] |}, Waiting, 2%nat).
Proof. reflexivity. Qed.

(** Positions 10, 12 and 15 arrive; a redraw that runs after the last of
    them shows 15. *)
Lemma bridge_shows_last_update_witness :
  forallb quiet [Redraw : Step Z] = true /\
  progress (run [Redraw]
              (run ([Recv (State 10); Recv (State 12)] ++ [Recv (State 15)])
                 initial)) = Some 15.
Proof.
  split; [reflexivity|].
  apply (bridge_shows_last_update initial
           [Recv (State 10); Recv (State 12)] 15 [Redraw]).
  - reflexivity.
  - left. reflexivity.
Defined.

(** The same three updates with the redraws run in between and late:
    what is shown goes 10, 15, 15. *)
Example bridge_coalesces :
  events (run [Recv (State 10); Redraw; Recv (State 12); Recv (State 15);
               Redraw; Redraw] initial)
  = [Lock; Store 10; Unlock; Update] ++ reads 10
    ++ [Lock; Store 12; Unlock; Update] ++ [Lock; Store 15; Unlock; Update]
    ++ reads 15 ++ reads 15.
Proof. reflexivity. Qed.

End BridgeFacts.

(** ** The window *)
Module WindowFacts.
Import Tcell Models Interfaces Widgets.

(** *** Frames *)

Lemma sameState_refl w : sameState w w.
Proof. repeat split. Qed.

Lemma sameState_set_trace tr w : sameState w (set_trace tr w).
Proof. repeat split. Qed.

Lemma sameState_emit e w : sameState w (emit e w).
Proof. apply sameState_set_trace. Qed.

Lemma sameState_trans w1 w2 w3 :
  sameState w1 w2 -> sameState w2 w3 -> sameState w1 w3.
Proof.
  unfold sameState. intros H12 H23.
  repeat match goal with H : _ /\ _ |- _ => destruct H as [? ?] end.
  repeat split; congruence.
Qed.

Lemma set_trace_emit e w : emit e w = set_trace (trace w ++ [e]) w.
Proof. reflexivity. Qed.

Lemma set_trace_twice t1 t2 w : set_trace t2 (set_trace t1 w) = set_trace t2 w.
Proof. reflexivity. Qed.

Lemma mediaView_tell t m w : mediaView (tell t m w) = mediaView w.
Proof. reflexivity. Qed.

Lemma previous_tell t m w : previous (tell t m w) = previous w.
Proof. reflexivity. Qed.

(** *** Switching the central view *)

Lemma setViewWidget_same p updatePrevious w :
  mediaView w = Some p -> setViewWidget p updatePrevious w = w.
Proof.
  intros Hp. unfold setViewWidget. rewrite Hp.
  destruct (decide (Some p = Some p)); [reflexivity|congruence].
Qed.

(** C10. [setViewWidget] called with the view that is already the current
    media view does nothing, whatever [updatePrevious] is: the window that
    results is the window it was given, with its grid, its focus, its
    [lastFocus], its [mediaView] and the back links of all views. *)
Theorem setViewWidget_current_is_noop
    (p : ScreenId) (updatePrevious : bool) (w : Window) :
  mediaView w = Some p ->
  setViewWidget p updatePrevious w = w /\
  grid (setViewWidget p updatePrevious w) = grid w /\
  focus (setViewWidget p updatePrevious w) = focus w /\
  lastFocus (setViewWidget p updatePrevious w) = lastFocus w /\
  mediaView (setViewWidget p updatePrevious w) = mediaView w /\
  previous (setViewWidget p updatePrevious w) !! p = previous w !! p.
Proof.
  intros Hp. rewrite (setViewWidget_same p updatePrevious w Hp).
  repeat split.
Qed.

Lemma setViewWidget_current_is_noop_witness :
  mediaView Samples.onArtists = Some ViewArtistList /\
  setViewWidget ViewArtistList true Samples.onArtists = Samples.onArtists /\
  setViewWidget ViewArtistList false Samples.onArtists = Samples.onArtists.
Proof.
  split; [reflexivity|]. split.
  - apply (setViewWidget_current_is_noop ViewArtistList true Samples.onArtists).
    reflexivity.
  - apply (setViewWidget_current_is_noop ViewArtistList false Samples.onArtists).
    reflexivity.
Defined.

(** A view other than the current one becomes the current one. *)
Lemma setViewWidget_other p updatePrevious w :
  mediaView w <> Some p ->
  mediaView (setViewWidget p updatePrevious w) = Some p /\
  focus (setViewWidget p updatePrevious w) = Some (PView p) /\
  lastFocus (setViewWidget p updatePrevious w) = focus w /\
  previous (setViewWidget p updatePrevious w) =
    (if updatePrevious
     then match mediaView w with
          | Some q => <[p := q]> (previous w)
          | None => delete p (previous w)
          end
     else previous w).
Proof.
  intros Hp. unfold setViewWidget.
  destruct (decide (Some p = mediaView w)) as [E|_]; [congruence|].
  destruct updatePrevious; simpl.
  - unfold SetLast. simpl. destruct (mediaView w); simpl;
      destruct (focus w) as [[| [] | | | |]|]; repeat split.
  - destruct (focus w) as [[| [] | | | |]|]; repeat split.
Qed.

(** Switching views tells the views nothing. *)
Lemma setViewWidget_calls p updatePrevious w :
  calls (setViewWidget p updatePrevious w) = calls w.
Proof.
  unfold setViewWidget. case_decide; [reflexivity|].
  destruct updatePrevious; unfold SetLast; simpl;
    destruct (mediaView w); simpl;
    destruct (focus w) as [[| [] | | | |]|]; reflexivity.
Qed.

(** *** The modal overlay *)

(** C3. Showing a modal while a modal is active only logs a warning: the
    call returns, [hasModal] stays true, the modal reference is the same,
    and nothing of the window but its trace changes (so not the focus,
    [lastFocus] or the layout).  Closing a modal while none is active only
    logs a warning: [hasModal] stays false and nothing of the window but
    its trace changes. *)
Theorem modal_rejections
    (w : Window) (m : ModalId) (height width : Z) (lockSize : bool) :
  (hasModal w = true ->
   exists w',
     showModal m height width lockSize w = Some w' /\
     hasModal w' = true /\ modal w' = modal w /\
     focus w' = focus w /\ lastFocus w' = lastFocus w /\
     grid w' = grid w /\ modals w' = modals w /\
     sameState w w' /\
     trace w' = trace w ++
       [Log LevelWarning
          [FStr "Trying show close modal when there's another modal open."]]) /\
  (hasModal w = false ->
   hasModal (closeModal m w) = false /\ modal (closeModal m w) = modal w /\
   focus (closeModal m w) = focus w /\
   lastFocus (closeModal m w) = lastFocus w /\
   grid (closeModal m w) = grid w /\ modals (closeModal m w) = modals w /\
   sameState w (closeModal m w) /\
   trace (closeModal m w) = trace w ++
     [Log LevelWarning
        [FStr "Trying to close modal when there's no open modal."]]).
Proof.
  split; intros H.
  - unfold showModal. rewrite H. simpl. eexists. split; [reflexivity|].
    simpl. repeat split; assumption.
  - unfold closeModal. rewrite H. simpl. repeat split; assumption.
Qed.

Lemma modal_rejections_witness :
  hasModal Samples.withHelp = true /\
  (exists w',
     showModal ModalMessage 3 50 false Samples.withHelp = Some w' /\
     hasModal w' = true /\ modal w' = Some ModalHelp) /\
  hasModal (NewWindow Samples.quiet) = false /\
  hasModal (closeModal ModalHelp (NewWindow Samples.quiet)) = false.
Proof.
  split; [reflexivity|]. split.
  - destruct (modal_rejections Samples.withHelp ModalMessage 3 50 false)
      as [Hshow _].
    destruct (Hshow eq_refl) as (w' & Hw' & Hhas & Hmodal & _).
    exists w'. split; [exact Hw'|]. split; [exact Hhas|].
    rewrite Hmodal. reflexivity.
  - split; [reflexivity|].
    destruct (modal_rejections (NewWindow Samples.quiet) ModalHelp 0 0 false)
      as [_ Hclose].
    destruct (Hclose eq_refl) as (Hhas & _). exact Hhas.
Defined.

(** *** Key dispatch *)

(** One case of the [switch]: is the key the one bound to [b]? *)
Ltac case_binding k b :=
  let E := fresh "E" in
  destruct (decide (k = b)) as [E|E];
  [ rewrite (bool_decide_eq_true_2 (b = k)) by (symmetry; exact E)
  | rewrite (bool_decide_eq_false_2 (b = k)) by congruence ].

Ltac case_bindings ctrls k tac :=
  case_binding k (Config.Stop ctrls); [tac|];
  case_binding k (Config.PlayPause ctrls); [tac|];
  case_binding k (Config.VolumeDown ctrls); [tac|];
  case_binding k (Config.VolumeUp ctrls); [tac|];
  case_binding k (Config.Next ctrls); [tac|];
  case_binding k (Config.Previous ctrls); [tac|];
  case_binding k (Config.Forward ctrls); [tac|];
  case_binding k (Config.Backward ctrls); [tac|].

(** [mediaCtrl] carries out the first control the key is bound to. *)
Lemma mediaCtrl_bound cfg Volume_Add ev w c :
  firstBound (Config.KeyBinds_Global cfg) (Key_of ev) = Some c ->
  mediaCtrl cfg Volume_Add ev w
  = (set_trace (trace w ++ forwarded Volume_Add w c) w, true).
Proof.
  unfold firstBound, controls, mediaCtrl. simpl.
  case_bindings (Config.KeyBinds_Global cfg) (Key_of ev)
    ltac:(intros [= <-]; unfold emit; simpl;
          rewrite <- ?app_assoc; reflexivity).
  discriminate.
Qed.

(** Keys bound to no control are left to the other handlers. *)
Lemma mediaCtrl_unbound cfg Volume_Add ev w :
  firstBound (Config.KeyBinds_Global cfg) (Key_of ev) = None ->
  mediaCtrl cfg Volume_Add ev w = (w, false).
Proof.
  unfold firstBound, controls, mediaCtrl. simpl.
  case_bindings (Config.KeyBinds_Global cfg) (Key_of ev) ltac:(discriminate).
  reflexivity.
Qed.

Lemma firstBound_bound ctrls key :
  In key (map (binding ctrls) controls) ->
  exists c, firstBound ctrls key = Some c /\ binding ctrls c = key.
Proof.
  intros Hin. unfold firstBound.
  destruct (find _ controls) as [c|] eqn:Hfind.
  - exists c. split; [reflexivity|].
    apply find_some in Hfind as [_ Hc].
    apply bool_decide_eq_true_1 in Hc. exact Hc.
  - apply in_map_iff in Hin as (c & Hc & Hcin).
    pose proof (find_none _ _ Hfind c Hcin) as Hfalse. simpl in Hfalse.
    apply bool_decide_eq_false_1 in Hfalse. contradiction.
Qed.

(** C4. A key bound to one of the global playback controls (stop,
    play/pause, volume down and up, next, previous, seek forward and
    backward) is handled by [mediaCtrl], the first handler [keyHandler]
    tries, in every state of the window: the first control bound to the
    key is forwarded to the player, nothing of the window but its trace
    changes, so neither the navigation bar nor the focus handling has
    acted, and the event is consumed ([nil] goes back to the toolkit and
    no view receives the key).  A volume change reaches the player through
    a [go] statement only: it is never called in the input goroutine. *)
Theorem playback_keys_come_first
    (cfg : Config.Config) (mediaItems : ItemController)
    (Volume_Add : Z -> Z -> Z) (ev : EventKey) (w : Window) :
  In (Key_of ev) (map (binding (Config.KeyBinds_Global cfg)) controls) ->
  exists c,
    firstBound (Config.KeyBinds_Global cfg) (Key_of ev) = Some c /\
    binding (Config.KeyBinds_Global cfg) c = Key_of ev /\
    let w' := set_trace (trace w ++ forwarded Volume_Add w c) w in
    mediaCtrl cfg Volume_Add ev w = (w', true) /\
    keyHandler cfg mediaItems Volume_Add ev w = Some (w', None) /\
    eventHandler cfg mediaItems Volume_Add ev w = Some (w', None) /\
    sameState w w' /\
    (forall e, In e (forwarded Volume_Add w c) ->
       (exists call, e = PlayerDo call \/ e = PlayerGo call) \/
       e = QueueDo (ClearQueue true)) /\
    (forall v, ~ In (PlayerDo (SetVolume v)) (forwarded Volume_Add w c)) /\
    (c = CtlVolumeDown \/ c = CtlVolumeUp ->
     exists v, forwarded Volume_Add w c = [PlayerGo (SetVolume v)]).
Proof.
  intros Hin.
  destruct (firstBound_bound _ _ Hin) as (c & Hc & Hkey).
  exists c. split; [exact Hc|]. split; [exact Hkey|].
  intros w'.
  pose proof (mediaCtrl_bound cfg Volume_Add ev w c Hc) as Hmedia.
  fold w' in Hmedia.
  assert (Hkh : keyHandler cfg mediaItems Volume_Add ev w = Some (w', None)).
  { unfold keyHandler. rewrite Hmedia. reflexivity. }
  split; [exact Hmedia|]. split; [exact Hkh|].
  split; [unfold eventHandler; rewrite Hkh; reflexivity|].
  split; [apply sameState_set_trace|].
  split; [|split].
  - intros e He. destruct c; simpl in He;
      repeat (destruct He as [<-|He]; [eauto|]); destruct He.
  - intros v Hv. destruct c; simpl in Hv;
      repeat (destruct Hv as [Hv|Hv]; [discriminate|]); destruct Hv.
  - intros [-> | ->]; simpl; eauto.
Qed.

(** The key of volume up is also the quit key of the navigation bar: the
    volume goes up in a goroutine and the application is not stopped. *)
Lemma playback_keys_come_first_witness :
  In 4 (map (binding Samples.keys) controls) /\
  keyHandler Samples.cfg Samples.items Samples.Volume_Add
    {| Key_of := 4; Modifiers := 0 |} (NewWindow Samples.quiet)
  = Some (set_trace [PlayerGo (SetVolume 55)] (NewWindow Samples.quiet), None).
Proof.
  split; [simpl; tauto|].
  destruct (playback_keys_come_first Samples.cfg Samples.items
              Samples.Volume_Add {| Key_of := 4; Modifiers := 0 |}
              (NewWindow Samples.quiet)) as (c & Hc & _ & _ & Hkh & _).
  - simpl. tauto.
  - vm_compute in Hc. injection Hc as <-. exact Hkh.
Defined.

(** A key bound to nothing global goes on to the navigation bar: here the
    help key, pressed while the help modal is open. *)
Example help_key_with_help_open :
  keyHandler Samples.cfg Samples.items Samples.Volume_Add
    {| Key_of := 11; Modifiers := 0 |} Samples.withHelp
  = Some (set_trace
            (trace Samples.withHelp ++
             [ItemsDo CallGetStatistics;
              Log LevelWarning
                [FStr "Trying show close modal when there's another modal open."]])
            Samples.withHelp, None).
Proof. reflexivity. Qed.

(** *** Search *)

Lemma fetches_app tr1 tr2 : fetches (tr1 ++ tr2) = fetches tr1 ++ fetches tr2.
Proof. apply omap_app. Qed.

Lemma logged_app tr1 tr2 : logged (tr1 ++ tr2) = logged tr1 ++ logged tr2.
Proof. apply omap_app. Qed.

(** One turn of the loop of [searchCb]. *)
Lemma searchType_spec mediaItems query w t :
  let w' := searchType mediaItems query w t in
  fetches (trace w') = fetches (trace w) ++ [CallSearch t query] /\
  logged (trace w') =
    logged (trace w) ++ option_list (searchLog mediaItems query t) /\
  searchResultsTop w' =
    match found mediaItems query t with
    | Some items => <[t := items]> (searchResultsTop w)
    | None => searchResultsTop w
    end /\
  sameState (set_searchResultsTop (searchResultsTop w') w) w'.
Proof.
  unfold searchType, found, searchLog.
  destruct (Search mediaItems t query) as [items [e|]]; simpl.
  - rewrite <- app_assoc, fetches_app, logged_app. simpl.
    repeat split.
  - case_decide; simpl; rewrite fetches_app, logged_app; simpl;
      rewrite ?app_nil_r; repeat split.
Qed.

Lemma sameState_results w w' w'' :
  sameState (set_searchResultsTop (searchResultsTop w') w) w' ->
  sameState (set_searchResultsTop (searchResultsTop w'') w') w'' ->
  sameState (set_searchResultsTop (searchResultsTop w'') w) w''.
Proof.
  unfold sameState. simpl. intros H1 H2.
  repeat match goal with H : _ /\ _ |- _ => destruct H as [? ?] end.
  repeat split; congruence.
Qed.

Lemma search_loop mediaItems query (types : list ItemType) :
  forall w,
    let w' := fold_left (searchType mediaItems query) types w in
    fetches (trace w') =
      fetches (trace w) ++ map (fun t => CallSearch t query) types /\
    logged (trace w') =
      logged (trace w) ++ omap (searchLog mediaItems query) types /\
    (forall t,
       searchResultsTop w' !! t =
         match found mediaItems query t with
         | Some items =>
             if decide (t ∈ types) then Some items
             else searchResultsTop w !! t
         | None => searchResultsTop w !! t
         end) /\
    sameState (set_searchResultsTop (searchResultsTop w') w) w'.
Proof.
  induction types as [|a types IH]; intros w; simpl.
  - rewrite !app_nil_r. repeat split.
    intros t. destruct (found mediaItems query t); reflexivity.
  - destruct (searchType_spec mediaItems query w a) as (Hf & Hl & Hr & Hs).
    destruct (IH (searchType mediaItems query w a)) as (IHf & IHl & IHr & IHs).
    split; [rewrite IHf, Hf, <- app_assoc; reflexivity|].
    split.
    { rewrite IHl, Hl, <- app_assoc.
      destruct (searchLog mediaItems query a); reflexivity. }
    split; [|eapply sameState_results; eassumption].
    intros t. rewrite IHr, Hr.
    destruct (found mediaItems query t) as [items|] eqn:Ht.
    + destruct (decide (t ∈ types)) as [Hin|Hnin].
      * rewrite decide_True by (apply elem_of_cons; right; exact Hin).
        reflexivity.
      * destruct (decide (a = t)) as [->|Hne].
        -- rewrite decide_True by (apply elem_of_cons; left; reflexivity).
           rewrite Ht. apply lookup_insert_eq.
        -- rewrite decide_False
             by (intros [?|?]%elem_of_cons; [congruence|contradiction]).
           destruct (found mediaItems query a); [|reflexivity].
           apply lookup_insert_ne. exact Hne.
    + destruct (found mediaItems query a) as [items|] eqn:Ha; [|reflexivity].
      apply lookup_insert_ne. intros ->. congruence.
Qed.

Lemma found_Some mediaItems query t items :
  found mediaItems query t = Some items <->
  Search mediaItems t query = (items, None) /\ items <> [].
Proof.
  unfold found. destruct (Search mediaItems t query) as [its [e|]].
  - split; [discriminate|]. intros [[=] _].
  - case_decide as Hlen.
    + split.
      * intros [= ->]. split; [reflexivity|].
        intros ->. unfold len in Hlen. simpl in Hlen. lia.
      * intros [[= ->] _]. reflexivity.
    + split; [discriminate|]. intros [[= ->] Hne].
      destruct items; [contradiction|].
      unfold len in Hlen. simpl length in Hlen. lia.
Qed.

(** C8. Submitting a search query issues one fetch for each configured
    searchable type, in the order of the configuration; the error of a
    fetch that failed is logged and nothing else is done with it; the
    results screen, emptied first, holds under a type exactly the items of
    a fetch for a configured type that succeeded with a non-empty result;
    and nothing of the window but the results and the trace changes. *)
Theorem search_collects_successes
    (cfg : Config.Config) (mediaItems : ItemController)
    (query : string) (w : Window) :
  let w' := searchCb cfg mediaItems query w in
  fetches (trace w') =
    fetches (trace w)
    ++ map (fun t => CallSearch t query) (Config.SearchTypes cfg) /\
  logged (trace w') =
    logged (trace w) ++ [(LevelDebug, [FStr "In search callback"])]
    ++ omap (searchLog mediaItems query) (Config.SearchTypes cfg) /\
  (forall t items,
     searchResultsTop w' !! t = Some items <->
     In t (Config.SearchTypes cfg) /\
     Search mediaItems t query = (items, None) /\ items <> []) /\
  sameState (set_searchResultsTop (searchResultsTop w') w) w'.
Proof.
  intros w'. unfold w', searchCb.
  set (w0 := ClearResults (logf LevelDebug [FStr "In search callback"] w)).
  destruct (search_loop mediaItems query (Config.SearchTypes cfg) w0)
    as (Hf & Hl & Hr & Hs).
  split; [|split; [|split]].
  - rewrite Hf. unfold w0. simpl. rewrite fetches_app. simpl.
    rewrite app_nil_r. reflexivity.
  - rewrite Hl. unfold w0. simpl. rewrite logged_app. simpl.
    rewrite <- app_assoc. reflexivity.
  - intros t items. rewrite Hr. unfold w0. simpl. rewrite lookup_empty.
    rewrite <- found_Some.
    destruct (found mediaItems query t) as [its|].
    + rewrite <- list_elem_of_In.
      destruct (decide (t ∈ Config.SearchTypes cfg)); split.
      * intros [= ->]. auto.
      * intros [_ [= ->]]. reflexivity.
      * discriminate.
      * intros [? _]. contradiction.
    + split; [discriminate|]. intros [_ ?]. discriminate.
  - clear Hf Hl Hr. unfold sameState in *. simpl in *.
    repeat match goal with H : _ /\ _ |- _ => destruct H as [? ?] end.
    repeat split; assumption.
Qed.

(** [search("foo")] with the two types ["A"] and ["B"], where the fetch
    for ["A"] fails and the one for ["B"] returns three items: two
    fetches, the results hold the three items under ["B"] and nothing
    under ["A"], and the failure is in the log. *)
Example search_scenario :
  let w' := searchCb Samples.cfg Samples.items "foo" Samples.onArtists in
  fetches (trace w') =
    fetches (trace Samples.onArtists)
    ++ [CallSearch "A" "foo"; CallSearch "B" "foo"] /\
  searchResultsTop w' =
    {[ "B"%string :=
         [ItemSong (Samples.song "b1"); ItemSong (Samples.song "b2");
          ItemSong (Samples.song "b3")] ]} /\
  logged (trace w') =
    [(LevelDebug, [FStr "In search callback"]);
     (LevelError,
      [FStr "search items of type "; FStr "A"; FStr ": "; FStr "timeout"])].
Proof. vm_compute. repeat split. Qed.

(** *** The view stack *)

(** Pushing a view other than the current one links it back to the view
    it replaces. *)
Lemma setViewWidget_push p w :
  mediaView w <> Some p ->
  mediaView (setViewWidget p true w) = Some p /\
  previous (setViewWidget p true w) !! p = mediaView w /\
  (forall q, q <> p -> previous (setViewWidget p true w) !! q = previous w !! q).
Proof.
  intros Hp.
  destruct (setViewWidget_other p true w Hp) as (Hview & _ & _ & Hprev).
  split; [exact Hview|]. rewrite Hprev.
  destruct (mediaView w) as [q0|]; split.
  - apply lookup_insert_eq.
  - intros q Hq. apply lookup_insert_ne. congruence.
  - apply lookup_delete_eq.
  - intros q Hq. apply lookup_delete_ne. congruence.
Qed.

Lemma setViewWidget_push_from w w0 p :
  mediaView w0 = mediaView w ->
  previous w0 = previous w ->
  mediaView w <> Some p ->
  mediaView (setViewWidget p true w0) = Some p /\
  previous (setViewWidget p true w0) !! p = mediaView w.
Proof.
  intros Hv Hp Hne. rewrite <- Hv in Hne |- *.
  destruct (setViewWidget_push p w0 Hne) as (H1 & H2 & _). auto.
Qed.

(** Going back to a view other than the current one shows it and touches
    no back link. *)
Lemma goBack_other p w :
  mediaView w <> Some p ->
  mediaView (goBack p w) = Some p /\ previous (goBack p w) = previous w.
Proof.
  intros Hp. unfold goBack.
  destruct (setViewWidget_other p false w Hp) as (Hview & _ & _ & Hprev).
  split; assumption.
Qed.

Lemma backs_S n w : backs (S n) w = back (backs n w).
Proof. reflexivity. Qed.

Lemma drills_cons p ps w : drills (p :: ps) w = drills ps (drill w p).
Proof. reflexivity. Qed.

(** The round trip, with what it leaves of the back links. *)
Lemma drills_backs (ps : list ScreenId) :
  forall w s0,
    mediaView w = Some s0 ->
    NoDup (s0 :: ps) ->
    Forall (fun p => backCallback p = true) ps ->
    mediaView (backs (length ps) (drills ps w)) = Some s0 /\
    (forall q, q ∉ ps ->
       previous (backs (length ps) (drills ps w)) !! q = previous w !! q).
Proof.
  induction ps as [|p ps IH]; intros w s0 Hw Hnd Hcb.
  { simpl. split; [exact Hw|reflexivity]. }
  apply list.NoDup_cons in Hnd as [Hs0 Hnd].
  apply not_elem_of_cons in Hs0 as [Hs0p Hs0].
  pose proof Hnd as Hnd'. apply list.NoDup_cons in Hnd' as [Hp _].
  apply list.Forall_cons in Hcb as [Hcbp Hcb].
  assert (Hne : mediaView w <> Some p) by (rewrite Hw; congruence).
  destruct (setViewWidget_push p w Hne) as (Hview1 & Hprev1 & Hframe1).
  rewrite Hw in Hprev1.
  destruct (IH (drill w p) p Hview1 Hnd Hcb) as [Hview2 Hprev2].
  rewrite drills_cons. simpl length. rewrite backs_S.
  set (w2 := backs (length ps) (drills ps (drill w p))) in *.
  assert (Hback : back w2 = goBack s0 w2).
  { unfold back. rewrite Hview2, Hcbp, (Hprev2 p Hp).
    unfold drill. rewrite Hprev1. reflexivity. }
  rewrite Hback.
  assert (Hne2 : mediaView w2 <> Some s0) by (rewrite Hview2; congruence).
  destruct (goBack_other s0 w2 Hne2) as [Hview3 Hprev3].
  split; [exact Hview3|].
  intros q Hq. apply not_elem_of_cons in Hq as [Hqp Hq].
  rewrite Hprev3, (Hprev2 q Hq). apply Hframe1. exact Hqp.
Qed.

(** From the albums of an artist: an album, the albums similar to it, one
    of those albums.  The album view has been pushed twice and remembers
    only the similar albums, so three steps back end on the similar
    albums. *)
Lemma pushed_twice_no_return : ~ any_drills_then_backs_return.
Proof.
  intros H.
  specialize (H Samples.onArtistAlbums ViewAlbumList
                [ViewAlbum; ViewSimilarAlbums; ViewAlbum] eq_refl).
  vm_compute in H. discriminate.
Qed.

(** The same walk through the methods of the window. *)
Example similar_albums_walk :
  let w1 := selectAlbum Samples.items (Samples.album "x") Samples.onArtistAlbums in
  let w2 := default w1 (showSimilarAlbums Samples.items (Samples.album "x") w1) in
  let w3 := selectAlbum Samples.items (Samples.album "z") w2 in
  map mediaView [Samples.onArtistAlbums; w1; w2; w3;
                 backs 1 w3; backs 2 w3; backs 3 w3]
  = map Some [ViewAlbumList; ViewAlbum; ViewSimilarAlbums; ViewAlbum;
              ViewSimilarAlbums; ViewAlbum; ViewSimilarAlbums].
Proof. vm_compute. reflexivity. Qed.

(** C2 (amended). Starting from any current screen, drilling down through
    screens that are pairwise distinct and distinct from the starting
    screen, each pushed with its back link set to the screen current just
    before it and each with the back callback registered, and then going
    back once for every drill-down, leaves the starting screen
    current. *)
Theorem distinct_drills_then_backs_return
    (w : Window) (s0 : ScreenId) (ps : list ScreenId) :
  mediaView w = Some s0 ->
  NoDup (s0 :: ps) ->
  Forall (fun p => backCallback p = true) ps ->
  mediaView (backs (length ps) (drills ps w)) = Some s0.
Proof.
  intros Hw Hnd Hcb. apply (drills_backs ps w s0 Hw Hnd Hcb).
Qed.

(** Artists, the albums of one, one album, and back, back: the scenario of
    the artists list. *)
Lemma distinct_drills_then_backs_return_witness :
  mediaView Samples.onArtists = Some ViewArtistList /\
  NoDup [ViewArtistList; ViewAlbumList; ViewAlbum] /\
  mediaView (backs 2 (drills [ViewAlbumList; ViewAlbum] Samples.onArtists))
  = Some ViewArtistList.
Proof.
  assert (Hnd : NoDup [ViewArtistList; ViewAlbumList; ViewAlbum]).
  { refine (bool_decide_unpack _ _). vm_compute. exact I. }
  split; [reflexivity|]. split; [exact Hnd|].
  apply (distinct_drills_then_backs_return Samples.onArtists ViewArtistList
           [ViewAlbumList; ViewAlbum]).
  - reflexivity.
  - exact Hnd.
  - repeat constructor.
Defined.

(** Back on a view without a back link is a no-op: a third step back
    stays on the artists. *)
Example back_at_bottom :
  map (fun n => mediaView
                  (backs n (drills [ViewAlbumList; ViewAlbum] Samples.onArtists)))
    [0; 1; 2; 3]%nat
  = map Some [ViewAlbum; ViewAlbumList; ViewArtistList; ViewArtistList].
Proof. vm_compute. reflexivity. Qed.

(** *** The media navigation *)

(** With the artists on screen, choosing the playlists row links the
    playlists back to the artists. *)
Lemma category_switch_links_back : ~ category_switch_keeps_previous.
Proof.
  intros H.
  specialize (H Samples.cfg Samples.items MediaPlaylists Samples.onArtists).
  vm_compute in H. discriminate.
Qed.

Example playlists_after_artists :
  previous Samples.onArtists !! ViewPlaylists = None /\
  previous (selectMedia Samples.cfg Samples.items MediaPlaylists Samples.onArtists)
    !! ViewPlaylists = Some ViewArtistList.
Proof. vm_compute. split; reflexivity. Qed.

(** [setViewWidget] with [updatePrevious = false] touches no back link. *)
Lemma setViewWidget_keeps_links p w :
  previous (setViewWidget p false w) = previous w.
Proof.
  destruct (decide (mediaView w = Some p)) as [Hp|Hp].
  - rewrite (setViewWidget_same p false w Hp). reflexivity.
  - apply (goBack_other p w Hp).
Qed.

Lemma back_keeps_links w : previous (back w) = previous w.
Proof.
  unfold back, goBack.
  destruct (mediaView w) as [current|]; [|reflexivity].
  destruct (backCallback current); [|reflexivity].
  destruct (previous w !! current); [|reflexivity].
  apply setViewWidget_keeps_links.
Qed.

Lemma showArtistPage_keeps_links mediaItems page w :
  previous (showArtistPage mediaItems page w) = previous w.
Proof.
  unfold showArtistPage.
  destruct (GetArtists mediaItems page) as [[artists total] [e|]];
    [reflexivity|].
  cbv beta iota zeta. rewrite setViewWidget_keeps_links. reflexivity.
Qed.

(** A row whose view is the current one: whatever the fetch gives, no back
    link changes. *)
Lemma selectMedia_on_current cfg mediaItems m w :
  mediaView w = Some (target m) ->
  previous (selectMedia cfg mediaItems m w) = previous w.
Proof.
  intros Hcur.
  destruct (fetchError cfg mediaItems m) as [e|] eqn:Herr;
    destruct m; unfold fetchError in Herr; unfold selectMedia, showGenrePage;
    rewrite ?decide_True by reflexivity;
    rewrite ?decide_False by discriminate;
    cbv beta iota zeta;
    match type of Herr with
    | snd ?f = _ =>
        destruct f as [r e0]; cbn [snd] in Herr; subst e0; try destruct r
    end;
    cbv beta iota zeta;
    try match goal with
        | |- context [Config.LimitRecentlyPlayed cfg] =>
            destruct (Config.LimitRecentlyPlayed cfg); cbn [negb]
        end;
    rewrite ?(previous_tell _ _ (setViewWidget _ _ _));
    try match goal with
        | |- context [setViewWidget ?p true ?w0] =>
            rewrite (setViewWidget_same p true w0 Hcur)
        end;
    reflexivity.
Qed.

(** C7 (amended). When a row of the media navigation is chosen, its fetch
    succeeds and the view of the row is not the current one, that view
    becomes current and its back link is set to the view that was current
    before, as on a drill-down: [selectMedia] passes [updatePrevious =
    true] for every row.  The back links are left as they are when the
    view of the row is already the current one, on back navigation
    ([goBack] and the Back button) and on the choice of a page of artists
    ([showArtistPage]). *)
Theorem category_switch_sets_previous
    (cfg : Config.Config) (mediaItems : ItemController)
    (m : MediaSelect) (w : Window) :
  (fetchError cfg mediaItems m = None ->
   mediaView w <> Some (target m) ->
   mediaView (selectMedia cfg mediaItems m w) = Some (target m) /\
   previous (selectMedia cfg mediaItems m w) !! target m = mediaView w) /\
  (mediaView w = Some (target m) ->
   previous (selectMedia cfg mediaItems m w) = previous w) /\
  (forall p, previous (goBack p w) = previous w) /\
  previous (back w) = previous w /\
  (forall page, previous (showArtistPage mediaItems page w) = previous w).
Proof.
  split; [|split; [apply selectMedia_on_current|
           split; [intros p; apply setViewWidget_keeps_links|
           split; [apply back_keeps_links|
                   intros page; apply showArtistPage_keeps_links]]]].
  intros Herr Hview.
  destruct m; unfold fetchError in Herr; unfold selectMedia, showGenrePage;
    rewrite ?decide_True by reflexivity;
    rewrite ?decide_False by discriminate;
    cbv beta iota zeta;
    match type of Herr with
    | snd ?f = None =>
        destruct f as [r e]; cbn [snd] in Herr; subst e; try destruct r
    end;
    cbv beta iota zeta;
    try match goal with
        | |- context [Config.LimitRecentlyPlayed cfg] =>
            destruct (Config.LimitRecentlyPlayed cfg); cbn [negb]
        end;
    rewrite ?(mediaView_tell _ _ (setViewWidget _ _ _)),
            ?(previous_tell _ _ (setViewWidget _ _ _));
    match goal with
    | |- context [setViewWidget ?p true ?w0] =>
        destruct (setViewWidget_push_from w w0 p eq_refl eq_refl Hview)
          as [Hv Hp];
        split; [exact Hv | exact Hp]
    end.
Qed.

(** With the artists on screen, the playlists row links the playlists
    back to the artists; the artists row, a step back and a page of
    artists leave the links alone. *)
Lemma category_switch_sets_previous_witness :
  (fetchError Samples.cfg Samples.items MediaPlaylists = None /\
   mediaView Samples.onArtists <> Some ViewPlaylists /\
   mediaView (selectMedia Samples.cfg Samples.items MediaPlaylists
                Samples.onArtists) = Some ViewPlaylists /\
   previous (selectMedia Samples.cfg Samples.items MediaPlaylists
               Samples.onArtists) !! ViewPlaylists = Some ViewArtistList) /\
  (mediaView Samples.onArtists = Some (target MediaArtists) /\
   previous (selectMedia Samples.cfg Samples.items MediaArtists
               Samples.onArtists) = previous Samples.onArtists).
Proof.
  pose proof (category_switch_sets_previous Samples.cfg Samples.items
                MediaPlaylists Samples.onArtists) as [H1 _].
  pose proof (category_switch_sets_previous Samples.cfg Samples.items
                MediaArtists Samples.onArtists) as (_ & H2 & _).
  split.
  - split; [reflexivity|]. split; [discriminate|].
    apply H1; [reflexivity|discriminate].
  - split; [reflexivity|]. apply H2. reflexivity.
Defined.

(** *** Fetch errors *)

Ltac aborted :=
  match goal with
  | H : snd ?f = Some _ |- _ =>
      destruct f as [r e0]; cbn [snd] in H; subst e0; try destruct r
  end;
  unfold logf, emit; cbn [trace set_trace]; rewrite <- ?app_assoc; reflexivity.

(** The navigations that stop at a fetch error: the call and the log line
    are all that happens. *)
Lemma selectArtist_aborts mediaItems artist w e :
  snd (GetArtistAlbums mediaItems (Artist_Id artist)) = Some e ->
  selectArtist mediaItems artist w
  = set_trace (trace w ++ [ItemsDo (CallGetArtistAlbums (Artist_Id artist));
                           Log LevelError (errText "get albumList albums: " e)]) w.
Proof. intros H. unfold selectArtist. aborted. Qed.

Lemma selectAlbum_aborts mediaItems album w e :
  snd (GetAlbumSongs mediaItems (Album_Id album)) = Some e ->
  selectAlbum mediaItems album w
  = set_trace (trace w ++ [ItemsDo (CallGetAlbumSongs (Album_Id album));
                           Log LevelError (errText "get album songs: " e)]) w.
Proof. intros H. unfold selectAlbum. aborted. Qed.

Lemma selectPlaylist_aborts mediaItems pl w e :
  snd (GetPlaylistSongs mediaItems pl) = Some e ->
  selectPlaylist mediaItems pl w
  = set_trace (trace w ++ [ItemsDo (CallGetPlaylistSongs pl);
                           Log LevelWarning
                             (errText "did not get playlist songs: " e)]) w.
Proof. intros H. unfold selectPlaylist. aborted. Qed.

Lemma selectGenre_aborts mediaItems id w e :
  snd (GetGenreAlbums mediaItems id) = Some e ->
  selectGenre mediaItems id w
  = set_trace (trace w ++ [ItemsDo (CallGetGenreAlbums id);
                           Log LevelError (errText "get genre albums: " e)]) w.
Proof. intros H. unfold selectGenre. aborted. Qed.

Lemma showArtistPage_aborts mediaItems page w e :
  snd (GetArtists mediaItems page) = Some e ->
  showArtistPage mediaItems page w
  = set_trace (trace w ++ [ItemsDo (CallGetArtists page);
                           Log LevelError (errText "get albumList page: " e)]) w.
Proof. intros H. unfold showArtistPage. aborted. Qed.

Lemma showAlbumPage_aborts mediaItems page w e :
  snd (GetAlbums mediaItems page) = Some e ->
  showAlbumPage mediaItems page w
  = set_trace (trace w ++ [ItemsDo (CallGetAlbums page);
                           Log LevelError (errText "get all albums: " e)]) w.
Proof. intros H. unfold showAlbumPage. aborted. Qed.

Lemma showGenrePage_aborts mediaItems paging w e :
  snd (GetGenres mediaItems paging) = Some e ->
  showGenrePage mediaItems paging w
  = set_trace (trace w ++ [ItemsDo (CallGetGenres paging);
                           Log LevelError (errText "get genres: " e)]) w.
Proof. intros H. unfold showGenrePage. aborted. Qed.

(** The rows of the media navigation that stop at a fetch error. *)
Lemma selectMedia_aborts cfg mediaItems m w e :
  fetchError cfg mediaItems m = Some e ->
  m <> MediaSongs -> m <> MediaRecent ->
  m <> MediaAlbums -> m <> MediaFavoriteAlbums ->
  sameState w (selectMedia cfg mediaItems m w) /\
  fetches (trace (selectMedia cfg mediaItems m w)) <> fetches (trace w) /\
  exists msg,
    logged (trace (selectMedia cfg mediaItems m w))
    = logged (trace w) ++ [(LevelError, msg)].
Proof.
  intros Herr H1 H2 H3 H4.
  destruct m; try contradiction;
    unfold fetchError in Herr; unfold selectMedia, showGenrePage;
    rewrite ?decide_True by reflexivity;
    rewrite ?decide_False by discriminate;
    cbv beta iota zeta;
    match type of Herr with
    | snd ?f = Some _ =>
        destruct f as [r e0]; cbn [snd] in Herr; subst e0; try destruct r
    end;
    cbv beta iota zeta;
    (split; [repeat split|]);
    unfold logf, emit; cbn [trace set_trace];
    rewrite !fetches_app, !logged_app; cbn [fetches logged omap];
    (split;
     [ intros Heq; apply (f_equal length) in Heq;
       rewrite !length_app in Heq; simpl in Heq; lia
     | eexists; simpl; rewrite ?app_nil_r; reflexivity ]).
Qed.

(** The song pages go on after the log line: the song list is given what
    came back with the error and becomes the current view. *)
Lemma song_pages_go_on mediaItems page w :
  mediaView (selectSongs mediaItems page w) = Some ViewSongs /\
  mediaView (showRecentSongsPage mediaItems page w) = Some ViewSongs /\
  (exists songs,
     calls (selectSongs mediaItems page w)
     = calls w ++ [(OnView ViewSongs, DoSetSongs songs page)]) /\
  (exists songs,
     calls (showRecentSongsPage mediaItems page w)
     = calls w ++ [(OnView ViewSongs, DoSetSongs songs page)]).
Proof.
  assert (Hset : forall w0, mediaView (setViewWidget ViewSongs true w0) = Some ViewSongs).
  { intros w0. destruct (decide (mediaView w0 = Some ViewSongs)) as [E|E].
    - rewrite (setViewWidget_same ViewSongs true w0 E). exact E.
    - apply (setViewWidget_other ViewSongs true w0 E). }
  assert (Hcalls : forall w0, calls (setViewWidget ViewSongs true w0) = calls w0).
  { intros w0. apply setViewWidget_calls. }
  unfold selectSongs, showRecentSongsPage.
  destruct (GetSongs mediaItems (CurrentPage page) (PageSize page))
    as [[songs1 n1] [e1|]];
  destruct (GetRecentlyPlayed mediaItems page) as [[songs2 n2] [e2|]];
  rewrite !Hset, !Hcalls; repeat split; eexists; reflexivity.
Qed.

(** C1 (the code departs from the claim). With the artist list on screen
    and the server down, asking for a page of songs logs the error of
    [GetSongs] and navigates all the same: the song list is emptied and
    becomes the current view, the focus and the back link move with
    it. *)
Theorem selectSongs_error_still_navigates :
  let w := Samples.onArtists in
  let w' := selectSongs Samples.down Samples.secondPage w in
  snd (GetSongs Samples.down 1 100) = Some "down"%string /\
  logged (trace w') =
    logged (trace w) ++ [(LevelError, [FStr "get songs: "; FStr "down"])] /\
  mediaView w = Some ViewArtistList /\ mediaView w' = Some ViewSongs /\
  focus w = Some (PView ViewArtistList) /\ focus w' = Some (PView ViewSongs) /\
  lastFocus w = Some PMediaNav /\ lastFocus w' = Some (PView ViewArtistList) /\
  grid w = [PNavBar; PMediaNav; PStatus; PView ViewArtistList] /\
  grid w' = [PNavBar; PMediaNav; PStatus; PView ViewSongs] /\
  previous w !! ViewSongs = None /\
  previous w' !! ViewSongs = Some ViewArtistList /\
  calls w' = calls w ++ [(OnView ViewSongs, DoSetSongs [] Samples.secondPage)].
Proof. vm_compute. repeat split. Qed.

(** The same on the songs and recently played rows of the media
    navigation, and a trace of it on the albums row: paging is switched on
    in the album list before the error is looked at. *)
Example rows_with_server_down :
  map (fun m => mediaView (selectMedia Samples.cfg Samples.down m Samples.onArtistAlbums))
    [MediaSongs; MediaRecent; MediaAlbums; MediaPlaylists]
  = map Some [ViewSongs; ViewSongs; ViewAlbumList; ViewAlbumList] /\
  AlbumList.pagingEnabled (albumList Samples.onArtistAlbums) = false /\
  AlbumList.pagingEnabled
    (albumList (selectMedia Samples.cfg Samples.down MediaAlbums
                  Samples.onArtistAlbums)) = true.
Proof. vm_compute. repeat split. Qed.

End WindowFacts.

(** ** More on the help modal *)
Module HelpPages.
Import Tcell Help.

(** [formatBytes] prints a number below 1024 with its unit up to MiB,
    rounded down; from one GiB on it prints nothing, the test before the
    GiB case being the one of the MiB case. *)
Theorem formatBytes_units (bytes : Z) :
  0 <= bytes < 2 ^ 64 ->
  (bytes < 1024 -> formatBytes bytes = [FInt bytes]) /\
  (1024 <= bytes < 2 ^ 20 ->
   exists n, formatBytes bytes = [FInt n; FStr " KiB"] /\
             1 <= n < 1024 /\ n * 2 ^ 10 <= bytes < (n + 1) * 2 ^ 10) /\
  (2 ^ 20 <= bytes < 2 ^ 30 ->
   exists n, formatBytes bytes = [FInt n; FStr " MiB"] /\
             1 <= n < 1024 /\ n * 2 ^ 20 <= bytes < (n + 1) * 2 ^ 20) /\
  (2 ^ 30 <= bytes -> formatBytes bytes = []).
Proof.
  intros Hb. unfold formatBytes.
  change (1024 * 1024 * 1024) with (2 ^ 30).
  change (1024 * 1024) with (2 ^ 20).
  split; [|split; [|split]]; intros H.
  - rewrite decide_True by lia. reflexivity.
  - rewrite decide_False, decide_True by lia.
    exists (bytes `div` 1024). split; [reflexivity|].
    pose proof (Z.div_mod bytes 1024 ltac:(lia)).
    pose proof (Z.mod_pos_bound bytes 1024 ltac:(lia)).
    change (2 ^ 10) with 1024. change (2 ^ 20) with 1048576 in H. lia.
  - rewrite !decide_False, decide_True by lia.
    exists ((bytes `div` 1024) `div` 1024). split; [reflexivity|].
    rewrite Z.div_div by lia. change (1024 * 1024) with (2 ^ 20).
    pose proof (Z.div_mod bytes (2 ^ 20) ltac:(lia)).
    pose proof (Z.mod_pos_bound bytes (2 ^ 20) ltac:(lia)).
    change (2 ^ 20) with 1048576 in *. change (2 ^ 30) with 1073741824 in H.
    lia.
  - rewrite !decide_False by lia. reflexivity.
Qed.

(** Five GiB print as nothing, one GiB less a byte as 1023 MiB. *)
Lemma formatBytes_units_witness :
  0 <= 5 * 2 ^ 30 < 2 ^ 64 /\
  formatBytes (5 * 2 ^ 30) = [] /\
  formatBytes (2 ^ 30 - 1) = [FInt 1023; FStr " MiB"].
Proof.
  split; [lia|]. split.
  - apply (formatBytes_units (5 * 2 ^ 30)); lia.
  - reflexivity.
Defined.

Lemma setContent_shows h :
  totalPages h = 3 -> pageInRange h -> showsPage (setContent h).
Proof.
  unfold pageInRange, showsPage, setContent, titleOf. intros Ht Hp.
  assert (Hpage : page h = 0 \/ page h = 1 \/ page h = 2) by lia.
  destruct Hpage as [E|[E|E]]; rewrite E; simpl;
    (eexists; split; [reflexivity|]; simpl; rewrite E; simpl;
     repeat split; exact Ht).
Qed.

Lemma call_shows c h :
  wellPaged h -> showsPage h -> showsPage (call c h).
Proof.
  intros [Ht Hp] Hs. destruct c as [key| | | | |]; simpl; try exact Hs.
  unfold InputHandler.
  destruct (decide (key = KeyEscape)); [exact Hs|].
  destruct (decide (key = KeyLeft)).
  { case_decide; [|exact Hs]. simpl. apply setContent_shows; [exact Ht|].
    unfold pageInRange in *. simpl. unfold int_sub.
    rewrite wrap64_small by lia. lia. }
  destruct (decide (key = KeyRight)).
  { case_decide as Hlt; [|exact Hs]. simpl.
    unfold int_sub in Hlt. rewrite wrap64_small in Hlt by lia.
    apply setContent_shows; [exact Ht|].
    unfold pageInRange in *. simpl. unfold int_add.
    rewrite wrap64_small by lia. lia. }
  exact Hs.
Qed.

(** Whatever keys arrive and whatever else the window does to the help
    modal, the text on screen is the one of the current page: its header
    has the page number plus one and the number of pages, and its title
    and body are those of the page. *)
Theorem help_text_follows_page (doneCb : DoneFunc) (cs : list Call) :
  showsPage (calls cs (NewHelp doneCb)).
Proof.
  assert (H : forall cs h, wellPaged h -> showsPage h -> showsPage (calls cs h)).
  { clear cs. induction cs as [|c cs IH]; intros h Hw Hs; simpl; [exact Hs|].
    apply IH; [apply HelpFacts.call_wellPaged, Hw | apply call_shows; assumption]. }
  apply H; [apply HelpFacts.NewHelp_wellPaged|].
  apply setContent_shows; [reflexivity|]. unfold pageInRange. simpl. lia.
Qed.

(** New statistics do not reach a text already on screen: on the
    statistics page the old ones stay until the page is left and entered
    again. *)
Example stats_page_is_not_refreshed :
  let st := {| ServerName := "music"; ServerVersion := "10"; ServerId := "1";
               ServerRestartPending := false; ServerShutdownPending := false;
               WebSocket := true; RemoteControl := true;
               LogFile := "log"; ConfigFile := "cfg"; CacheObjects := 7;
               HeapString := "1 MiB" |} in
  let onStats := calls [CallInput KeyRight; CallInput KeyRight] (NewHelp CloseHelp) in
  (shownBody <$> text (calls [CallSetStats st] onStats))
    = Some (StatsPage emptyStats) /\
  (shownBody <$> text (calls [CallSetStats st; CallInput KeyLeft;
                              CallInput KeyRight] onStats))
    = Some (StatsPage st).
Proof. split; reflexivity. Qed.

End HelpPages.

(** ** The channels of the first interface *)
Module ShellFacts.
Import Shell.

Lemma AssignChannels_first state action g :
  stateChan (AssignChannels state action g) = firstChan [stateChan g; state] /\
  actionChan (AssignChannels state action g) = firstChan [actionChan g; action].
Proof.
  unfold AssignChannels.
  destruct g as [[s|] [a|]]; simpl; destruct state, action; split; reflexivity.
Qed.

Lemma firstChan_app cs1 cs2 :
  firstChan (cs1 ++ cs2) = firstChan [firstChan cs1; firstChan cs2].
Proof.
  induction cs1 as [|[c|] cs1 IH]; simpl.
  - destruct (firstChan cs2); reflexivity.
  - reflexivity.
  - exact IH.
Qed.

(** A channel once assigned is never replaced: after any series of calls
    of [AssignChannels] each of the two channels is the one the interface
    had or, if it had none, the first one passed that is not [nil]. *)
Theorem assigned_channels_stay (cs : list (Chan * Chan)) (g : Channels) :
  stateChan (assignAll cs g) = firstChan (stateChan g :: map fst cs) /\
  actionChan (assignAll cs g) = firstChan (actionChan g :: map snd cs).
Proof.
  revert g. induction cs as [|[state action] cs IH]; intros g.
  - simpl. destruct (stateChan g), (actionChan g); split; reflexivity.
  - change (assignAll ((state, action) :: cs) g)
      with (assignAll cs (AssignChannels state action g)).
    destruct (IH (AssignChannels state action g)) as [Hs Ha].
    destruct (AssignChannels_first state action g) as [Es Ea].
    rewrite Hs, Ha, Es, Ea. simpl.
    destruct (stateChan g), (actionChan g), state, action; split; reflexivity.
Qed.

End ShellFacts.

(** ** The album list *)
Module AlbumListFacts.
Import Models Interfaces Widgets Widgets.AlbumList.

(** *** Artist names *)

Lemma strlen_app (s1 s2 : string) : strlen (s1 +:+ s2) = strlen s1 + strlen s2.
Proof.
  assert (H : String.length (s1 +:+ s2)
              = (String.length s1 + String.length s2)%nat).
  { induction s1 as [|c s1 IH]; simpl; [reflexivity|]. by rewrite IH. }
  unfold strlen. rewrite H. lia.
Qed.

Lemma strlen_nonneg (s : string) : 0 <= strlen s.
Proof. unfold strlen. lia. Qed.

Lemma joinTailWidth_nonneg l : 0 <= joinTailWidth l.
Proof.
  induction l as [|v l IH]; simpl; [lia|]. pose proof (strlen_nonneg v). lia.
Qed.

Lemma strlen_joinTail l : strlen (joinTail l) = joinTailWidth l.
Proof.
  induction l as [|v l IH]; [reflexivity|].
  simpl joinTail. rewrite !strlen_app, IH.
  change (strlen ", ") with 2. simpl joinTailWidth. lia.
Qed.

Lemma concat_joinTail v l : String.concat ", " (v :: l) = v +:+ joinTail l.
Proof.
  revert v. induction l as [|v' l IH]; intros v.
  - simpl. induction v as [|c v IHv]; [reflexivity|].
    change (String c v +:+ "") with (String c (v +:+ "")). by rewrite <- IHv.
  - change (String.concat ", " (v :: v' :: l))
      with (v +:+ ", " +:+ String.concat ", " (v' :: l)).
    rewrite IH. reflexivity.
Qed.

Lemma app_assoc_string (s1 s2 s3 : string) :
  (s1 +:+ s2) +:+ s3 = s1 +:+ s2 +:+ s3.
Proof.
  induction s1 as [|c s1 IH]; [reflexivity|].
  change (String c (s1 +:+ s2) +:+ s3 = String c (s1 +:+ s2 +:+ s3)).
  change (String c ((s1 +:+ s2) +:+ s3) = String c (s1 +:+ s2 +:+ s3)).
  by rewrite IH.
Qed.

(** The first loop of [printArtists] past the first name. *)
Lemma need_tail l :
  forall i acc,
    (0 < i)%nat -> 0 <= acc -> acc + joinTailWidth l < 2 ^ 63 ->
    rangeFrom i
      (fun need i v =>
         let need := int_add need (strlen v) in
         if decide (0 < i)%nat then int_add need 2 else need) l acc
    = acc + joinTailWidth l.
Proof.
  induction l as [|v l IH]; intros i acc Hi Hacc Hfit; simpl; [lia|].
  simpl in Hfit.
  pose proof (strlen_nonneg v). pose proof (joinTailWidth_nonneg l).
  rewrite decide_True by exact Hi.
  assert (E : int_add (int_add acc (strlen v)) 2 = acc + strlen v + 2).
  { unfold int_add. rewrite (wrap64_small (acc + strlen v)) by lia.
    apply wrap64_small. lia. }
  rewrite E.
  etransitivity; [apply (IH (S i)); lia|lia].
Qed.

(** The second loop of [printArtists] past the first name. *)
Lemma out_tail l :
  forall i out,
    (0 < i)%nat ->
    rangeFrom i
      (fun out i v =>
         let out := if decide (0 < i)%nat then out +:+ ", " else out in
         out +:+ v) l out
    = out +:+ joinTail l.
Proof.
  induction l as [|v l IH]; intros i out Hi; simpl.
  - induction out as [|c out IHo]; [reflexivity|].
    change (String c out = String c (out +:+ "")). by rewrite <- IHo.
  - rewrite decide_True by exact Hi. rewrite IH by lia.
    rewrite !app_assoc_string. reflexivity.
Qed.

(** [printArtists] never returns more than [maxWidth] bytes: the names
    joined with [", "] when they fit, otherwise the number of artists when
    that fits, otherwise nothing. *)
Theorem printArtists_fits (artists : list string) (maxWidth : Z) :
  0 <= maxWidth ->
  strlen (String.concat ", " artists) < 2 ^ 63 ->
  strlen (printArtists artists maxWidth) <= maxWidth /\
  (strlen (String.concat ", " artists) <= maxWidth ->
   printArtists artists maxWidth = String.concat ", " artists) /\
  (maxWidth < strlen (String.concat ", " artists) ->
   printArtists artists maxWidth = ""%string \/
   printArtists artists maxWidth = pretty (len artists) +:+ " artists").
Proof.
  intros Hw Hfit. unfold printArtists.
  set (need := rangeFrom 0 _ artists 0).
  set (out := rangeFrom 0 _ artists ""%string).
  assert (Hneed : need = strlen (String.concat ", " artists)).
  { unfold need. destruct artists as [|v l]; [reflexivity|].
    rewrite concat_joinTail, strlen_app, strlen_joinTail in *.
    pose proof (strlen_nonneg v). pose proof (joinTailWidth_nonneg l).
    simpl. try rewrite decide_False by lia.
    assert (E : int_add 0 (strlen v) = strlen v).
    { unfold int_add. apply wrap64_small. lia. }
    rewrite E.
    etransitivity; [apply (need_tail l 1%nat); lia|lia]. }
  assert (Hout : out = String.concat ", " artists).
  { unfold out. destruct artists as [|v l]; [reflexivity|].
    rewrite concat_joinTail. simpl. try rewrite decide_False by lia.
    etransitivity; [apply (out_tail l 1%nat); lia|reflexivity]. }
  rewrite Hneed, Hout.
  destruct (decide (strlen (String.concat ", " artists) > maxWidth)) as [Hgt|Hle].
  - destruct (decide (strlen (pretty (len artists) +:+ " artists") > maxWidth)).
    + split; [exact Hw|]. split; [lia|]. intros _. left. reflexivity.
    + split; [lia|]. split; [lia|]. intros _. right. reflexivity.
  - split; [lia|]. split; [reflexivity|]. lia.
Qed.

Lemma printArtists_fits_witness :
  0 <= 12 /\
  printArtists ["Abba"; "Beck"; "Cher"]%string 12 = "3 artists"%string /\
  printArtists ["Abba"; "Beck"; "Cher"]%string 5 = ""%string /\
  printArtists ["Abba"; "Beck"; "Cher"]%string 16 = "Abba, Beck, Cher"%string /\
  strlen (printArtists ["Abba"; "Beck"; "Cher"]%string 12) <= 12.
Proof.
  split; [lia|]. split; [reflexivity|]. split; [reflexivity|].
  split; [reflexivity|].
  apply (printArtists_fits ["Abba"; "Beck"; "Cher"]%string 12); [lia|].
  vm_compute. reflexivity.
Defined.

(** *** Rows, covers and banner *)

Lemma setButtons_selectable a :
  selectable (setButtons a) = selectableFor (pagingEnabled a) (similarEnabled a) /\
  listItems (setButtons a) = listItems a /\
  albumCovers (setButtons a) = albumCovers a /\
  pagingEnabled (setButtons a) = pagingEnabled a /\
  similarEnabled (setButtons a) = similarEnabled a.
Proof.
  unfold setButtons, selectableFor.
  destruct (pagingEnabled a) eqn:Hp, (similarEnabled a) eqn:Hs; simpl;
    rewrite ?Hp, ?Hs; repeat split.
Qed.

Lemma NewAlbumList_consistent : consistent NewAlbumList.
Proof. split; reflexivity. Qed.

Lemma call_consistent c a : consistent a -> consistent (call c a).
Proof.
  intros [Hrows Hbanner].
  destruct c as [cv| |ar|label|txt|paging|enabled|n|albums|enabled|enabled];
    simpl; try (split; assumption).
  - (* AddAlbum *) split; [simpl; by rewrite Hrows|exact Hbanner].
  - (* Clear *) split; [reflexivity|exact Hbanner].
  - (* SetArtist *) unfold SetArtist. destruct ar; split; simpl; assumption.
  - (* SetAlbums *) split; [reflexivity|exact Hbanner].
  - (* EnablePaging *) unfold EnablePaging.
    destruct (pagingEnabled a) eqn:Hp, enabled; simpl;
      try (split; assumption);
      destruct (setButtons_selectable (set_pagingEnabled true a))
        as (H1 & H2 & H3 & H4 & H5);
      destruct (setButtons_selectable (set_pagingEnabled false a))
        as (G1 & G2 & G3 & G4 & G5);
      simpl in *; split; congruence.
  - (* EnableSimilar *) unfold EnableSimilar.
    destruct (setButtons_selectable (set_similarEnabled enabled a))
      as (H1 & H2 & H3 & H4 & H5).
    simpl in *. split; congruence.
Qed.

Lemma calls_consistent cs : forall a, consistent a -> consistent (calls cs a).
Proof.
  induction cs as [|c cs IH]; intros a Ha; simpl; [exact Ha|].
  apply IH, call_consistent, Ha.
Qed.

(** The rows of the scroll list and the slice [albumCovers] that mirrors
    them never differ, whatever is done to an album list after
    [NewAlbumList]: a row index is always an index of the same cover. *)
Theorem rows_mirror_covers (cs : list Call) :
  listItems (calls cs NewAlbumList) = albumCovers (calls cs NewAlbumList) /\
  listItems (calls cs newLatestAlbums) = albumCovers (calls cs newLatestAlbums) /\
  listItems (calls cs newFavoriteAlbums)
  = albumCovers (calls cs newFavoriteAlbums).
Proof.
  split; [|split].
  - apply (calls_consistent cs), NewAlbumList_consistent.
  - apply (calls_consistent
             ([CallEnableArtistMode false; CallEnablePaging false;
               CallEnableSimilar false] ++ cs) NewAlbumList),
      NewAlbumList_consistent.
  - apply (calls_consistent
             ([CallEnableArtistMode false; CallEnablePaging true;
               CallEnableSimilar false] ++ cs) NewAlbumList),
      NewAlbumList_consistent.
Qed.

(** The parts of the banner that can be selected always follow the two
    switches, whatever is done to an album list after [NewAlbumList]: the
    page buttons can be selected exactly when paging is enabled, the
    options exactly when similar items are enabled, and the back button,
    the play button and the list always. *)
Theorem banner_follows_switches (cs : list Call) :
  let a := calls cs NewAlbumList in
  selectable a = selectableFor (pagingEnabled a) (similarEnabled a) /\
  (In PagingPrevious (selectable a) <-> pagingEnabled a = true) /\
  (In PagingNext (selectable a) <-> pagingEnabled a = true) /\
  (In Options (selectable a) <-> similarEnabled a = true) /\
  In PrevBtn (selectable a) /\ In PlayBtn (selectable a) /\
  In List (selectable a).
Proof.
  intros a.
  destruct (calls_consistent cs _ NewAlbumList_consistent) as [_ Hb].
  fold a in Hb. rewrite Hb. split; [reflexivity|].
  unfold selectableFor.
  destruct (pagingEnabled a), (similarEnabled a); simpl;
    intuition (discriminate || eauto).
Qed.

(** *** Choosing an album *)

Lemma cover_album artistMode offset i v :
  album (cover artistMode offset i v) = v /\
  index (cover artistMode offset i v)
  = int_add (int_add offset (Z.of_nat i)) 1.
Proof. unfold cover. destruct artistMode; split; reflexivity. Qed.

(** After [SetAlbums], choosing row [i] hands the callback the [i]-th
    album of the slice that was set, and the cover of the row is numbered
    [offset + i + 1], with the offset of the page when paging is enabled;
    a selected index past the last row calls nothing, one below zero
    panics. *)
Theorem selected_album_is_the_one_set
    (albums : list Album) (a : AlbumList) (i : nat) (v : Album) :
  albums !! i = Some v ->
  selectAlbum true (Z.of_nat i) (SetAlbums albums a) = Some (Some v) /\
  index <$> albumCovers (SetAlbums albums a) !! i
  = Some (int_add
            (int_add (if pagingEnabled a then Offset (page a) else 0)
               (Z.of_nat i)) 1) /\
  length (albumCovers (SetAlbums albums a)) = length albums /\
  (forall selected,
     len albums <= selected ->
     selectAlbum true selected (SetAlbums albums a) = Some None) /\
  (forall selected,
     selected < 0 -> selectAlbum true selected (SetAlbums albums a) = None).
Proof.
  intros Hi.
  assert (Hcovers : albumCovers (SetAlbums albums a)
                    = imap (cover (artistMode a)
                              (if pagingEnabled a then Offset (page a) else 0))
                        albums) by reflexivity.
  assert (Hlen : length (albumCovers (SetAlbums albums a)) = length albums).
  { rewrite Hcovers. apply length_imap. }
  assert (Hlook : albumCovers (SetAlbums albums a) !! i
                  = Some (cover (artistMode a)
                            (if pagingEnabled a then Offset (page a) else 0) i v)).
  { rewrite Hcovers, list_lookup_imap, Hi. reflexivity. }
  pose proof (lookup_lt_Some _ _ _ Hi) as Hlt.
  split; [|split; [|split; [|split]]].
  - unfold selectAlbum. unfold len. rewrite Hlen.
    rewrite decide_True by lia. rewrite decide_True by lia.
    rewrite Nat2Z.id, Hlook.
    by destruct (cover_album (artistMode a)
                   (if pagingEnabled a then Offset (page a) else 0) i v) as [-> _].
  - rewrite Hlook. simpl.
    by destruct (cover_album (artistMode a)
                   (if pagingEnabled a then Offset (page a) else 0) i v) as [_ ->].
  - exact Hlen.
  - intros selected Hsel. unfold selectAlbum. unfold len in *. rewrite Hlen.
    rewrite decide_False by lia. reflexivity.
  - intros selected Hsel. unfold selectAlbum. unfold len. rewrite Hlen.
    rewrite decide_True by lia. rewrite decide_False by lia. reflexivity.
Qed.

Lemma selected_album_is_the_one_set_witness :
  [Samples.album "x"; Samples.album "y"] !! 1%nat = Some (Samples.album "y") /\
  selectAlbum true 1
    (SetAlbums [Samples.album "x"; Samples.album "y"] NewAlbumList)
  = Some (Some (Samples.album "y")).
Proof.
  split; [reflexivity|].
  apply (selected_album_is_the_one_set
           [Samples.album "x"; Samples.album "y"] NewAlbumList 1
           (Samples.album "y")).
  reflexivity.
Defined.

End AlbumListFacts.

(** ** The playlist view *)
Module PlaylistFacts.
Import Tcell Models Widgets Widgets.PlaylistView.

Lemma map_fst_rows (g : nat -> Z) (l : list Song) :
  map fst (imap (fun i v => (v, g i)) l) = l.
Proof.
  revert g. induction l as [|v l IH]; intros g; [reflexivity|].
  simpl. f_equal. exact (IH (fun i => g (S i))).
Qed.

Lemma SetPlaylist_songs pl p :
  map fst (songs (SetPlaylist pl p)) = Playlist_Songs pl /\
  length (songs (SetPlaylist pl p)) = length (Playlist_Songs pl) /\
  listItems (SetPlaylist pl p) = songs (SetPlaylist pl p).
Proof.
  split; [apply map_fst_rows|]. split; [apply length_imap|reflexivity].
Qed.

(** After [SetPlaylist], "play all" hands the window the songs of the
    playlist in their order, "play all from here" those from the selected
    row on, and Enter the song of the selected row.  Neither of the last
    two checks the selected index: [playSong] panics outside the rows,
    and so on every Enter in an empty playlist; [playFromSelected] panics
    below zero and above the number of rows, and at the number of rows
    hands over an empty slice. *)
Theorem playlist_plays_what_was_set
    (pl : Playlist) (p : PlaylistView) (selected : Z) :
  len (Playlist_Songs pl) < 2 ^ 63 ->
  let p' := SetPlaylist pl p in
  playAll true p' = Some (Some (PlayedSongs (Playlist_Songs pl))) /\
  playFromSelected true selected p' =
    (if decide (0 <= selected <= len (Playlist_Songs pl))
     then Some (Some (PlayedSongs (drop (Z.to_nat selected) (Playlist_Songs pl))))
     else None) /\
  playSong true selected p' =
    (if decide (0 <= selected < len (Playlist_Songs pl))
     then Some (PlayedSong <$> Playlist_Songs pl !! Z.to_nat selected)
     else None) /\
  (Playlist_Songs pl = [] -> playSong true selected p' = None).
Proof.
  intros Hfit p'.
  destruct (SetPlaylist_songs pl p) as (Hmap & Hlen & _). fold p' in Hmap, Hlen.
  assert (Hplay : playSong true selected p' =
    (if decide (0 <= selected < len (Playlist_Songs pl))
     then Some (PlayedSong <$> Playlist_Songs pl !! Z.to_nat selected)
     else None)).
  { unfold playSong. destruct (decide (0 <= selected)) as [H0|H0].
    - destruct (songs p' !! Z.to_nat selected) as [row|] eqn:Hrow.
      + pose proof (lookup_lt_Some _ _ _ Hrow) as Hlt.
        rewrite decide_True by (unfold len; lia).
        assert (Hsong : Playlist_Songs pl !! Z.to_nat selected = Some (fst row)).
        { rewrite <- Hmap. change (map fst (songs p')) with (fst <$> songs p').
          rewrite list_lookup_fmap, Hrow. reflexivity. }
        rewrite Hsong. reflexivity.
      + apply lookup_ge_None in Hrow.
        rewrite decide_False by (unfold len; lia). reflexivity.
    - rewrite decide_False by lia. reflexivity. }
  split; [|split; [|split]].
  - unfold playAll. rewrite Hmap. reflexivity.
  - unfold playFromSelected, len. rewrite Hlen.
    destruct (decide (0 <= selected <= Z.of_nat (length (Playlist_Songs pl))))
      as [Hin|Hout].
    + unfold int_sub. rewrite wrap64_small by (unfold len in Hfit; lia).
      rewrite decide_False by lia.
      rewrite <- skipn_map, Hmap. reflexivity.
    + destruct (decide (_ < 0)); reflexivity.
  - exact Hplay.
  - intros Hempty. rewrite Hplay, Hempty.
    rewrite decide_False by (unfold len; simpl; lia). reflexivity.
Qed.

Lemma playlist_plays_what_was_set_witness :
  len [Samples.song "s1"; Samples.song "s2"; Samples.song "s3"] < 2 ^ 63 /\
  playFromSelected true 1
    (SetPlaylist
       {| Playlist_Id := "mix"; Playlist_Name := "mix"; Playlist_Duration := 540;
          Playlist_Songs := [Samples.song "s1"; Samples.song "s2"; Samples.song "s3"] |}
       NewPlaylistView)
  = Some (Some (PlayedSongs [Samples.song "s2"; Samples.song "s3"])) /\
  playSong true 0 (SetPlaylist (Samples.playlist "empty") NewPlaylistView) = None.
Proof.
  split; [unfold len; simpl; lia|]. split.
  - apply (playlist_plays_what_was_set
             {| Playlist_Id := "mix"; Playlist_Name := "mix";
                Playlist_Duration := 540;
                Playlist_Songs := [Samples.song "s1"; Samples.song "s2";
                                   Samples.song "s3"] |}
             NewPlaylistView 1).
    unfold len. simpl. lia.
  - apply (playlist_plays_what_was_set (Samples.playlist "empty")
             NewPlaylistView 0); [unfold len; simpl; lia|reflexivity].
Defined.

(** While the header of the playlist view has the focus, every key other
    than Down and Ctrl-J is dropped: nothing is played, nothing reaches
    the list or a button, the view stays as it is, and nothing panics. *)
Theorem header_drops_keys
    (playSongFunc : bool) (keys : list (Z * EventKey)) (v : PlaylistView) :
  forallb (fun k => negb (entersList k)) keys = true ->
  inputs playSongFunc keys {| view := v; listFocused := false |}
  = Some ({| view := v; listFocused := false |}, map (fun _ => Ignored) keys).
Proof.
  induction keys as [|[selected event] keys IH]; intros Hkeys; [reflexivity|].
  simpl in Hkeys. apply andb_prop in Hkeys as [Hk Hkeys].
  apply negb_true_iff, bool_decide_eq_false_1 in Hk. simpl in Hk.
  assert (Hin : InputHandler playSongFunc selected event
                  {| view := v; listFocused := false |}
                = Some ({| view := v; listFocused := false |}, Ignored)).
  { unfold InputHandler. cbn [listFocused].
    rewrite decide_False by exact Hk. reflexivity. }
  cbn [inputs]. rewrite Hin, (IH Hkeys). reflexivity.
Qed.

(** Enter, Up and a letter on the header of a playlist do nothing; after
    Down the same Enter plays the selected song. *)
Lemma header_drops_keys_witness :
  forallb (fun k => negb (entersList k))
    [(0, {| Key_of := KeyEnter; Modifiers := ModNone |});
     (0, {| Key_of := KeyUp; Modifiers := ModNone |});
     (0, {| Key_of := 256; Modifiers := ModNone |})] = true /\
  inputs true
    [(0, {| Key_of := KeyEnter; Modifiers := ModNone |});
     (0, {| Key_of := KeyUp; Modifiers := ModNone |});
     (0, {| Key_of := 256; Modifiers := ModNone |})]
    {| view := NewPlaylistView; listFocused := false |}
  = Some ({| view := NewPlaylistView; listFocused := false |},
          [Ignored; Ignored; Ignored]).
Proof.
  split; [reflexivity|].
  apply (header_drops_keys true
           [(0, {| Key_of := KeyEnter; Modifiers := ModNone |});
            (0, {| Key_of := KeyUp; Modifiers := ModNone |});
            (0, {| Key_of := 256; Modifiers := ModNone |})] NewPlaylistView).
  reflexivity.
Defined.

Example down_then_enter_plays :
  let pl := {| Playlist_Id := "mix"; Playlist_Name := "mix";
               Playlist_Duration := 360;
               Playlist_Songs := [Samples.song "s1"; Samples.song "s2"] |} in
  snd <$> inputs true
    [(0, {| Key_of := KeyEnter; Modifiers := ModNone |});
     (0, {| Key_of := KeyDown; Modifiers := ModNone |});
     (1, {| Key_of := KeyEnter; Modifiers := ModNone |});
     (0, {| Key_of := KeyUp; Modifiers := ModNone |})]
    {| view := SetPlaylist pl NewPlaylistView; listFocused := false |}
  = Some [Ignored; ListFocused;
          Play (Some (PlayedSong (Samples.song "s2"))); BackButtonFocused].
Proof. reflexivity. Qed.

End PlaylistFacts.

(** ** The media navigation *)
Module MediaNavigationFacts.
Import Tcell Widgets Widgets.MediaNavigation.

(** A mouse event selects a row exactly when it is a left click inside
    the widget, the callback is set and [y - rectY + offset] is a row of
    the table, and that is the row selected; the column of the click and
    the size of the inner rectangle play no part.  With the ten rows of
    the table the row is one of the media selections.  The event is never
    reported as consumed. *)
Theorem click_selects_its_row
    (selectFunc inRect : bool) (action : MouseAction) (x y : Z)
    (inner : Rect) (offset rowCount row : Z) :
  let click := MouseHandler selectFunc inRect action x y inner offset rowCount in
  (selected click = Some row <->
   inRect = true /\ action = MouseLeftClick /\ selectFunc = true /\
   row = int_add (int_sub y (rectY inner)) offset /\ 0 <= row < rowCount) /\
  (focused click = true <-> inRect = true /\ action = MouseLeftClick) /\
  consumed click = false /\
  (rowCount = rows -> selected click = Some row -> is_Some (rowSelect row)).
Proof.
  intros click.
  assert (Hsel : selected click = Some row <->
    inRect = true /\ action = MouseLeftClick /\ selectFunc = true /\
    row = int_add (int_sub y (rectY inner)) offset /\ 0 <= row < rowCount).
  { unfold click, MouseHandler.
    destruct inRect, action; simpl;
      try (split; [discriminate | intros (? & ? & _); discriminate]).
    set (r := int_add (int_sub y (rectY inner)) offset).
    destruct (decide (r >= rowCount)) as [Hge|Hlt].
    - rewrite decide_False by lia. simpl. split; [discriminate|].
      intros (_ & _ & _ & -> & ?). lia.
    - destruct (decide (r >= 0 /\ r < rowCount /\ selectFunc = true))
        as [(H0 & H1 & Hf)|Hn]; simpl.
      + split; [intros [= <-]; repeat split; auto; lia|].
        intros (_ & _ & _ & -> & _). reflexivity.
      + split; [discriminate|].
        intros (_ & _ & Hf & -> & ?). exfalso. apply Hn. repeat split; auto; lia. }
  split; [exact Hsel|]. split; [|split].
  - unfold click, MouseHandler. destruct inRect, action; simpl;
      repeat case_decide; simpl; intuition discriminate.
  - unfold click, MouseHandler. destruct inRect, action; simpl;
      repeat case_decide; reflexivity.
  - intros Hrows Hrow. apply Hsel in Hrow as (_ & _ & _ & _ & Hrange).
    rewrite Hrows in Hrange. unfold rows in Hrange. unfold rowSelect.
    rewrite decide_True by lia.
    assert (Hn : (Z.to_nat row < 10)%nat) by lia.
    destruct (Z.to_nat row) as [|[|[|[|[|[|[|[|[|[|n]]]]]]]]]];
      simpl; eauto; lia.
Qed.

(** A click on the border column left of the cells, in the line of the
    third row, chooses the third row; a click below the last row chooses
    nothing. *)
Example click_on_border_column :
  let inner := {| rectX := 1; rectY := 2; width := 22; height := 10 |} in
  selected (MouseHandler true true MouseLeftClick 0 4 inner 0 rows) = Some 2 /\
  rowSelect 2 = Some MediaArtists /\
  selected (MouseHandler true true MouseLeftClick 5 12 inner 0 rows) = None.
Proof. repeat split. Qed.

End MediaNavigationFacts.

(** ** More on the window *)
Module WindowMore.
Import Tcell Models Interfaces Widgets.

(** *** What the helpers leave alone *)

Lemma keeps_stable w w' : keeps w w' -> stable w -> stable w'.
Proof.
  unfold keeps, stable, modalConsistent, oneCentralView.
  intros (H1 & H2 & H3 & H4) [Hm Hg]. rewrite H1, H2, H3, H4. auto.
Qed.

Lemma keeps_trans w1 w2 w3 : keeps w1 w2 -> keeps w2 w3 -> keeps w1 w3.
Proof.
  unfold keeps. intros (A1 & A2 & A3 & A4) (B1 & B2 & B3 & B4).
  repeat split; congruence.
Qed.

Lemma keeps_blur p w : keeps w (blur p w).
Proof. destruct p as [| [] | | | |]; repeat split. Qed.

Lemma keeps_giveFocus p w : keeps w (giveFocus p w).
Proof. destruct p as [| [] | | | |]; repeat split. Qed.

Lemma keeps_SetFocus p w : keeps w (SetFocus p w).
Proof.
  unfold SetFocus.
  assert (H1 : keeps w (match focus w with Some old => blur old w | None => w end)).
  { destruct (focus w); [apply keeps_blur|repeat split]. }
  eapply keeps_trans; [exact H1|].
  destruct p as [p|]; [|repeat split].
  eapply keeps_trans; [|apply keeps_giveFocus]. repeat split.
Qed.

Lemma focus_SetFocus p w : focus (SetFocus p w) = p.
Proof.
  unfold SetFocus. destruct p as [[| [] | | | |]|];
    destruct (focus w) as [[| [] | | | |]|]; reflexivity.
Qed.

Lemma keeps_SetVisible m v w : keeps w (SetVisible m v w).
Proof. destruct m; repeat split. Qed.

(** *** The fields after [setViewWidget], [closeModal] and [showModal] *)

Lemma setViewWidget_modal p updatePrevious w :
  hasModal (setViewWidget p updatePrevious w) = hasModal w /\
  modal (setViewWidget p updatePrevious w) = modal w.
Proof.
  unfold setViewWidget. case_decide; [split; reflexivity|].
  destruct updatePrevious; unfold SetLast; simpl;
    destruct (mediaView w); simpl;
    destruct (focus w) as [[| [] | | | |]|]; split; reflexivity.
Qed.

Lemma setViewWidget_grid p updatePrevious w :
  mediaView w <> Some p ->
  grid (setViewWidget p updatePrevious w)
  = filter (fun q => Some q <> PView <$> mediaView w) (grid w) ++ [PView p].
Proof.
  intros Hne. unfold setViewWidget.
  destruct (decide (Some p = mediaView w)) as [E|_]; [congruence|].
  destruct updatePrevious; unfold SetLast; simpl;
    destruct (mediaView w); simpl;
    destruct (focus w) as [[| [] | | | |]|]; reflexivity.
Qed.

Lemma stable_setViewWidget p updatePrevious w :
  stable w -> stable (setViewWidget p updatePrevious w).
Proof.
  intros [Hm Hg].
  destruct (decide (mediaView w = Some p)) as [E|Hne].
  { rewrite (WindowFacts.setViewWidget_same p updatePrevious w E). split; assumption. }
  destruct (setViewWidget_modal p updatePrevious w) as [H1 H2].
  destruct (WindowFacts.setViewWidget_other p updatePrevious w Hne)
    as (Hview & _).
  split.
  - unfold modalConsistent. rewrite H1, H2. exact Hm.
  - unfold oneCentralView in *.
    rewrite (setViewWidget_grid p updatePrevious w Hne), Hview, Hg.
    destruct (mediaView w) as [q|]; simpl.
    + rewrite filter_cons_False by (intros H; apply H; reflexivity).
      reflexivity.
    + reflexivity.
Qed.

Lemma SetFocus_frame p w :
  modals (SetFocus p w) = modals w /\
  mediaViewSelected (SetFocus p w) = mediaViewSelected w /\
  previous (SetFocus p w) = previous w /\
  lastFocus (SetFocus p w) = lastFocus w.
Proof.
  unfold SetFocus. destruct p as [[| [] | | | |]|];
    destruct (focus w) as [[| [] | | | |]|]; repeat split.
Qed.

Lemma closeModal_open m w :
  hasModal w = true ->
  hasModal (closeModal m w) = false /\ modal (closeModal m w) = None /\
  focus (closeModal m w) = lastFocus w /\ lastFocus (closeModal m w) = None /\
  modals (closeModal m w) = filter (fun o => overlayOf o <> m) (modals w) /\
  grid (closeModal m w) = grid w /\ mediaView (closeModal m w) = mediaView w /\
  mediaViewSelected (closeModal m w) = mediaViewSelected w /\
  previous (closeModal m w) = previous w.
Proof.
  intros H. unfold closeModal. rewrite H.
  set (w2 := set_modal None
               (set_hasModal false
                  (RemoveModal m (SetVisible m false (blur (PModal m) w))))).
  assert (E : lastFocus w2 = lastFocus w /\ grid w2 = grid w /\
              mediaView w2 = mediaView w /\
              mediaViewSelected w2 = mediaViewSelected w /\
              previous w2 = previous w /\
              modals w2 = filter (fun o => overlayOf o <> m) (modals w) /\
              modal w2 = None).
  { unfold w2. destruct m; repeat split. }
  destruct E as (E1 & E2 & E3 & E4 & E5 & E6 & E7).
  destruct (keeps_SetFocus (lastFocus w2) w2) as (K1 & K2 & K3 & K4).
  destruct (SetFocus_frame (lastFocus w2) w2) as (F1 & F2 & F3 & F4).
  pose proof (focus_SetFocus (lastFocus w2) w2) as F5.
  cbn [hasModal modal lastFocus set_hasModal set_lastFocus
       focus grid mediaView mediaViewSelected previous modals].
  rewrite K2, K3, K4, F1, F2, F3, F5, E1, E2, E3, E4, E5, E6, E7.
  repeat split.
Qed.

Lemma blur_frame p w :
  keeps w (blur p w) /\
  modals (blur p w) = modals w /\
  mediaViewSelected (blur p w) = mediaViewSelected w /\
  previous (blur p w) = previous w /\
  lastFocus (blur p w) = lastFocus w /\ focus (blur p w) = focus w.
Proof. destruct p as [| [] | | | |]; repeat split. Qed.

Lemma SetVisible_frame m v w :
  keeps w (SetVisible m v w) /\
  modals (SetVisible m v w) = modals w /\
  mediaViewSelected (SetVisible m v w) = mediaViewSelected w /\
  previous (SetVisible m v w) = previous w /\
  lastFocus (SetVisible m v w) = lastFocus w /\
  focus (SetVisible m v w) = focus w.
Proof. destruct m; repeat split. Qed.

Lemma showModal_closed m height width lockSize w f :
  hasModal w = false -> focus w = Some f ->
  exists w',
    showModal m height width lockSize w = Some w' /\
    hasModal w' = true /\ modal w' = Some m /\
    focus w' = Some (PModal m) /\ lastFocus w' = Some f /\
    modals w' = modals w ++
      [if negb lockSize then FixedModal m height width else DynamicModal m] /\
    grid w' = grid w /\ mediaView w' = mediaView w /\
    mediaViewSelected w' = mediaViewSelected w /\ previous w' = previous w.
Proof.
  intros H Hf. unfold showModal. rewrite H. cbn [negb].
  cbn [lastFocus set_lastFocus].
  change (focus (set_modal (Some m) (set_hasModal true w))) with (focus w).
  rewrite Hf.
  set (w1 := blur f (set_lastFocus (Some f)
                       (set_modal (Some m) (set_hasModal true w)))).
  set (overlay := if negb lockSize then FixedModal m height width
                  else DynamicModal m).
  assert (Hif : (if negb lockSize
                 then set_modals (modals w1 ++ [FixedModal m height width]) w1
                 else set_modals (modals w1 ++ [DynamicModal m]) w1)
                = set_modals (modals w1 ++ [overlay]) w1).
  { unfold overlay. destruct lockSize; reflexivity. }
  rewrite Hif.
  set (w2 := set_modals (modals w1 ++ [overlay]) w1).
  set (w3 := SetFocus (Some (PModal m)) w2).
  set (w4 := SetVisible m true w3).
  eexists. split; [reflexivity|].
  destruct (blur_frame f (set_lastFocus (Some f)
                            (set_modal (Some m) (set_hasModal true w))))
    as ((B1 & B2 & B3 & B4) & B5 & B6 & B7 & B8 & _).
  fold w1 in B1, B2, B3, B4, B5, B6, B7, B8.
  cbn [hasModal modal grid mediaView modals mediaViewSelected previous
       lastFocus set_lastFocus set_modal set_hasModal] in B1, B2, B3, B4, B5, B6, B7, B8.
  destruct (keeps_SetFocus (Some (PModal m)) w2) as (K1 & K2 & K3 & K4).
  destruct (SetFocus_frame (Some (PModal m)) w2) as (F1 & F2 & F3 & F4).
  pose proof (focus_SetFocus (Some (PModal m)) w2) as F5.
  fold w3 in K1, K2, K3, K4, F1, F2, F3, F4, F5.
  destruct (SetVisible_frame m true w3)
    as ((V1 & V2 & V3 & V4) & V5 & V6 & V7 & V8 & V9).
  fold w4 in V1, V2, V3, V4, V5, V6, V7, V8, V9.
  assert (M2 : hasModal w2 = hasModal w1 /\ modal w2 = modal w1 /\
               grid w2 = grid w1 /\ mediaView w2 = mediaView w1 /\
               modals w2 = modals w1 ++ [overlay] /\
               mediaViewSelected w2 = mediaViewSelected w1 /\
               previous w2 = previous w1 /\ lastFocus w2 = lastFocus w1)
    by (repeat split).
  destruct M2 as (M1 & M2 & M3 & M4 & M5 & M6 & M7 & M8).
  change (hasModal (emit QueueUpdateDraw w4)) with (hasModal w4).
  change (modal (emit QueueUpdateDraw w4)) with (modal w4).
  change (focus (emit QueueUpdateDraw w4)) with (focus w4).
  change (lastFocus (emit QueueUpdateDraw w4)) with (lastFocus w4).
  change (modals (emit QueueUpdateDraw w4)) with (modals w4).
  change (grid (emit QueueUpdateDraw w4)) with (grid w4).
  change (mediaView (emit QueueUpdateDraw w4)) with (mediaView w4).
  change (mediaViewSelected (emit QueueUpdateDraw w4))
    with (mediaViewSelected w4).
  change (previous (emit QueueUpdateDraw w4)) with (previous w4).
  rewrite V1, V2, V3, V4, V5, V6, V7, V8, V9.
  rewrite K1, K2, K3, K4, F1, F2, F3, F4, F5.
  rewrite M1, M2, M3, M4, M5, M6, M7, M8.
  rewrite B1, B2, B3, B4, B5, B6, B7, B8.
  repeat split.
Qed.

Lemma stable_closeModal m w : stable w -> stable (closeModal m w).
Proof.
  intros Hs. destruct (hasModal w) eqn:H.
  - destruct (closeModal_open m w H) as (H1 & H2 & _ & _ & _ & H3 & H4 & _).
    destruct Hs as [_ Hg]. split.
    + right. split; assumption.
    + unfold oneCentralView in *. rewrite H3, H4. exact Hg.
  - unfold closeModal. rewrite H. apply (keeps_stable w); [repeat split|exact Hs].
Qed.

Lemma stable_showModal m height width lockSize w w' :
  stable w -> showModal m height width lockSize w = Some w' -> stable w'.
Proof.
  intros Hs Hshow. destruct (hasModal w) eqn:H.
  - unfold showModal in Hshow. rewrite H in Hshow. simpl in Hshow.
    injection Hshow as <-. apply (keeps_stable w); [repeat split|exact Hs].
  - destruct (focus w) as [f|] eqn:Hf.
    + destruct (showModal_closed m height width lockSize w f H Hf)
        as (w1 & E & H1 & H2 & _ & _ & _ & H3 & H4 & _).
      rewrite E in Hshow. injection Hshow as <-.
      destruct Hs as [_ Hg]. split.
      * left. rewrite H1, H2. eauto.
      * unfold oneCentralView in *. rewrite H3, H4. exact Hg.
    + unfold showModal in Hshow. rewrite H in Hshow.
      cbn [negb lastFocus set_lastFocus focus set_modal set_hasModal] in Hshow.
      rewrite Hf in Hshow. discriminate.
Qed.

(** *** Showing and closing a modal *)

(** Closing a modal that has just been shown gives the focus back to the
    primitive that had it and removes the overlay; the grid, the central
    view and the back links are as before, [hasModal] and the modal
    reference are cleared, and so is [lastFocus]. *)
Theorem close_after_show_restores_focus
    (m : ModalId) (height width : Z) (lockSize : bool)
    (w : Window) (f : Primitive) :
  hasModal w = false ->
  focus w = Some f ->
  Forall (fun o => overlayOf o <> m) (modals w) ->
  exists w',
    showModal m height width lockSize w = Some w' /\
    focus w' = Some (PModal m) /\ hasModal w' = true /\
    focus (closeModal m w') = Some f /\
    hasModal (closeModal m w') = false /\ modal (closeModal m w') = None /\
    lastFocus (closeModal m w') = None /\
    modals (closeModal m w') = modals w /\
    grid (closeModal m w') = grid w /\
    mediaView (closeModal m w') = mediaView w /\
    previous (closeModal m w') = previous w.
Proof.
  intros H Hf Hov.
  destruct (showModal_closed m height width lockSize w f H Hf)
    as (w' & E & H1 & H2 & H3 & H4 & H5 & H6 & H7 & H8 & H9).
  exists w'. split; [exact E|]. split; [exact H3|]. split; [exact H1|].
  destruct (closeModal_open m w' H1)
    as (C1 & C2 & C3 & C4 & C5 & C6 & C7 & C8 & C9).
  rewrite C1, C2, C3, C4, C5, C6, C7, C9, H4, H5, H6, H7, H9.
  repeat split.
  rewrite filter_app.
  rewrite (filter_cons_False _ _ [])
    by (intros Hn; apply Hn; destruct lockSize; reflexivity).
  rewrite filter_nil, app_nil_r.
  clear -Hov. induction Hov as [|o l Ho _ IH]; [reflexivity|].
  rewrite filter_cons_True by exact Ho. by rewrite IH.
Qed.

Lemma close_after_show_restores_focus_witness :
  hasModal Samples.onArtists = false /\
  focus Samples.onArtists = Some (PView ViewArtistList) /\
  exists w',
    showModal ModalHelp 25 50 true Samples.onArtists = Some w' /\
    focus (closeModal ModalHelp w') = Some (PView ViewArtistList).
Proof.
  split; [reflexivity|]. split; [reflexivity|].
  destruct (close_after_show_restores_focus ModalHelp 25 50 true
              Samples.onArtists (PView ViewArtistList))
    as (w' & E & _ & _ & Hfocus & _).
  - reflexivity.
  - reflexivity.
  - constructor.
  - exists w'. split; [exact E|exact Hfocus].
Defined.
(** *** Fields that the toolkit calls leave alone *)

Lemma hasModal_blur p w : hasModal (blur p w) = hasModal w.
Proof. destruct p as [| [] | | | |]; reflexivity. Qed.

Lemma hasModal_giveFocus p w : hasModal (giveFocus p w) = hasModal w.
Proof. destruct p as [| [] | | | |]; reflexivity. Qed.

Lemma hasModal_SetVisible m v w : hasModal (SetVisible m v w) = hasModal w.
Proof. destruct m; reflexivity. Qed.

Lemma hasModal_SetFocus p w : hasModal (SetFocus p w) = hasModal w.
Proof.
  unfold SetFocus. destruct p as [[| [] | | | |]|];
    destruct (focus w) as [[| [] | | | |]|]; reflexivity.
Qed.

Lemma modal_blur p w : modal (blur p w) = modal w.
Proof. destruct p as [| [] | | | |]; reflexivity. Qed.

Lemma modal_giveFocus p w : modal (giveFocus p w) = modal w.
Proof. destruct p as [| [] | | | |]; reflexivity. Qed.

Lemma modal_SetVisible m v w : modal (SetVisible m v w) = modal w.
Proof. destruct m; reflexivity. Qed.

Lemma modal_SetFocus p w : modal (SetFocus p w) = modal w.
Proof.
  unfold SetFocus. destruct p as [[| [] | | | |]|];
    destruct (focus w) as [[| [] | | | |]|]; reflexivity.
Qed.

Lemma grid_blur p w : grid (blur p w) = grid w.
Proof. destruct p as [| [] | | | |]; reflexivity. Qed.

Lemma grid_giveFocus p w : grid (giveFocus p w) = grid w.
Proof. destruct p as [| [] | | | |]; reflexivity. Qed.

Lemma grid_SetVisible m v w : grid (SetVisible m v w) = grid w.
Proof. destruct m; reflexivity. Qed.

Lemma grid_SetFocus p w : grid (SetFocus p w) = grid w.
Proof.
  unfold SetFocus. destruct p as [[| [] | | | |]|];
    destruct (focus w) as [[| [] | | | |]|]; reflexivity.
Qed.

Lemma mediaView_blur p w : mediaView (blur p w) = mediaView w.
Proof. destruct p as [| [] | | | |]; reflexivity. Qed.

Lemma mediaView_giveFocus p w : mediaView (giveFocus p w) = mediaView w.
Proof. destruct p as [| [] | | | |]; reflexivity. Qed.

Lemma mediaView_SetVisible m v w : mediaView (SetVisible m v w) = mediaView w.
Proof. destruct m; reflexivity. Qed.

Lemma mediaView_SetFocus p w : mediaView (SetFocus p w) = mediaView w.
Proof.
  unfold SetFocus. destruct p as [[| [] | | | |]|];
    destruct (focus w) as [[| [] | | | |]|]; reflexivity.
Qed.

Lemma mediaViewSelected_blur p w : mediaViewSelected (blur p w) = mediaViewSelected w.
Proof. destruct p as [| [] | | | |]; reflexivity. Qed.

Lemma mediaViewSelected_giveFocus p w : mediaViewSelected (giveFocus p w) = mediaViewSelected w.
Proof. destruct p as [| [] | | | |]; reflexivity. Qed.

Lemma mediaViewSelected_SetVisible m v w : mediaViewSelected (SetVisible m v w) = mediaViewSelected w.
Proof. destruct m; reflexivity. Qed.

Lemma mediaViewSelected_SetFocus p w : mediaViewSelected (SetFocus p w) = mediaViewSelected w.
Proof.
  unfold SetFocus. destruct p as [[| [] | | | |]|];
    destruct (focus w) as [[| [] | | | |]|]; reflexivity.
Qed.

Lemma modals_blur p w : modals (blur p w) = modals w.
Proof. destruct p as [| [] | | | |]; reflexivity. Qed.

Lemma modals_giveFocus p w : modals (giveFocus p w) = modals w.
Proof. destruct p as [| [] | | | |]; reflexivity. Qed.

Lemma modals_SetVisible m v w : modals (SetVisible m v w) = modals w.
Proof. destruct m; reflexivity. Qed.

Lemma modals_SetFocus p w : modals (SetFocus p w) = modals w.
Proof.
  unfold SetFocus. destruct p as [[| [] | | | |]|];
    destruct (focus w) as [[| [] | | | |]|]; reflexivity.
Qed.

Lemma previous_blur p w : previous (blur p w) = previous w.
Proof. destruct p as [| [] | | | |]; reflexivity. Qed.

Lemma previous_giveFocus p w : previous (giveFocus p w) = previous w.
Proof. destruct p as [| [] | | | |]; reflexivity. Qed.

Lemma previous_SetVisible m v w : previous (SetVisible m v w) = previous w.
Proof. destruct m; reflexivity. Qed.

Lemma previous_SetFocus p w : previous (SetFocus p w) = previous w.
Proof.
  unfold SetFocus. destruct p as [[| [] | | | |]|];
    destruct (focus w) as [[| [] | | | |]|]; reflexivity.
Qed.

Lemma lastFocus_blur p w : lastFocus (blur p w) = lastFocus w.
Proof. destruct p as [| [] | | | |]; reflexivity. Qed.

Lemma lastFocus_giveFocus p w : lastFocus (giveFocus p w) = lastFocus w.
Proof. destruct p as [| [] | | | |]; reflexivity. Qed.

Lemma lastFocus_SetVisible m v w : lastFocus (SetVisible m v w) = lastFocus w.
Proof. destruct m; reflexivity. Qed.

Lemma lastFocus_SetFocus p w : lastFocus (SetFocus p w) = lastFocus w.
Proof.
  unfold SetFocus. destruct p as [[| [] | | | |]|];
    destruct (focus w) as [[| [] | | | |]|]; reflexivity.
Qed.

Lemma focus_blur p w : focus (blur p w) = focus w.
Proof. destruct p as [| [] | | | |]; reflexivity. Qed.

Lemma focus_giveFocus p w : focus (giveFocus p w) = focus w.
Proof. destruct p as [| [] | | | |]; reflexivity. Qed.

Lemma focus_SetVisible m v w : focus (SetVisible m v w) = focus w.
Proof. destruct m; reflexivity. Qed.

Create Rewrite HintDb fields.

#[export] Hint Rewrite hasModal_blur hasModal_giveFocus hasModal_SetVisible hasModal_SetFocus : fields.
#[export] Hint Rewrite modal_blur modal_giveFocus modal_SetVisible modal_SetFocus : fields.
#[export] Hint Rewrite grid_blur grid_giveFocus grid_SetVisible grid_SetFocus : fields.
#[export] Hint Rewrite mediaView_blur mediaView_giveFocus mediaView_SetVisible mediaView_SetFocus : fields.
#[export] Hint Rewrite mediaViewSelected_blur mediaViewSelected_giveFocus mediaViewSelected_SetVisible mediaViewSelected_SetFocus : fields.
#[export] Hint Rewrite modals_blur modals_giveFocus modals_SetVisible modals_SetFocus : fields.
#[export] Hint Rewrite previous_blur previous_giveFocus previous_SetVisible previous_SetFocus : fields.
#[export] Hint Rewrite lastFocus_blur lastFocus_giveFocus lastFocus_SetVisible lastFocus_SetFocus : fields.
#[export] Hint Rewrite focus_blur focus_giveFocus focus_SetVisible : fields.
#[export] Hint Rewrite focus_SetFocus : fields.

Ltac fields :=
  repeat first
    [ progress cbn [focus grid modals modal mediaView mediaViewSelected
                    hasModal lastFocus previous
                    set_focus set_grid set_modals set_modal set_mediaView
                    set_mediaViewSelected set_hasModal set_lastFocus
                    set_previous set_trace set_help set_calls set_status
                    set_mediaNav set_albumList set_similarAlbums
                    set_latestAlbums set_favoriteAlbums set_playlist
                    set_searchResultsTop
                    emit logf tell SetCount ClearResults addItems
                    fmap option_fmap option_map]
    | progress autorewrite with fields ].


(** *** The Tab key *)

Lemma tab_no_modal w :
  hasModal w = false ->
  exists w',
    moveCtrl KeyTAB w = Some (w', true) /\
    hasModal w' = false /\ modal w' = modal w /\
    mediaViewSelected w' = negb (mediaViewSelected w) /\
    focus w' = (if mediaViewSelected w then Some PMediaNav
                else PView <$> mediaView w) /\
    mediaView w' = mediaView w /\ grid w' = grid w /\
    previous w' = previous w.
Proof.
  intros H. unfold moveCtrl. rewrite decide_True by reflexivity.
  rewrite H. cbn [mbind option_bind].
  destruct (mediaViewSelected w) eqn:Hsel.
  - eexists. split; [reflexivity|]. fields.
    destruct (mediaView w) eqn:Hv; fields; rewrite ?H, ?Hsel, ?Hv;
      repeat split.
  - eexists. split; [reflexivity|]. fields.
    destruct (focus w) eqn:Hf; fields; rewrite ?H, ?Hsel, ?Hf; repeat split.
Qed.

Lemma tab_closes_modal w m :
  hasModal w = true -> modal w = Some m ->
  moveCtrl KeyTAB w = moveCtrl KeyTAB (closeModal m w).
Proof.
  intros H Hm.
  destruct (closeModal_open m w H) as (C1 & _).
  unfold moveCtrl. rewrite decide_True by reflexivity.
  rewrite H, Hm, C1. reflexivity.
Qed.

Lemma moveCtrl_tab (w : Window) :
  modalConsistent w ->
  (exists w',
     moveCtrl KeyTAB w = Some (w', true) /\
     hasModal w' = false /\ modal w' = None /\
     mediaViewSelected w' = negb (mediaViewSelected w) /\
     focus w' = (if mediaViewSelected w then Some PMediaNav
                 else PView <$> mediaView w) /\
     mediaView w' = mediaView w /\ grid w' = grid w /\
     previous w' = previous w) /\
  (forall key, key <> KeyTAB -> moveCtrl key w = Some (w, false)).
Proof.
  intros Hc. split.
  - destruct Hc as [[H [m Hm]]|[H Hm]].
    + rewrite (tab_closes_modal w m H Hm).
      destruct (closeModal_open m w H)
        as (C1 & C2 & _ & _ & _ & C6 & C7 & C8 & C9).
      destruct (tab_no_modal (closeModal m w) C1)
        as (w' & E & T1 & T2 & T3 & T4 & T5 & T6 & T7).
      exists w'. rewrite E, T1, T2, T3, T4, T5, T6, T7, C2, C6, C7, C8, C9.
      repeat split.
    + destruct (tab_no_modal w H) as (w' & E & T1 & T2 & T3 & T4 & T5 & T6 & T7).
      exists w'. rewrite E, T1, T2, T3, T4, T5, T6, T7, Hm. repeat split.
  - intros key Hkey. unfold moveCtrl. rewrite decide_False by exact Hkey.
    reflexivity.
Qed.


(** Tab switches between the media navigation and the central view,
    whatever the window shows, as long as [hasModal] and the modal
    reference agree: an open modal is closed first, then the focus goes to
    the media navigation if the central view was selected and to the
    central view otherwise, and [mediaViewSelected] is inverted.  The
    central view, the grid and the back links stay.  Any other key is left
    alone by [moveCtrl]. *)
Theorem tab_switches_panels (w : Window) :
  modalConsistent w ->
  (exists w',
     moveCtrl KeyTAB w = Some (w', true) /\
     hasModal w' = false /\ modal w' = None /\
     mediaViewSelected w' = negb (mediaViewSelected w) /\
     focus w' = (if mediaViewSelected w then Some PMediaNav
                 else PView <$> mediaView w) /\
     mediaView w' = mediaView w /\ grid w' = grid w /\
     previous w' = previous w) /\
  (forall key, key <> KeyTAB -> moveCtrl key w = Some (w, false)).
Proof. apply moveCtrl_tab. Qed.

(** With the help modal open over the media navigation, Tab closes it and
    moves the focus to the central view. *)
Lemma tab_switches_panels_witness :
  modalConsistent Samples.withHelp /\
  exists w',
    moveCtrl KeyTAB Samples.withHelp = Some (w', true) /\
    hasModal w' = false /\ mediaViewSelected w' = true.
Proof.
  assert (Hc : modalConsistent Samples.withHelp).
  { left. split; [reflexivity|]. exists ModalHelp. reflexivity. }
  split; [exact Hc|].
  destruct (tab_switches_panels Samples.withHelp Hc)
    as [(w' & E & H1 & _ & H3 & _) _].
  exists w'. split; [exact E|]. split; [exact H1|]. exact H3.
Defined.

(** *** Keys bound to nothing *)

Lemma firstBound_unbound ctrls key :
  ~ In key (map (binding ctrls) controls) -> firstBound ctrls key = None.
Proof.
  intros Hnin. unfold firstBound.
  destruct (find _ controls) as [c|] eqn:Hfind; [|reflexivity].
  apply find_some in Hfind as [Hc Hb]. apply bool_decide_eq_true_1 in Hb.
  exfalso. apply Hnin. apply in_map_iff. exists c. split; assumption.
Qed.

(** A key that is bound to no playback control and to no button of the
    navigation bar and is not Tab goes through the three handlers
    untouched: the window does not change and the event is handed on to
    the primitive that has the focus. *)
Theorem unbound_keys_reach_the_views
    (cfg : Config.Config) (mediaItems : ItemController)
    (Volume_Add : Z -> Z -> Z) (ev : EventKey) (w : Window) :
  ~ In (Key_of ev) (map (binding (Config.KeyBinds_Global cfg)) controls) ->
  ~ In (Key_of ev) (navKeys (Config.KeyBinds_NavigationBar cfg)) ->
  Key_of ev <> KeyTAB ->
  keyHandler cfg mediaItems Volume_Add ev w = Some (w, Some (Key_of ev)) /\
  eventHandler cfg mediaItems Volume_Add ev w = Some (w, Some ev).
Proof.
  intros Hg Hn Ht.
  assert (Hk : keyHandler cfg mediaItems Volume_Add ev w
               = Some (w, Some (Key_of ev))).
  { unfold keyHandler.
    rewrite (WindowFacts.mediaCtrl_unbound cfg Volume_Add ev w
               (firstBound_unbound _ _ Hg)).
    unfold navBarCtrl, navKeys in *. simpl in Hn.
    rewrite !decide_False by (intros E; apply Hn; rewrite <- E; tauto).
    unfold moveCtrl. rewrite decide_False by exact Ht. reflexivity. }
  split; [exact Hk|]. unfold eventHandler. rewrite Hk. reflexivity.
Qed.

Lemma unbound_keys_reach_the_views_witness :
  ~ In 258 (map (binding Samples.keys) controls) /\
  eventHandler Samples.cfg Samples.items Samples.Volume_Add
    {| Key_of := KeyDown; Modifiers := ModNone |} Samples.onArtists
  = Some (Samples.onArtists, Some {| Key_of := KeyDown; Modifiers := ModNone |}).
Proof.
  assert (Hg : ~ In 258 (map (binding Samples.keys) controls)).
  { simpl. intros H. repeat destruct H as [H|H]; try discriminate H. exact H. }
  split; [exact Hg|].
  apply (unbound_keys_reach_the_views Samples.cfg Samples.items
           Samples.Volume_Add {| Key_of := KeyDown; Modifiers := ModNone |}
           Samples.onArtists).
  - exact Hg.
  - simpl. intros H. repeat destruct H as [H|H]; try discriminate H. exact H.
  - discriminate.
Defined.

(** *** An album chosen from the album view *)

Lemma back_on_self_link w s :
  mediaView w = Some s -> previous w !! s = Some s ->
  forall n, backs n w = w.
Proof.
  intros Hv Hp. induction n as [|n IH]; [reflexivity|].
  rewrite WindowFacts.backs_S, IH. unfold back. rewrite Hv, Hp.
  destruct (backCallback s); [|reflexivity].
  unfold goBack. apply WindowFacts.setViewWidget_same. exact Hv.
Qed.

(** When an album is chosen while the album view is the current view and
    its songs are fetched, the album view becomes its own back target:
    [SetLast] is given the current view before [setViewWidget] finds
    nothing to switch.  Back then never leaves the album view. *)
Theorem album_over_album_links_to_itself
    (mediaItems : ItemController) (album : Album) (w : Window) :
  mediaView w = Some ViewAlbum ->
  snd (GetAlbumSongs mediaItems (Album_Id album)) = None ->
  let w' := selectAlbum mediaItems album w in
  mediaView w' = Some ViewAlbum /\
  previous w' !! ViewAlbum = Some ViewAlbum /\
  (forall n, mediaView (backs n w') = Some ViewAlbum).
Proof.
  intros Hv Hfetch w'.
  assert (E : exists w0,
             w' = setViewWidget ViewAlbum true (SetLast ViewAlbum (mediaView w0) w0) /\
             mediaView w0 = mediaView w).
  { unfold w', selectAlbum.
    destruct (GetAlbumSongs mediaItems (Album_Id album)) as [songs err].
    simpl in Hfetch. subst err.
    destruct (GetAlbumArtist mediaItems album) as [artist [e|]];
      eexists; (split; [reflexivity|reflexivity]). }
  destruct E as (w0 & -> & Hw0). rewrite Hw0, Hv.
  assert (Hv1 : mediaView (SetLast ViewAlbum (Some ViewAlbum) w0) = Some ViewAlbum).
  { simpl. rewrite Hw0. exact Hv. }
  rewrite (WindowFacts.setViewWidget_same ViewAlbum true _ Hv1).
  assert (Hp1 : previous (SetLast ViewAlbum (Some ViewAlbum) w0) !! ViewAlbum
                = Some ViewAlbum) by apply lookup_insert_eq.
  split; [exact Hv1|]. split; [exact Hp1|].
  intros n. rewrite (back_on_self_link _ ViewAlbum Hv1 Hp1 n). exact Hv1.
Qed.

Lemma album_over_album_links_to_itself_witness :
  let w := selectAlbum Samples.items (Samples.album "x") Samples.onArtistAlbums in
  mediaView w = Some ViewAlbum /\
  previous w !! ViewAlbum = Some ViewAlbumList /\
  previous (selectAlbum Samples.items (Samples.album "y") w) !! ViewAlbum
  = Some ViewAlbum.
Proof.
  split; [reflexivity|]. split; [reflexivity|].
  apply (album_over_album_links_to_itself Samples.items (Samples.album "y")
           (selectAlbum Samples.items (Samples.album "x") Samples.onArtistAlbums)).
  - reflexivity.
  - reflexivity.
Defined.

(** *** What every event preserves *)

Lemma keeps_SetLast p last w : keeps w (SetLast p last w).
Proof. destruct last; repeat split. Qed.

Lemma keeps_onAlbumList s f w : keeps w (onAlbumList s f w).
Proof. destruct s; repeat split. Qed.

Lemma keeps_emit e w : keeps w (emit e w).
Proof. repeat split. Qed.

Lemma keeps_logf l msg w : keeps w (logf l msg w).
Proof. repeat split. Qed.

Lemma keeps_tell t m w : keeps w (tell t m w).
Proof. repeat split. Qed.

Lemma keeps_SetCount id count w : keeps w (SetCount id count w).
Proof. repeat split. Qed.

Ltac stable_step :=
  lazymatch goal with
  | H : stable ?w0 |- stable ?w0 => exact H
  | |- stable (setViewWidget _ _ _) => apply stable_setViewWidget
  | |- stable (closeModal _ _) => apply stable_closeModal
  | |- stable (SetLast ?p ?l ?w0) =>
      apply (keeps_stable w0 _ (keeps_SetLast p l w0))
  | |- stable (onAlbumList ?s ?f ?w0) =>
      apply (keeps_stable w0 _ (keeps_onAlbumList s f w0))
  | |- stable (emit ?e ?w0) => apply (keeps_stable w0 _ (keeps_emit e w0))
  | |- stable (logf ?l ?m ?w0) =>
      apply (keeps_stable w0 _ (keeps_logf l m w0))
  | |- stable (tell ?t ?m ?w0) =>
      apply (keeps_stable w0 _ (keeps_tell t m w0))
  | |- stable (SetCount ?i ?c ?w0) =>
      apply (keeps_stable w0 _ (keeps_SetCount i c w0))
  | |- stable (SetFocus ?p ?w0) =>
      apply (keeps_stable w0 _ (keeps_SetFocus p w0))
  | |- stable (?f ?w0) =>
      apply (keeps_stable w0);
      [split; [|split; [|split]]; reflexivity|]
  end.

Ltac stable_tac := repeat stable_step.

Ltac destruct_fetch :=
  repeat match goal with
    | |- context [GetLatestAlbums ?i] =>
        destruct (GetLatestAlbums i) as [? [?|]]
    | |- context [GetFavoriteArtists ?i] =>
        destruct (GetFavoriteArtists i) as [? [?|]]
    | |- context [GetPlaylists ?i] => destruct (GetPlaylists i) as [? [?|]]
    | |- context [GetSongs ?i ?a ?b] => destruct (GetSongs i a b) as [[? ?] [?|]]
    | |- context [GetRecentlyPlayed ?i ?a] =>
        destruct (GetRecentlyPlayed i a) as [[? ?] [?|]]
    | |- context [GetArtists ?i ?a] => destruct (GetArtists i a) as [[? ?] [?|]]
    | |- context [GetAlbumArtists ?i ?a] =>
        destruct (GetAlbumArtists i a) as [[? ?] [?|]]
    | |- context [GetAlbums ?i ?a] => destruct (GetAlbums i a) as [[? ?] [?|]]
    | |- context [GetFavoriteAlbums ?i ?a] =>
        destruct (GetFavoriteAlbums i a) as [[? ?] [?|]]
    | |- context [GetGenres ?i ?a] => destruct (GetGenres i a) as [[? ?] [?|]]
    | |- context [GetArtistAlbums ?i ?a] =>
        destruct (GetArtistAlbums i a) as [? [?|]]
    | |- context [GetAlbumSongs ?i ?a] =>
        destruct (GetAlbumSongs i a) as [? [?|]]
    | |- context [GetAlbumArtist ?i ?a] =>
        destruct (GetAlbumArtist i a) as [? [?|]]
    | |- context [GetPlaylistSongs ?i ?a] =>
        destruct (GetPlaylistSongs i a) as [? [?|]]
    | |- context [GetSimilarArtists ?i ?a] =>
        destruct (GetSimilarArtists i a) as [? [?|]]
    | |- context [GetSimilarAlbums ?i ?a] =>
        destruct (GetSimilarAlbums i a) as [? [?|]]
    | |- context [GetGenreAlbums ?i ?a] =>
        destruct (GetGenreAlbums i a) as [? [?|]]
    | |- context [Search ?i ?a ?b] => destruct (Search i a b) as [? [?|]]
    end.

(** Step through a method one [let] at a time: each window it binds is
    shown stable and then forgotten. *)
Ltac head_zeta :=
  lazymatch goal with
  | |- stable (let x := ?v in @?b x) =>
      let g := eval cbv beta in (b v) in change (stable g)
  end.

Ltac stable_let :=
  lazymatch goal with
  | |- stable (let x := ?a in _) =>
      lazymatch type of a with
      | Window =>
          tryif is_var a then head_zeta
          else (let H := fresh "Hs" in
                assert (H : stable a);
                [ | revert H; generalize a; intros ? H; head_zeta ])
      | _ => head_zeta
      end
  | |- stable (match ?x with _ => _ end) => progress cbv beta iota
  | |- stable ?w0 => tryif is_var w0 then assumption else stable_step
  end.

Ltac open_method f := cbv delta [f]; cbv beta.

Ltac stable_lets := repeat first [progress destruct_fetch | stable_let].

Section Events.

Variable cfg : Config.Config.
Variable mediaItems : ItemController.
Variable Volume_Add : Z -> Z -> Z.
Variable itemTypes : ItemTypes.

Lemma stable_showGenrePage paging w :
  stable w -> stable (showGenrePage mediaItems paging w).
Proof. intros Hs. unfold showGenrePage. destruct_fetch; stable_tac. Qed.

Lemma stable_selectMedia m w :
  stable w -> stable (selectMedia cfg mediaItems m w).
Proof.
  intros Hs.
  destruct m; try apply stable_showGenrePage; try exact Hs;
    unfold selectMedia;
    rewrite ?decide_True by reflexivity;
    rewrite ?decide_False by discriminate;
    cbv beta iota zeta; destruct_fetch; cbv beta iota zeta;
    try match goal with
        | |- context [Config.LimitRecentlyPlayed cfg] =>
            destruct (Config.LimitRecentlyPlayed cfg); cbn [negb]
        end;
    stable_tac.
Qed.

Lemma stable_showMessage msg height width lockSize w w' :
  stable w -> showMessage msg height width lockSize w = Some w' -> stable w'.
Proof.
  intros Hs. unfold showMessage. apply stable_showModal. stable_tac.
Qed.

Lemma stable_searchCb query w :
  stable w -> stable (searchCb cfg mediaItems query w).
Proof.
  intros Hs. unfold searchCb.
  assert (H : forall types w0,
             stable w0 -> stable (fold_left (searchType mediaItems query) types w0)).
  { induction types as [|t types IH]; intros w0 H0; [exact H0|].
    simpl. apply IH. unfold searchType. destruct_fetch;
      try case_decide; stable_tac. }
  apply H. stable_tac.
Qed.

Lemma stable_back w : stable w -> stable (back w).
Proof.
  intros Hs. unfold back, goBack.
  destruct (mediaView w) as [s|]; [|exact Hs].
  destruct (backCallback s); [|exact Hs].
  destruct (previous w !! s); stable_tac.
Qed.

Lemma stable_navBarCtrl key w w' b :
  stable w -> navBarCtrl cfg mediaItems key w = Some (w', b) -> stable w'.
Proof.
  intros Hs. unfold navBarCtrl.
  repeat case_decide.
  - intros [= <- _]. stable_tac.
  - destruct (showModal _ _ _ _ _) as [w1|] eqn:E; [|discriminate].
    intros [= <- _]. apply stable_showModal in E; [exact E|]. stable_tac.
  - intros [= <- _]. stable_tac.
  - intros [= <- _]. destruct (Help.hasFocus (help w)); stable_tac.
  - intros [= <- _]. destruct (Help.hasFocus (help w)); stable_tac.
  - intros [= <- _]. exact Hs.
Qed.

Lemma stable_moveCtrl key w w' b :
  stable w -> moveCtrl key w = Some (w', b) -> stable w'.
Proof.
  intros [Hm Hg] H.
  destruct (moveCtrl_tab w Hm) as [(w1 & E & H1 & H2 & _ & _ & H5 & H6 & _) Hother].
  destruct (decide (key = KeyTAB)) as [->|Hkey].
  - rewrite E in H. injection H as <- _. split.
    + right. split; assumption.
    + unfold oneCentralView in *. rewrite H5, H6. exact Hg.
  - rewrite (Hother key Hkey) in H. injection H as <- _. split; assumption.
Qed.

Lemma stable_keyHandler ev w w' k :
  stable w -> keyHandler cfg mediaItems Volume_Add ev w = Some (w', k) ->
  stable w'.
Proof.
  intros Hs. unfold keyHandler.
  destruct (firstBound (Config.KeyBinds_Global cfg) (Key_of ev)) as [c|] eqn:Hc.
  - rewrite (WindowFacts.mediaCtrl_bound cfg Volume_Add ev w c Hc).
    intros [= <- _]. stable_tac.
  - rewrite (WindowFacts.mediaCtrl_unbound cfg Volume_Add ev w Hc).
    destruct (navBarCtrl cfg mediaItems (Key_of ev) w) as [[w1 [|]]|] eqn:En;
      [| |discriminate].
    + intros [= <- _]. exact (stable_navBarCtrl _ _ _ _ Hs En).
    + pose proof (stable_navBarCtrl _ _ _ _ Hs En) as Hs1.
      destruct (moveCtrl (Key_of ev) w1) as [[w2 [|]]|] eqn:Em;
        [| |discriminate]; intros [= <- _];
        exact (stable_moveCtrl _ _ _ _ Hs1 Em).
Qed.

Ltac returned :=
  let He := fresh "He" in
  intros He; apply (inj Some) in He; rewrite <- He; clear He.

Lemma stable_showSearchResults itemType results w w' :
  stable w ->
  showSearchResults cfg itemTypes itemType results w = Some w' -> stable w'.
Proof.
  intros Hs. unfold showSearchResults.
  repeat case_decide; cbv beta iota zeta.
  - destruct (mapM id (map asAlbum results)); [|discriminate].
    returned. stable_tac.
  - returned. stable_tac.
  - returned. stable_tac.
  - returned. stable_tac.
  - returned. stable_tac.
  - returned. exact Hs.
Qed.
Lemma stable_perform op w w' :
  stable w -> perform cfg mediaItems Volume_Add itemTypes op w = Some w' -> stable w'.
Proof.
  intros Hs. destruct op; simpl.
  - unfold eventHandler.
    destruct (keyHandler cfg mediaItems Volume_Add event w) as [[w1 k]|] eqn:E;
      [|discriminate].
    destruct k; intros [= <-]; exact (stable_keyHandler _ _ _ _ Hs E).
  - intros [= <-]. apply stable_selectMedia, Hs.
  - intros [= <-]. open_method selectArtist. stable_lets.
  - intros [= <-]. open_method selectAlbum. stable_lets.
  - intros [= <-]. open_method selectPlaylist. stable_lets.
  - intros [= <-]. open_method selectGenre. stable_lets.
  - intros [= <-]. open_method selectSongs. stable_lets.
  - intros [= <-]. open_method showRecentSongsPage. stable_lets.
  - intros [= <-]. open_method showArtistPage. stable_lets.
  - intros [= <-]. open_method showAlbumPage. stable_lets.
  - intros [= <-]. apply stable_showGenrePage, Hs.
  - unfold showSimilarArtists. destruct_fetch.
    + intros [= <-]. stable_tac.
    + case_decide; [intros [= <-]; stable_tac|].
      apply stable_showMessage. stable_tac.
  - unfold showSimilarAlbums. destruct_fetch.
    + intros [= <-]. stable_tac.
    + case_decide; [intros [= <-]; stable_tac|].
      apply stable_showMessage. stable_tac.
  - intros [= <-]. unfold closeMessage. stable_tac.
  - intros [= <-]. unfold wrapCloseModal. stable_tac.
  - intros [= <-]. apply stable_back, Hs.
  - intros [= <-]. apply stable_searchCb, Hs.
  - intros [= <-]. unfold statusCb. stable_tac.
  - intros [= <-]. unfold playSongs. stable_tac.
  - intros [= <-]. unfold clearQueue. stable_tac.
  - intros [= <-]. unfold playSong, playSongs. stable_tac.
  - apply stable_showSearchResults, Hs.
  - intros [= <-]. exact Hs.
Qed.

Lemma stable_NewWindow state : stable (NewWindow state).
Proof. split; [right; split; reflexivity|reflexivity]. Qed.

Lemma stable_performAll ops :
  forall w w',
    stable w -> performAll cfg mediaItems Volume_Add itemTypes ops w = Some w' ->
    stable w'.
Proof.
  induction ops as [|op ops IH]; intros w w' Hs; simpl.
  - intros [= <-]. exact Hs.
  - destruct (perform cfg mediaItems Volume_Add itemTypes op w) as [w1|] eqn:E;
      [|discriminate].
    apply IH. exact (stable_perform _ _ _ Hs E).
Qed.

(** From a new window, whatever keys arrive and whatever the views call
    back, [hasModal] and the modal reference agree: either a modal is
    recorded and [hasModal] is set, or neither.  So Tab, which closes the
    recorded modal, never meets a [nil] modal. *)
Theorem modal_state_stays_consistent
    (state : AudioStatus) (ops : list Op) (w : Window) :
  performAll cfg mediaItems Volume_Add itemTypes ops (NewWindow state) = Some w ->
  (hasModal w = true /\ is_Some (modal w) \/
   hasModal w = false /\ modal w = None) /\
  (forall key, is_Some (moveCtrl key w)).
Proof.
  intros H.
  destruct (stable_performAll ops _ _ (stable_NewWindow state) H) as [Hm _].
  split; [exact Hm|].
  intros key. destruct (moveCtrl_tab w Hm) as [(w1 & E & _) Hother].
  destruct (decide (key = KeyTAB)) as [->|Hkey];
    [rewrite E|rewrite (Hother key Hkey)]; eauto.
Qed.

(** From a new window, whatever keys arrive and whatever the views call
    back, the grid holds the navigation bar, the media navigation and the
    status bar and, after them, exactly the current central view when
    there is one: no view that was replaced stays in the layout. *)
Theorem grid_holds_the_current_view
    (state : AudioStatus) (ops : list Op) (w : Window) :
  performAll cfg mediaItems Volume_Add itemTypes ops (NewWindow state) = Some w ->
  grid w = [PNavBar; PMediaNav; PStatus] ++ option_list (PView <$> mediaView w).
Proof.
  intros H.
  destruct (stable_performAll ops _ _ (stable_NewWindow state) H) as [_ Hg].
  exact Hg.
Qed.

End Events.

(** A session: artists, one artist, one album, help, Tab, back, search. *)
Lemma modal_state_stays_consistent_witness :
  exists w,
    performAll Samples.cfg Samples.items Samples.Volume_Add
      Samples.itemTypes Samples.session
      (NewWindow Samples.quiet) = Some w /\
    hasModal w = false /\ modal w = None.
Proof.
  assert (E : performAll Samples.cfg Samples.items Samples.Volume_Add
                Samples.itemTypes Samples.session (NewWindow Samples.quiet)
              = Some Samples.afterSession) by (vm_compute; reflexivity).
  exists Samples.afterSession. split; [exact E|].
  destruct (modal_state_stays_consistent Samples.cfg Samples.items
              Samples.Volume_Add Samples.itemTypes Samples.quiet Samples.session _ E)
    as [[[Hh _]|Hn] _].
  - vm_compute in Hh. discriminate Hh.
  - exact Hn.
Defined.

Lemma grid_holds_the_current_view_witness :
  exists w,
    performAll Samples.cfg Samples.items Samples.Volume_Add
      Samples.itemTypes Samples.session
      (NewWindow Samples.quiet) = Some w /\
    mediaView w = Some ViewSongs /\
    grid w = [PNavBar; PMediaNav; PStatus; PView ViewSongs].
Proof.
  assert (E : performAll Samples.cfg Samples.items Samples.Volume_Add
                Samples.itemTypes Samples.session (NewWindow Samples.quiet)
              = Some Samples.afterSession) by (vm_compute; reflexivity).
  assert (Hv : mediaView Samples.afterSession = Some ViewSongs)
    by (vm_compute; reflexivity).
  exists Samples.afterSession. split; [exact E|]. split; [exact Hv|].
  rewrite (grid_holds_the_current_view Samples.cfg Samples.items
             Samples.Volume_Add Samples.itemTypes Samples.quiet Samples.session _ E).
  rewrite Hv. reflexivity.
Defined.

(** *** The results of a search *)


End WindowMore.
